(** * Per-key overrides of the Apertus provider and their persistence codec

    A shallow embedding of two parts of the Bifrost gateway:

    - [tables]: the GORM hooks [BeforeSave] and [AfterFind] of the
      [config_providers], [config_keys] and [config_client] tables
      (framework/configstore/tables), which move provider-specific key
      overrides and other configuration between their in-memory form and
      their columns;
    - [apertus]: the Apertus provider (core/providers/apertus), which resolves
      a base URL per key and dispatches every request shape to the handlers it
      shares with the OpenAI provider; and [providers], the same provider in
      its earlier revision.

    Go values are modelled as follows: [string] is Go's [string]; a pointer that
    the code only tests against [nil] and dereferences is an [option]; a map
    [map[string]string] is an [option (gmap string string)], [None] being the
    nil map; a slice whose nil-ness is tested is an [option (list _)].  A method
    that mutates its receiver and returns an [error] is a computation in the
    monad [hook], which threads the receiver and stops at the first error. *)

From Stdlib Require Import String Ascii List NArith ZArith Lia.
From stdpp Require Import base option list gmap strings.

Local Open Scope string_scope.

(** ** Go values *)

(** Go's [error] interface; only the message is observable here. *)
Inductive error : Type := Error (msg : string).

Inductive result (A : Type) : Type :=
  | Ok (a : A)
  | Err (e : error).
Arguments Ok {A} a.
Arguments Err {A} e.

(** The zero value [var x T] of a Go type. *)
Class GoZero (A : Type) : Type := go_zero : A.
#[global] Instance option_zero {A} : GoZero (option A) := None.
#[global] Instance string_zero : GoZero string := "".

(** [s != ""]. *)
Definition nonempty (s : string) : bool := negb (String.eqb s "").

(** [strings.TrimRight(s, "/")]: [s] without its trailing slashes. *)
Definition slash : ascii := "/"%char.

Fixpoint TrimRight_slash (s : string) : string :=
  match s with
  | EmptyString => EmptyString
  | String c s' =>
      match TrimRight_slash s' with
      | EmptyString => if Ascii.eqb c slash then EmptyString else String c EmptyString
      | r => String c r
      end
  end.

(** A string made of slashes only (the empty string included). *)
Fixpoint only_slashes (s : string) : bool :=
  match s with
  | EmptyString => true
  | String c s' => Ascii.eqb c slash && only_slashes s'
  end.

(** Whether the last character of a string is a slash. *)
Fixpoint ends_with_slash (s : string) : bool :=
  match s with
  | EmptyString => false
  | String c EmptyString => Ascii.eqb c slash
  | String _ s' => ends_with_slash s'
  end.

(** ** Receiver-passing computations

    [hook S A] is a Go method with receiver [*S] returning [(A, error)]: it
    yields the receiver as the method left it and either a value or the error
    it returned. *)

Definition hook (S A : Type) : Type := S → S * result A.

#[global] Instance hook_ret {S} : MRet (hook S) := λ A a k, (k, Ok a).

#[global] Instance hook_bind {S} : MBind (hook S) := λ A B f m k,
  match m k with
  | (k', Ok a) => f a k'
  | (k', Err e) => (k', Err e)
  end.

Definition receiver {S} : hook S S := λ k, (k, Ok k).
Definition assign {S} (f : S → S) : hook S unit := λ k, (f k, Ok tt).
Definition try {S A} (r : result A) : hook S A := λ k, (k, r).

(** A hook leaves a part [part] of its receiver as it was, whether it returns
    an error or not. *)
Definition unchanged {S A B} (part : S → B) (m : hook S A) : Prop :=
  ∀ k, part (m k).1 = part k.

(** ** The JSON libraries

    [encoding/json] and [sonic] are libraries, not part of the repository: they
    are taken as an interface.  [json_Unmarshal data x] is
    [json.Unmarshal(data, &x)] given the value [x] that the target holds before
    the call. *)

Class JSON (A : Type) : Type := {
  json_Marshal : A → result string;
  sonic_Marshal : A → result string;
  json_Unmarshal : string → A → result A;
}.

(** What a lossless codec needs from them: both encoders succeed on every value
    and never produce the empty text, and [json.Unmarshal] into a fresh variable
    reads back what either of them wrote. *)
Class JSONLawful (A : Type) `{GoZero A, JSON A} : Prop := {
  json_Marshal_total : ∀ a : A, ∃ s, json_Marshal a = Ok s;
  sonic_Marshal_total : ∀ a : A, ∃ s, sonic_Marshal a = Ok s;
  json_Marshal_nonempty : ∀ (a : A) s, json_Marshal a = Ok s → s ≠ "";
  sonic_Marshal_nonempty : ∀ (a : A) s, sonic_Marshal a = Ok s → s ≠ "";
  json_Unmarshal_Marshal : ∀ (a : A) s, json_Marshal a = Ok s → json_Unmarshal s go_zero = Ok a;
  json_Unmarshal_sonic : ∀ (a : A) s, sonic_Marshal a = Ok s → json_Unmarshal s go_zero = Ok a;
}.

(** For a nil slice the hooks write the text of the empty array themselves; it
    reads back as the empty slice. *)
Class JSONEmptyArray `{JSON (option (list string))} : Prop :=
  json_Unmarshal_empty_array :
    json_Unmarshal "[]" (None : option (list string)) = Ok (Some []).

(** An encoder and [json.Unmarshal] agree on a value: the encoder writes a text
    that is not empty, and [json.Unmarshal] into a fresh variable reads the
    value back from it. *)
Definition reads_back {A : Type} `{GoZero A, JSON A} (encode : A → result string) (a : A)
  : Prop :=
  match encode a with
  | Ok s => nonempty s = true ∧ json_Unmarshal s go_zero = Ok a
  | Err _ => False
  end.

(** A later call of [sonic.Marshal].  [sonic] writes the members of a map in
    the order in which Go iterates over the map, and that order is not fixed:
    two calls on the same map may return different texts.  [encoding/json]
    sorts the keys, so [json.Marshal] is the same function at every call.
    [sonic_again encode] is the libraries at a later call, [encode] being what
    [sonic.Marshal] returns then. *)
Definition sonic_again {A : Type} `{JSON A} (encode : A → result string) : JSON A :=
  {| json_Marshal := json_Marshal; sonic_Marshal := encode;
     json_Unmarshal := json_Unmarshal |}.

(** ** core/schemas: the per-key override values *)

Module schemas.

Module AzureKeyConfig.
Record t : Type := mk {
  Endpoint : string;
  APIVersion : option string;
  Deployments : option (gmap string string);
}.
End AzureKeyConfig.

Module VertexKeyConfig.
Record t : Type := mk {
  ProjectID : string;
  Region : string;
  AuthCredentials : string;
}.
End VertexKeyConfig.

Module BedrockKeyConfig.
Record t : Type := mk {
  AccessKey : string;
  SecretKey : string;
  SessionToken : option string;
  Region : option string;
  ARN : option string;
  Deployments : option (gmap string string);
}.
End BedrockKeyConfig.

(** Modelled from the spec: the declaration of [ApertusKeyConfig]
    (core/schemas/account.go) is not among the sources; the override value
    holds an endpoint and a mapping from public to backend model names. *)
Module ApertusKeyConfig.
Record t : Type := mk {
  Endpoint : string;
  ModelNameMappings : option (gmap string string);
}.
End ApertusKeyConfig.

(** A credential of one provider, with the override of the Apertus provider.
    Of the fields of [schemas.Key] these are the ones the provider reads. *)
Module Key.
Record t : Type := mk {
  ID : string;
  Value : string;
  Models : list string;
  ApertusKeyConfig : option ApertusKeyConfig.t;
}.
End Key.

(** [schemas.Apertus] is the provider name of the documentation. *)
Definition ModelProvider : Type := string.
Definition Apertus : ModelProvider := "apertus".

Inductive RequestType : Type :=
  | ListModelsRequest
  | TextCompletionRequest
  | TextCompletionStreamRequest
  | ChatCompletionRequest
  | ChatCompletionStreamRequest
  | ResponsesRequest
  | ResponsesStreamRequest
  | EmbeddingRequest
  | SpeechRequest
  | SpeechStreamRequest
  | TranscriptionRequest
  | TranscriptionStreamRequest.

#[global] Instance RequestType_eq_dec : EqDecision RequestType.
Proof. solve_decision. Defined.

Module NetworkConfig.
Record t : Type := mk {
  BaseURL : string;
  ExtraHeaders : option (gmap string string);
  DefaultRequestTimeoutInSeconds : Z;
  MaxRetries : Z;
  RetryBackoffInitial : Z;
  RetryBackoffMax : Z;
}.
End NetworkConfig.

(** The fields of [schemas.ProviderConfig] that reach the provider; the
    others only configure the HTTP client.  A custom provider configuration is
    handed over to the helpers of [providerUtils] as it is, so its type is a
    parameter. *)
Module ProviderConfig.
Record t {CustomProviderConfigT : Type} : Type := mk {
  NetworkConfig : NetworkConfig.t;
  SendBackRawResponse : bool;
  CustomProviderConfig : option CustomProviderConfigT;
}.
Arguments t : clear implicits.
End ProviderConfig.

(** The request shapes have one thing in common for the provider: their
    [Model] field.  The rest of a request is carried along untouched. *)
Module BifrostRequest.
Record t : Type := mk {
  Model : string;
  Input : string;
}.
End BifrostRequest.

Module BifrostResponseExtraFields.
Record t : Type := mk {
  Provider : ModelProvider;
  RequestType : RequestType;
  Latency : Z;
}.
End BifrostResponseExtraFields.

(** A response of any shape: its payload and its metadata. *)
Module BifrostResponse.
Record t : Type := mk {
  Output : string;
  ExtraFields : BifrostResponseExtraFields.t;
}.
End BifrostResponse.

Module BifrostErrorExtraFields.
Record t : Type := mk {
  Provider : ModelProvider;
  RequestType : RequestType;
}.
End BifrostErrorExtraFields.

Module BifrostError.
Record t : Type := mk {
  Message : string;
  ExtraFields : BifrostErrorExtraFields.t;
}.
End BifrostError.

(** An event of a stream: a fragment of a response or an error. *)
Inductive BifrostStream : Type :=
  | StreamResponse (response : BifrostResponse.t)
  | StreamError (err : BifrostError.t).

Module Model.
Record t : Type := mk {
  ID : string;
  OwnedBy : option string;
}.
End Model.

Module BifrostListModelsResponse.
Record t : Type := mk {
  Data : list Model.t;
  ExtraFields : BifrostResponseExtraFields.t;
}.
End BifrostListModelsResponse.

End schemas.

(** ** framework/configstore/tables *)

Module tables.

(** *** [TableKey], the [config_keys] row

    The columns come first, the virtual fields (tagged [gorm:"-"], not stored)
    last.  [Weight], [CreatedAt] and [UpdatedAt] are left out: no hook reads or
    writes them. *)
Module TableKey.

Record t : Type := mk {
  ID : N;
  Name : string;
  ProviderID : N;
  Provider : string;
  KeyID : string;
  Value : string;
  ModelsJSON : string;
  AzureEndpoint : option string;
  AzureAPIVersion : option string;
  AzureDeploymentsJSON : option string;
  VertexProjectID : option string;
  VertexRegion : option string;
  VertexAuthCredentials : option string;
  BedrockAccessKey : option string;
  BedrockSecretKey : option string;
  BedrockSessionToken : option string;
  BedrockRegion : option string;
  BedrockARN : option string;
  BedrockDeploymentsJSON : option string;
  ApertusEndpoint : option string;
  Models : option (list string);
  AzureKeyConfig : option schemas.AzureKeyConfig.t;
  VertexKeyConfig : option schemas.VertexKeyConfig.t;
  BedrockKeyConfig : option schemas.BedrockKeyConfig.t;
  ApertusKeyConfig : option schemas.ApertusKeyConfig.t;
}.

Definition set_ModelsJSON (v : string) (k : t) : t :=
  {| ID := ID k; Name := Name k; ProviderID := ProviderID k; Provider := Provider k; KeyID := KeyID
  k; Value := Value k; ModelsJSON := v; AzureEndpoint := AzureEndpoint k; AzureAPIVersion :=
  AzureAPIVersion k; AzureDeploymentsJSON := AzureDeploymentsJSON k; VertexProjectID :=
  VertexProjectID k; VertexRegion := VertexRegion k; VertexAuthCredentials := VertexAuthCredentials
  k; BedrockAccessKey := BedrockAccessKey k; BedrockSecretKey := BedrockSecretKey k;
  BedrockSessionToken := BedrockSessionToken k; BedrockRegion := BedrockRegion k; BedrockARN :=
  BedrockARN k; BedrockDeploymentsJSON := BedrockDeploymentsJSON k; ApertusEndpoint :=
  ApertusEndpoint k; Models := Models k; AzureKeyConfig := AzureKeyConfig k; VertexKeyConfig :=
  VertexKeyConfig k; BedrockKeyConfig := BedrockKeyConfig k; ApertusKeyConfig := ApertusKeyConfig k
  |}.

Definition set_AzureEndpoint (v : option string) (k : t) : t :=
  {| ID := ID k; Name := Name k; ProviderID := ProviderID k; Provider := Provider k; KeyID := KeyID
  k; Value := Value k; ModelsJSON := ModelsJSON k; AzureEndpoint := v; AzureAPIVersion :=
  AzureAPIVersion k; AzureDeploymentsJSON := AzureDeploymentsJSON k; VertexProjectID :=
  VertexProjectID k; VertexRegion := VertexRegion k; VertexAuthCredentials := VertexAuthCredentials
  k; BedrockAccessKey := BedrockAccessKey k; BedrockSecretKey := BedrockSecretKey k;
  BedrockSessionToken := BedrockSessionToken k; BedrockRegion := BedrockRegion k; BedrockARN :=
  BedrockARN k; BedrockDeploymentsJSON := BedrockDeploymentsJSON k; ApertusEndpoint :=
  ApertusEndpoint k; Models := Models k; AzureKeyConfig := AzureKeyConfig k; VertexKeyConfig :=
  VertexKeyConfig k; BedrockKeyConfig := BedrockKeyConfig k; ApertusKeyConfig := ApertusKeyConfig k
  |}.

Definition set_AzureAPIVersion (v : option string) (k : t) : t :=
  {| ID := ID k; Name := Name k; ProviderID := ProviderID k; Provider := Provider k; KeyID := KeyID
  k; Value := Value k; ModelsJSON := ModelsJSON k; AzureEndpoint := AzureEndpoint k; AzureAPIVersion
  := v; AzureDeploymentsJSON := AzureDeploymentsJSON k; VertexProjectID := VertexProjectID k;
  VertexRegion := VertexRegion k; VertexAuthCredentials := VertexAuthCredentials k; BedrockAccessKey
  := BedrockAccessKey k; BedrockSecretKey := BedrockSecretKey k; BedrockSessionToken :=
  BedrockSessionToken k; BedrockRegion := BedrockRegion k; BedrockARN := BedrockARN k;
  BedrockDeploymentsJSON := BedrockDeploymentsJSON k; ApertusEndpoint := ApertusEndpoint k; Models
  := Models k; AzureKeyConfig := AzureKeyConfig k; VertexKeyConfig := VertexKeyConfig k;
  BedrockKeyConfig := BedrockKeyConfig k; ApertusKeyConfig := ApertusKeyConfig k |}.

Definition set_AzureDeploymentsJSON (v : option string) (k : t) : t :=
  {| ID := ID k; Name := Name k; ProviderID := ProviderID k; Provider := Provider k; KeyID := KeyID
  k; Value := Value k; ModelsJSON := ModelsJSON k; AzureEndpoint := AzureEndpoint k; AzureAPIVersion
  := AzureAPIVersion k; AzureDeploymentsJSON := v; VertexProjectID := VertexProjectID k;
  VertexRegion := VertexRegion k; VertexAuthCredentials := VertexAuthCredentials k; BedrockAccessKey
  := BedrockAccessKey k; BedrockSecretKey := BedrockSecretKey k; BedrockSessionToken :=
  BedrockSessionToken k; BedrockRegion := BedrockRegion k; BedrockARN := BedrockARN k;
  BedrockDeploymentsJSON := BedrockDeploymentsJSON k; ApertusEndpoint := ApertusEndpoint k; Models
  := Models k; AzureKeyConfig := AzureKeyConfig k; VertexKeyConfig := VertexKeyConfig k;
  BedrockKeyConfig := BedrockKeyConfig k; ApertusKeyConfig := ApertusKeyConfig k |}.

Definition set_VertexProjectID (v : option string) (k : t) : t :=
  {| ID := ID k; Name := Name k; ProviderID := ProviderID k; Provider := Provider k; KeyID := KeyID
  k; Value := Value k; ModelsJSON := ModelsJSON k; AzureEndpoint := AzureEndpoint k; AzureAPIVersion
  := AzureAPIVersion k; AzureDeploymentsJSON := AzureDeploymentsJSON k; VertexProjectID := v;
  VertexRegion := VertexRegion k; VertexAuthCredentials := VertexAuthCredentials k; BedrockAccessKey
  := BedrockAccessKey k; BedrockSecretKey := BedrockSecretKey k; BedrockSessionToken :=
  BedrockSessionToken k; BedrockRegion := BedrockRegion k; BedrockARN := BedrockARN k;
  BedrockDeploymentsJSON := BedrockDeploymentsJSON k; ApertusEndpoint := ApertusEndpoint k; Models
  := Models k; AzureKeyConfig := AzureKeyConfig k; VertexKeyConfig := VertexKeyConfig k;
  BedrockKeyConfig := BedrockKeyConfig k; ApertusKeyConfig := ApertusKeyConfig k |}.

Definition set_VertexRegion (v : option string) (k : t) : t :=
  {| ID := ID k; Name := Name k; ProviderID := ProviderID k; Provider := Provider k; KeyID := KeyID
  k; Value := Value k; ModelsJSON := ModelsJSON k; AzureEndpoint := AzureEndpoint k; AzureAPIVersion
  := AzureAPIVersion k; AzureDeploymentsJSON := AzureDeploymentsJSON k; VertexProjectID :=
  VertexProjectID k; VertexRegion := v; VertexAuthCredentials := VertexAuthCredentials k;
  BedrockAccessKey := BedrockAccessKey k; BedrockSecretKey := BedrockSecretKey k;
  BedrockSessionToken := BedrockSessionToken k; BedrockRegion := BedrockRegion k; BedrockARN :=
  BedrockARN k; BedrockDeploymentsJSON := BedrockDeploymentsJSON k; ApertusEndpoint :=
  ApertusEndpoint k; Models := Models k; AzureKeyConfig := AzureKeyConfig k; VertexKeyConfig :=
  VertexKeyConfig k; BedrockKeyConfig := BedrockKeyConfig k; ApertusKeyConfig := ApertusKeyConfig k
  |}.

Definition set_VertexAuthCredentials (v : option string) (k : t) : t :=
  {| ID := ID k; Name := Name k; ProviderID := ProviderID k; Provider := Provider k; KeyID := KeyID
  k; Value := Value k; ModelsJSON := ModelsJSON k; AzureEndpoint := AzureEndpoint k; AzureAPIVersion
  := AzureAPIVersion k; AzureDeploymentsJSON := AzureDeploymentsJSON k; VertexProjectID :=
  VertexProjectID k; VertexRegion := VertexRegion k; VertexAuthCredentials := v; BedrockAccessKey :=
  BedrockAccessKey k; BedrockSecretKey := BedrockSecretKey k; BedrockSessionToken :=
  BedrockSessionToken k; BedrockRegion := BedrockRegion k; BedrockARN := BedrockARN k;
  BedrockDeploymentsJSON := BedrockDeploymentsJSON k; ApertusEndpoint := ApertusEndpoint k; Models
  := Models k; AzureKeyConfig := AzureKeyConfig k; VertexKeyConfig := VertexKeyConfig k;
  BedrockKeyConfig := BedrockKeyConfig k; ApertusKeyConfig := ApertusKeyConfig k |}.

Definition set_BedrockAccessKey (v : option string) (k : t) : t :=
  {| ID := ID k; Name := Name k; ProviderID := ProviderID k; Provider := Provider k; KeyID := KeyID
  k; Value := Value k; ModelsJSON := ModelsJSON k; AzureEndpoint := AzureEndpoint k; AzureAPIVersion
  := AzureAPIVersion k; AzureDeploymentsJSON := AzureDeploymentsJSON k; VertexProjectID :=
  VertexProjectID k; VertexRegion := VertexRegion k; VertexAuthCredentials := VertexAuthCredentials
  k; BedrockAccessKey := v; BedrockSecretKey := BedrockSecretKey k; BedrockSessionToken :=
  BedrockSessionToken k; BedrockRegion := BedrockRegion k; BedrockARN := BedrockARN k;
  BedrockDeploymentsJSON := BedrockDeploymentsJSON k; ApertusEndpoint := ApertusEndpoint k; Models
  := Models k; AzureKeyConfig := AzureKeyConfig k; VertexKeyConfig := VertexKeyConfig k;
  BedrockKeyConfig := BedrockKeyConfig k; ApertusKeyConfig := ApertusKeyConfig k |}.

Definition set_BedrockSecretKey (v : option string) (k : t) : t :=
  {| ID := ID k; Name := Name k; ProviderID := ProviderID k; Provider := Provider k; KeyID := KeyID
  k; Value := Value k; ModelsJSON := ModelsJSON k; AzureEndpoint := AzureEndpoint k; AzureAPIVersion
  := AzureAPIVersion k; AzureDeploymentsJSON := AzureDeploymentsJSON k; VertexProjectID :=
  VertexProjectID k; VertexRegion := VertexRegion k; VertexAuthCredentials := VertexAuthCredentials
  k; BedrockAccessKey := BedrockAccessKey k; BedrockSecretKey := v; BedrockSessionToken :=
  BedrockSessionToken k; BedrockRegion := BedrockRegion k; BedrockARN := BedrockARN k;
  BedrockDeploymentsJSON := BedrockDeploymentsJSON k; ApertusEndpoint := ApertusEndpoint k; Models
  := Models k; AzureKeyConfig := AzureKeyConfig k; VertexKeyConfig := VertexKeyConfig k;
  BedrockKeyConfig := BedrockKeyConfig k; ApertusKeyConfig := ApertusKeyConfig k |}.

Definition set_BedrockSessionToken (v : option string) (k : t) : t :=
  {| ID := ID k; Name := Name k; ProviderID := ProviderID k; Provider := Provider k; KeyID := KeyID
  k; Value := Value k; ModelsJSON := ModelsJSON k; AzureEndpoint := AzureEndpoint k; AzureAPIVersion
  := AzureAPIVersion k; AzureDeploymentsJSON := AzureDeploymentsJSON k; VertexProjectID :=
  VertexProjectID k; VertexRegion := VertexRegion k; VertexAuthCredentials := VertexAuthCredentials
  k; BedrockAccessKey := BedrockAccessKey k; BedrockSecretKey := BedrockSecretKey k;
  BedrockSessionToken := v; BedrockRegion := BedrockRegion k; BedrockARN := BedrockARN k;
  BedrockDeploymentsJSON := BedrockDeploymentsJSON k; ApertusEndpoint := ApertusEndpoint k; Models
  := Models k; AzureKeyConfig := AzureKeyConfig k; VertexKeyConfig := VertexKeyConfig k;
  BedrockKeyConfig := BedrockKeyConfig k; ApertusKeyConfig := ApertusKeyConfig k |}.

Definition set_BedrockRegion (v : option string) (k : t) : t :=
  {| ID := ID k; Name := Name k; ProviderID := ProviderID k; Provider := Provider k; KeyID := KeyID
  k; Value := Value k; ModelsJSON := ModelsJSON k; AzureEndpoint := AzureEndpoint k; AzureAPIVersion
  := AzureAPIVersion k; AzureDeploymentsJSON := AzureDeploymentsJSON k; VertexProjectID :=
  VertexProjectID k; VertexRegion := VertexRegion k; VertexAuthCredentials := VertexAuthCredentials
  k; BedrockAccessKey := BedrockAccessKey k; BedrockSecretKey := BedrockSecretKey k;
  BedrockSessionToken := BedrockSessionToken k; BedrockRegion := v; BedrockARN := BedrockARN k;
  BedrockDeploymentsJSON := BedrockDeploymentsJSON k; ApertusEndpoint := ApertusEndpoint k; Models
  := Models k; AzureKeyConfig := AzureKeyConfig k; VertexKeyConfig := VertexKeyConfig k;
  BedrockKeyConfig := BedrockKeyConfig k; ApertusKeyConfig := ApertusKeyConfig k |}.

Definition set_BedrockARN (v : option string) (k : t) : t :=
  {| ID := ID k; Name := Name k; ProviderID := ProviderID k; Provider := Provider k; KeyID := KeyID
  k; Value := Value k; ModelsJSON := ModelsJSON k; AzureEndpoint := AzureEndpoint k; AzureAPIVersion
  := AzureAPIVersion k; AzureDeploymentsJSON := AzureDeploymentsJSON k; VertexProjectID :=
  VertexProjectID k; VertexRegion := VertexRegion k; VertexAuthCredentials := VertexAuthCredentials
  k; BedrockAccessKey := BedrockAccessKey k; BedrockSecretKey := BedrockSecretKey k;
  BedrockSessionToken := BedrockSessionToken k; BedrockRegion := BedrockRegion k; BedrockARN := v;
  BedrockDeploymentsJSON := BedrockDeploymentsJSON k; ApertusEndpoint := ApertusEndpoint k; Models
  := Models k; AzureKeyConfig := AzureKeyConfig k; VertexKeyConfig := VertexKeyConfig k;
  BedrockKeyConfig := BedrockKeyConfig k; ApertusKeyConfig := ApertusKeyConfig k |}.

Definition set_BedrockDeploymentsJSON (v : option string) (k : t) : t :=
  {| ID := ID k; Name := Name k; ProviderID := ProviderID k; Provider := Provider k; KeyID := KeyID
  k; Value := Value k; ModelsJSON := ModelsJSON k; AzureEndpoint := AzureEndpoint k; AzureAPIVersion
  := AzureAPIVersion k; AzureDeploymentsJSON := AzureDeploymentsJSON k; VertexProjectID :=
  VertexProjectID k; VertexRegion := VertexRegion k; VertexAuthCredentials := VertexAuthCredentials
  k; BedrockAccessKey := BedrockAccessKey k; BedrockSecretKey := BedrockSecretKey k;
  BedrockSessionToken := BedrockSessionToken k; BedrockRegion := BedrockRegion k; BedrockARN :=
  BedrockARN k; BedrockDeploymentsJSON := v; ApertusEndpoint := ApertusEndpoint k; Models := Models
  k; AzureKeyConfig := AzureKeyConfig k; VertexKeyConfig := VertexKeyConfig k; BedrockKeyConfig :=
  BedrockKeyConfig k; ApertusKeyConfig := ApertusKeyConfig k |}.

Definition set_ApertusEndpoint (v : option string) (k : t) : t :=
  {| ID := ID k; Name := Name k; ProviderID := ProviderID k; Provider := Provider k; KeyID := KeyID
  k; Value := Value k; ModelsJSON := ModelsJSON k; AzureEndpoint := AzureEndpoint k; AzureAPIVersion
  := AzureAPIVersion k; AzureDeploymentsJSON := AzureDeploymentsJSON k; VertexProjectID :=
  VertexProjectID k; VertexRegion := VertexRegion k; VertexAuthCredentials := VertexAuthCredentials
  k; BedrockAccessKey := BedrockAccessKey k; BedrockSecretKey := BedrockSecretKey k;
  BedrockSessionToken := BedrockSessionToken k; BedrockRegion := BedrockRegion k; BedrockARN :=
  BedrockARN k; BedrockDeploymentsJSON := BedrockDeploymentsJSON k; ApertusEndpoint := v; Models :=
  Models k; AzureKeyConfig := AzureKeyConfig k; VertexKeyConfig := VertexKeyConfig k;
  BedrockKeyConfig := BedrockKeyConfig k; ApertusKeyConfig := ApertusKeyConfig k |}.

Definition set_Models (v : option (list string)) (k : t) : t :=
  {| ID := ID k; Name := Name k; ProviderID := ProviderID k; Provider := Provider k; KeyID := KeyID
  k; Value := Value k; ModelsJSON := ModelsJSON k; AzureEndpoint := AzureEndpoint k; AzureAPIVersion
  := AzureAPIVersion k; AzureDeploymentsJSON := AzureDeploymentsJSON k; VertexProjectID :=
  VertexProjectID k; VertexRegion := VertexRegion k; VertexAuthCredentials := VertexAuthCredentials
  k; BedrockAccessKey := BedrockAccessKey k; BedrockSecretKey := BedrockSecretKey k;
  BedrockSessionToken := BedrockSessionToken k; BedrockRegion := BedrockRegion k; BedrockARN :=
  BedrockARN k; BedrockDeploymentsJSON := BedrockDeploymentsJSON k; ApertusEndpoint :=
  ApertusEndpoint k; Models := v; AzureKeyConfig := AzureKeyConfig k; VertexKeyConfig :=
  VertexKeyConfig k; BedrockKeyConfig := BedrockKeyConfig k; ApertusKeyConfig := ApertusKeyConfig k
  |}.

Definition set_AzureKeyConfig (v : option schemas.AzureKeyConfig.t) (k : t) : t :=
  {| ID := ID k; Name := Name k; ProviderID := ProviderID k; Provider := Provider k; KeyID := KeyID
  k; Value := Value k; ModelsJSON := ModelsJSON k; AzureEndpoint := AzureEndpoint k; AzureAPIVersion
  := AzureAPIVersion k; AzureDeploymentsJSON := AzureDeploymentsJSON k; VertexProjectID :=
  VertexProjectID k; VertexRegion := VertexRegion k; VertexAuthCredentials := VertexAuthCredentials
  k; BedrockAccessKey := BedrockAccessKey k; BedrockSecretKey := BedrockSecretKey k;
  BedrockSessionToken := BedrockSessionToken k; BedrockRegion := BedrockRegion k; BedrockARN :=
  BedrockARN k; BedrockDeploymentsJSON := BedrockDeploymentsJSON k; ApertusEndpoint :=
  ApertusEndpoint k; Models := Models k; AzureKeyConfig := v; VertexKeyConfig := VertexKeyConfig k;
  BedrockKeyConfig := BedrockKeyConfig k; ApertusKeyConfig := ApertusKeyConfig k |}.

Definition set_VertexKeyConfig (v : option schemas.VertexKeyConfig.t) (k : t) : t :=
  {| ID := ID k; Name := Name k; ProviderID := ProviderID k; Provider := Provider k; KeyID := KeyID
  k; Value := Value k; ModelsJSON := ModelsJSON k; AzureEndpoint := AzureEndpoint k; AzureAPIVersion
  := AzureAPIVersion k; AzureDeploymentsJSON := AzureDeploymentsJSON k; VertexProjectID :=
  VertexProjectID k; VertexRegion := VertexRegion k; VertexAuthCredentials := VertexAuthCredentials
  k; BedrockAccessKey := BedrockAccessKey k; BedrockSecretKey := BedrockSecretKey k;
  BedrockSessionToken := BedrockSessionToken k; BedrockRegion := BedrockRegion k; BedrockARN :=
  BedrockARN k; BedrockDeploymentsJSON := BedrockDeploymentsJSON k; ApertusEndpoint :=
  ApertusEndpoint k; Models := Models k; AzureKeyConfig := AzureKeyConfig k; VertexKeyConfig := v;
  BedrockKeyConfig := BedrockKeyConfig k; ApertusKeyConfig := ApertusKeyConfig k |}.

Definition set_BedrockKeyConfig (v : option schemas.BedrockKeyConfig.t) (k : t) : t :=
  {| ID := ID k; Name := Name k; ProviderID := ProviderID k; Provider := Provider k; KeyID := KeyID
  k; Value := Value k; ModelsJSON := ModelsJSON k; AzureEndpoint := AzureEndpoint k; AzureAPIVersion
  := AzureAPIVersion k; AzureDeploymentsJSON := AzureDeploymentsJSON k; VertexProjectID :=
  VertexProjectID k; VertexRegion := VertexRegion k; VertexAuthCredentials := VertexAuthCredentials
  k; BedrockAccessKey := BedrockAccessKey k; BedrockSecretKey := BedrockSecretKey k;
  BedrockSessionToken := BedrockSessionToken k; BedrockRegion := BedrockRegion k; BedrockARN :=
  BedrockARN k; BedrockDeploymentsJSON := BedrockDeploymentsJSON k; ApertusEndpoint :=
  ApertusEndpoint k; Models := Models k; AzureKeyConfig := AzureKeyConfig k; VertexKeyConfig :=
  VertexKeyConfig k; BedrockKeyConfig := v; ApertusKeyConfig := ApertusKeyConfig k |}.

Definition set_ApertusKeyConfig (v : option schemas.ApertusKeyConfig.t) (k : t) : t :=
  {| ID := ID k; Name := Name k; ProviderID := ProviderID k; Provider := Provider k; KeyID := KeyID
  k; Value := Value k; ModelsJSON := ModelsJSON k; AzureEndpoint := AzureEndpoint k; AzureAPIVersion
  := AzureAPIVersion k; AzureDeploymentsJSON := AzureDeploymentsJSON k; VertexProjectID :=
  VertexProjectID k; VertexRegion := VertexRegion k; VertexAuthCredentials := VertexAuthCredentials
  k; BedrockAccessKey := BedrockAccessKey k; BedrockSecretKey := BedrockSecretKey k;
  BedrockSessionToken := BedrockSessionToken k; BedrockRegion := BedrockRegion k; BedrockARN :=
  BedrockARN k; BedrockDeploymentsJSON := BedrockDeploymentsJSON k; ApertusEndpoint :=
  ApertusEndpoint k; Models := Models k; AzureKeyConfig := AzureKeyConfig k; VertexKeyConfig :=
  VertexKeyConfig k; BedrockKeyConfig := BedrockKeyConfig k; ApertusKeyConfig := v |}.

Section hooks.
Context `{JSON (option (list string)), JSON (option (gmap string string))}.

Import schemas.

(** The five blocks of [BeforeSave], in order. *)
Definition save_Models : hook t unit :=
  k ← receiver;
  match Models k with
  | Some _ =>
      data ← try (json_Marshal (Models k));
      assign (set_ModelsJSON data)
  | None => assign (set_ModelsJSON "[]")
  end.

(** [k.AzureEndpoint = &k.AzureKeyConfig.Endpoint] stores a pointer into the
    configuration; nothing writes through it before the row is stored, so the
    column is modelled by the value it points to. *)
Definition save_Azure : hook t unit :=
  k ← receiver;
  match AzureKeyConfig k with
  | Some c =>
      (if nonempty (AzureKeyConfig.Endpoint c)
       then assign (set_AzureEndpoint (Some (AzureKeyConfig.Endpoint c)))
       else assign (set_AzureEndpoint None));;
      assign (set_AzureAPIVersion (AzureKeyConfig.APIVersion c));;
      match AzureKeyConfig.Deployments c with
      | Some _ =>
          data ← try (json_Marshal (AzureKeyConfig.Deployments c));
          assign (set_AzureDeploymentsJSON (Some data))
      | None => assign (set_AzureDeploymentsJSON None)
      end
  | None =>
      assign (set_AzureEndpoint None);;
      assign (set_AzureAPIVersion None);;
      assign (set_AzureDeploymentsJSON None)
  end.

Definition save_Vertex : hook t unit :=
  k ← receiver;
  match VertexKeyConfig k with
  | Some c =>
      (if nonempty (VertexKeyConfig.ProjectID c)
       then assign (set_VertexProjectID (Some (VertexKeyConfig.ProjectID c)))
       else assign (set_VertexProjectID None));;
      (if nonempty (VertexKeyConfig.Region c)
       then assign (set_VertexRegion (Some (VertexKeyConfig.Region c)))
       else assign (set_VertexRegion None));;
      (if nonempty (VertexKeyConfig.AuthCredentials c)
       then assign (set_VertexAuthCredentials (Some (VertexKeyConfig.AuthCredentials c)))
       else assign (set_VertexAuthCredentials None))
  | None =>
      assign (set_VertexProjectID None);;
      assign (set_VertexRegion None);;
      assign (set_VertexAuthCredentials None)
  end.

Definition save_Bedrock : hook t unit :=
  k ← receiver;
  match BedrockKeyConfig k with
  | Some c =>
      (if nonempty (BedrockKeyConfig.AccessKey c)
       then assign (set_BedrockAccessKey (Some (BedrockKeyConfig.AccessKey c)))
       else assign (set_BedrockAccessKey None));;
      (if nonempty (BedrockKeyConfig.SecretKey c)
       then assign (set_BedrockSecretKey (Some (BedrockKeyConfig.SecretKey c)))
       else assign (set_BedrockSecretKey None));;
      assign (set_BedrockSessionToken (BedrockKeyConfig.SessionToken c));;
      assign (set_BedrockRegion (BedrockKeyConfig.Region c));;
      assign (set_BedrockARN (BedrockKeyConfig.ARN c));;
      match BedrockKeyConfig.Deployments c with
      | Some _ =>
          data ← try (sonic_Marshal (BedrockKeyConfig.Deployments c));
          assign (set_BedrockDeploymentsJSON (Some data))
      | None => assign (set_BedrockDeploymentsJSON None)
      end
  | None =>
      assign (set_BedrockAccessKey None);;
      assign (set_BedrockSecretKey None);;
      assign (set_BedrockSessionToken None);;
      assign (set_BedrockRegion None);;
      assign (set_BedrockARN None);;
      assign (set_BedrockDeploymentsJSON None)
  end.

Definition save_Apertus : hook t unit :=
  k ← receiver;
  match ApertusKeyConfig k with
  | Some c =>
      if nonempty (ApertusKeyConfig.Endpoint c)
      then assign (set_ApertusEndpoint (Some (ApertusKeyConfig.Endpoint c)))
      else assign (set_ApertusEndpoint None)
  | None => assign (set_ApertusEndpoint None)
  end.

(** [func (k *TableKey) BeforeSave(tx *gorm.DB) error] *)
Definition BeforeSave : hook t unit :=
  save_Models;; save_Azure;; save_Vertex;; save_Bedrock;; save_Apertus;; mret tt.

(** The five blocks of [AfterFind], in order. *)
Definition find_Models : hook t unit :=
  k ← receiver;
  if nonempty (ModelsJSON k) then
    models ← try (json_Unmarshal (ModelsJSON k) (Models k));
    assign (set_Models models)
  else mret tt.

(** Reconstruct Azure config if fields are present. *)
Definition find_Azure : hook t unit :=
  k ← receiver;
  match AzureEndpoint k with
  | Some _ =>
      let Endpoint := match AzureEndpoint k with Some e => e | None => "" end in
      Deployments ←
        match AzureDeploymentsJSON k with
        | Some data => try (json_Unmarshal data (go_zero : option (gmap string string)))
        | None => mret None
        end;
      assign (set_AzureKeyConfig
                (Some (AzureKeyConfig.mk Endpoint (AzureAPIVersion k) Deployments)))
  | None => mret tt
  end.

(** Reconstruct Vertex config if fields are present. *)
Definition find_Vertex : hook t unit :=
  k ← receiver;
  if bool_decide (is_Some (VertexProjectID k)) || bool_decide (is_Some (VertexRegion k))
     || bool_decide (is_Some (VertexAuthCredentials k))
  then
    assign (set_VertexKeyConfig
              (Some (VertexKeyConfig.mk (default "" (VertexProjectID k))
                       (default "" (VertexRegion k))
                       (default "" (VertexAuthCredentials k)))))
  else mret tt.

(** The sixth disjunct of the Bedrock test:
    [k.BedrockDeploymentsJSON != nil && *k.BedrockDeploymentsJSON != ""]. *)
Definition present_nonempty (col : option string) : bool :=
  match col with
  | Some s => nonempty s
  | None => false
  end.

(** Reconstruct Bedrock config if fields are present. *)
Definition find_Bedrock : hook t unit :=
  k ← receiver;
  if bool_decide (is_Some (BedrockAccessKey k)) || bool_decide (is_Some (BedrockSecretKey k))
     || bool_decide (is_Some (BedrockSessionToken k)) || bool_decide (is_Some (BedrockRegion k))
     || bool_decide (is_Some (BedrockARN k)) || present_nonempty (BedrockDeploymentsJSON k)
  then
    Deployments ←
      match BedrockDeploymentsJSON k with
      | Some data => try (json_Unmarshal data (go_zero : option (gmap string string)))
      | None => mret None
      end;
    assign (set_BedrockKeyConfig
              (Some (BedrockKeyConfig.mk (default "" (BedrockAccessKey k))
                       (default "" (BedrockSecretKey k))
                       (BedrockSessionToken k) (BedrockRegion k) (BedrockARN k)
                       Deployments)))
  else mret tt.

(** Reconstruct Apertus config if fields are present. *)
Definition find_Apertus : hook t unit :=
  k ← receiver;
  match ApertusEndpoint k with
  | Some e => assign (set_ApertusKeyConfig (Some (ApertusKeyConfig.mk e None)))
  | None => mret tt
  end.

(** [func (k *TableKey) AfterFind(tx *gorm.DB) error] *)
Definition AfterFind : hook t unit :=
  find_Models;; find_Azure;; find_Vertex;; find_Bedrock;; find_Apertus;; mret tt.

End hooks.

(** What the store hands to [AfterFind]: a row scanned into a new struct, with
    its columns filled in and its virtual fields, which the store skips, at
    their zero value. *)
Definition scan (k : t) : t :=
  set_ApertusKeyConfig None (set_BedrockKeyConfig None (set_VertexKeyConfig None
    (set_AzureKeyConfig None (set_Models None k)))).

(** Whether every field of an override holds its zero value: the empty string,
    the nil pointer, the nil map. *)
Definition azure_empty (c : schemas.AzureKeyConfig.t) : bool :=
  negb (nonempty (schemas.AzureKeyConfig.Endpoint c))
  && bool_decide (schemas.AzureKeyConfig.APIVersion c = None)
  && bool_decide (schemas.AzureKeyConfig.Deployments c = None).

Definition vertex_empty (c : schemas.VertexKeyConfig.t) : bool :=
  negb (nonempty (schemas.VertexKeyConfig.ProjectID c))
  && negb (nonempty (schemas.VertexKeyConfig.Region c))
  && negb (nonempty (schemas.VertexKeyConfig.AuthCredentials c)).

Definition bedrock_empty (c : schemas.BedrockKeyConfig.t) : bool :=
  negb (nonempty (schemas.BedrockKeyConfig.AccessKey c))
  && negb (nonempty (schemas.BedrockKeyConfig.SecretKey c))
  && bool_decide (schemas.BedrockKeyConfig.SessionToken c = None)
  && bool_decide (schemas.BedrockKeyConfig.Region c = None)
  && bool_decide (schemas.BedrockKeyConfig.ARN c = None)
  && bool_decide (schemas.BedrockKeyConfig.Deployments c = None).

Definition apertus_empty (c : schemas.ApertusKeyConfig.t) : bool :=
  negb (nonempty (schemas.ApertusKeyConfig.Endpoint c))
  && bool_decide (schemas.ApertusKeyConfig.ModelNameMappings c = None).

(** The normalization of the round trip: an override whose every field is
    empty is the absent override. *)
Definition normalize {A : Type} (empty : A → bool) (v : option A) : option A :=
  match v with
  | Some c => if empty c then None else Some c
  | None => None
  end.

(** The override values of a row, and their columns. *)
Definition overrides (k : t) :=
  (AzureKeyConfig k, VertexKeyConfig k, BedrockKeyConfig k, ApertusKeyConfig k).

Definition normalized_overrides (k : t) :=
  (normalize azure_empty (AzureKeyConfig k), normalize vertex_empty (VertexKeyConfig k),
   normalize bedrock_empty (BedrockKeyConfig k), normalize apertus_empty (ApertusKeyConfig k)).

Definition azure_columns (k : t) := (AzureEndpoint k, AzureAPIVersion k, AzureDeploymentsJSON k).
Definition vertex_columns (k : t) := (VertexProjectID k, VertexRegion k, VertexAuthCredentials k).
Definition bedrock_columns (k : t) :=
  (BedrockAccessKey k, BedrockSecretKey k, BedrockSessionToken k, BedrockRegion k, BedrockARN k,
   BedrockDeploymentsJSON k).

(** The Bedrock columns that hold a field as it is, and the deployments of the
    Bedrock override, which go through [sonic.Marshal]. *)
Definition bedrock_scalars (k : t) :=
  (BedrockAccessKey k, BedrockSecretKey k, BedrockSessionToken k, BedrockRegion k, BedrockARN k).

Definition bedrock_deployments (k : t) : option (gmap string string) :=
  c ← BedrockKeyConfig k; schemas.BedrockKeyConfig.Deployments c.

(** The part of an Apertus override that has a column: its endpoint. *)
Definition stored_apertus (v : option schemas.ApertusKeyConfig.t)
  : option schemas.ApertusKeyConfig.t :=
  (λ c, schemas.ApertusKeyConfig.mk (schemas.ApertusKeyConfig.Endpoint c) None) <$> v.

(** The overrides of a row as far as they have columns, normalized. *)
Definition stored_overrides (k : t) :=
  (normalize azure_empty (AzureKeyConfig k), normalize vertex_empty (VertexKeyConfig k),
   normalize bedrock_empty (BedrockKeyConfig k),
   normalize apertus_empty (stored_apertus (ApertusKeyConfig k))).

(** The overrides that this codec reads back as it wrote them: an Azure
    override with an endpoint (or with no field at all), an Apertus override
    without model name mappings. *)
Definition azure_keyed (v : option schemas.AzureKeyConfig.t) : bool :=
  match v with
  | Some c => nonempty (schemas.AzureKeyConfig.Endpoint c) || azure_empty c
  | None => true
  end.

Definition apertus_unmapped (v : option schemas.ApertusKeyConfig.t) : bool :=
  match v with
  | Some c => bool_decide (schemas.ApertusKeyConfig.ModelNameMappings c = None)
  | None => true
  end.

Definition no_overrides :
  option schemas.AzureKeyConfig.t * option schemas.VertexKeyConfig.t
  * option schemas.BedrockKeyConfig.t * option schemas.ApertusKeyConfig.t :=
  (None, None, None, None).

Section round_trip.
Context `{JSON (option (list string)), JSON (option (gmap string string))}.

(** The two directions of the codec, group by group: the columns that
    [BeforeSave] writes for an override when the encoders succeed, and the
    override that [AfterFind] builds from the columns of a scanned row.  They
    are related to the hooks by [BeforeSave_Ok] and [AfterFind_scan] below. *)
Definition text (r : result string) : string :=
  match r with
  | Ok s => s
  | Err _ => ""
  end.

Definition kept (s : string) : option string := if nonempty s then Some s else None.

Definition models_encoded (v : option (list string)) : string :=
  match v with
  | Some _ => text (json_Marshal v)
  | None => "[]"
  end.

Definition azure_encoded (v : option schemas.AzureKeyConfig.t) :=
  match v with
  | Some c =>
      (kept (schemas.AzureKeyConfig.Endpoint c), schemas.AzureKeyConfig.APIVersion c,
       match schemas.AzureKeyConfig.Deployments c with
       | Some _ => Some (text (json_Marshal (schemas.AzureKeyConfig.Deployments c)))
       | None => None
       end)
  | None => (None, None, None)
  end.

Definition vertex_encoded (v : option schemas.VertexKeyConfig.t) :=
  match v with
  | Some c =>
      (kept (schemas.VertexKeyConfig.ProjectID c), kept (schemas.VertexKeyConfig.Region c),
       kept (schemas.VertexKeyConfig.AuthCredentials c))
  | None => (None, None, None)
  end.

Definition bedrock_encoded (v : option schemas.BedrockKeyConfig.t) :=
  match v with
  | Some c =>
      (kept (schemas.BedrockKeyConfig.AccessKey c), kept (schemas.BedrockKeyConfig.SecretKey c),
       schemas.BedrockKeyConfig.SessionToken c, schemas.BedrockKeyConfig.Region c,
       schemas.BedrockKeyConfig.ARN c,
       match schemas.BedrockKeyConfig.Deployments c with
       | Some _ => Some (text (sonic_Marshal (schemas.BedrockKeyConfig.Deployments c)))
       | None => None
       end)
  | None => (None, None, None, None, None, None)
  end.

Definition apertus_encoded (v : option schemas.ApertusKeyConfig.t) : option string :=
  match v with
  | Some c => kept (schemas.ApertusKeyConfig.Endpoint c)
  | None => None
  end.

Definition deployments_decoded (col : option string) : result (option (gmap string string)) :=
  match col with
  | Some data => json_Unmarshal data None
  | None => Ok None
  end.

Definition azure_decoded (cols : option string * option string * option string)
  : result (option schemas.AzureKeyConfig.t) :=
  let '(endpoint, version, deployments) := cols in
  match endpoint with
  | Some e =>
      match deployments_decoded deployments with
      | Ok d => Ok (Some (schemas.AzureKeyConfig.mk e version d))
      | Err err => Err err
      end
  | None => Ok None
  end.

Definition vertex_decoded (cols : option string * option string * option string)
  : option schemas.VertexKeyConfig.t :=
  let '(project, region, credentials) := cols in
  if bool_decide (is_Some project) || bool_decide (is_Some region)
     || bool_decide (is_Some credentials)
  then Some (schemas.VertexKeyConfig.mk (default "" project) (default "" region)
               (default "" credentials))
  else None.

Definition bedrock_decoded
    (cols : option string * option string * option string * option string * option string
            * option string) : result (option schemas.BedrockKeyConfig.t) :=
  let '(access, secret, token, region, arn, deployments) := cols in
  if bool_decide (is_Some access) || bool_decide (is_Some secret) || bool_decide (is_Some token)
     || bool_decide (is_Some region) || bool_decide (is_Some arn) || present_nonempty deployments
  then
    match deployments_decoded deployments with
    | Ok d =>
        Ok (Some (schemas.BedrockKeyConfig.mk (default "" access) (default "" secret) token
                    region arn d))
    | Err err => Err err
    end
  else Ok None.

Definition models_decoded (k : t) : result (option (list string)) :=
  if nonempty (ModelsJSON k) then json_Unmarshal (ModelsJSON k) None else Ok None.

Definition apertus_decoded (col : option string) : option schemas.ApertusKeyConfig.t :=
  match col with
  | Some e => Some (schemas.ApertusKeyConfig.mk e None)
  | None => None
  end.

(** What the round trip of a row needs from the JSON libraries, on the values
    of that row: [json.Marshal] and [json.Unmarshal] agree on its list of
    models (a nil list is written as the text of the empty array by the hook
    itself, and that text is read as the empty list) and on the deployments of
    its Azure override, [sonic.Marshal] and [json.Unmarshal] agree on the
    deployments of its Bedrock override. *)
Definition models_read_back (v : option (list string)) : Prop :=
  match v with
  | Some _ => reads_back json_Marshal v
  | None => json_Unmarshal "[]" (None : option (list string)) = Ok (Some [])
  end.

Definition deployments_read_back (encode : option (gmap string string) → result string)
    (v : option (gmap string string)) : Prop :=
  match v with
  | Some _ => reads_back encode v
  | None => True
  end.

Definition libraries_read_back (k : t) : Prop :=
  models_read_back (Models k)
  ∧ match AzureKeyConfig k with
    | Some c => deployments_read_back json_Marshal (schemas.AzureKeyConfig.Deployments c)
    | None => True
    end
  ∧ match BedrockKeyConfig k with
    | Some c => deployments_read_back sonic_Marshal (schemas.BedrockKeyConfig.Deployments c)
    | None => True
    end.

(** The round trip of the override values of a row: the row is saved, scanned
    back and found, both hooks succeed, and the overrides found are the
    normalized overrides saved. *)
Definition round_trip (k : t) : Prop :=
  ∃ k1 k2, BeforeSave k = (k1, Ok tt) ∧ AfterFind (scan k1) = (k2, Ok tt) ∧
           overrides k2 = normalized_overrides k.

(** The reconstruction rule in its general form: after a successful
    [AfterFind] on a scanned row, a group has an override if and only if one
    of its columns is non-null. *)
Definition reconstructs_when_a_column_is_set (k : t) : Prop :=
  ∀ k', AfterFind (scan k) = (k', Ok tt) →
    (is_Some (AzureKeyConfig k') ↔
       is_Some (AzureEndpoint k) ∨ is_Some (AzureAPIVersion k)
       ∨ is_Some (AzureDeploymentsJSON k))
    ∧ (is_Some (VertexKeyConfig k') ↔
         is_Some (VertexProjectID k) ∨ is_Some (VertexRegion k)
         ∨ is_Some (VertexAuthCredentials k))
    ∧ (is_Some (BedrockKeyConfig k') ↔
         is_Some (BedrockAccessKey k) ∨ is_Some (BedrockSecretKey k)
         ∨ is_Some (BedrockSessionToken k) ∨ is_Some (BedrockRegion k)
         ∨ is_Some (BedrockARN k) ∨ is_Some (BedrockDeploymentsJSON k))
    ∧ (is_Some (ApertusKeyConfig k') ↔ is_Some (ApertusEndpoint k)).

End round_trip.

(** The columns that identify the key and hold its secret, which no hook
    writes. *)
Definition identity (k : t) := (ID k, Name k, ProviderID k, Provider k, KeyID k, Value k).

End TableKey.

(** *** [TableProvider], the [config_providers] row

    The hooks only serialize the four configuration structs, so they are
    embedded for any representation of them; [BaseProviderType] is the one
    field that [BeforeSave] reads.  The [Keys] and [Models] relations and the
    timestamps are left out: no hook reads or writes them. *)
Module TableProvider.

Section row.
Context {NetworkConfigT ConcurrencyAndBufferSizeT ProxyConfigT CustomProviderConfigT : Type}.

Record t : Type := mk {
  ID : N;
  Name : string;
  NetworkConfigJSON : string;
  ConcurrencyBufferJSON : string;
  ProxyConfigJSON : string;
  CustomProviderConfigJSON : string;
  SendBackRawResponse : bool;
  NetworkConfig : option NetworkConfigT;
  ConcurrencyAndBufferSize : option ConcurrencyAndBufferSizeT;
  ProxyConfig : option ProxyConfigT;
  CustomProviderConfig : option CustomProviderConfigT;
}.

Definition set_NetworkConfigJSON (v : string) (p : t) : t :=
  {| ID := ID p; Name := Name p; NetworkConfigJSON := v; ConcurrencyBufferJSON :=
  ConcurrencyBufferJSON p; ProxyConfigJSON := ProxyConfigJSON p; CustomProviderConfigJSON :=
  CustomProviderConfigJSON p; SendBackRawResponse := SendBackRawResponse p; NetworkConfig :=
  NetworkConfig p; ConcurrencyAndBufferSize := ConcurrencyAndBufferSize p; ProxyConfig :=
  ProxyConfig p; CustomProviderConfig := CustomProviderConfig p |}.

Definition set_ConcurrencyBufferJSON (v : string) (p : t) : t :=
  {| ID := ID p; Name := Name p; NetworkConfigJSON := NetworkConfigJSON p; ConcurrencyBufferJSON :=
  v; ProxyConfigJSON := ProxyConfigJSON p; CustomProviderConfigJSON := CustomProviderConfigJSON p;
  SendBackRawResponse := SendBackRawResponse p; NetworkConfig := NetworkConfig p;
  ConcurrencyAndBufferSize := ConcurrencyAndBufferSize p; ProxyConfig := ProxyConfig p;
  CustomProviderConfig := CustomProviderConfig p |}.

Definition set_ProxyConfigJSON (v : string) (p : t) : t :=
  {| ID := ID p; Name := Name p; NetworkConfigJSON := NetworkConfigJSON p; ConcurrencyBufferJSON :=
  ConcurrencyBufferJSON p; ProxyConfigJSON := v; CustomProviderConfigJSON :=
  CustomProviderConfigJSON p; SendBackRawResponse := SendBackRawResponse p; NetworkConfig :=
  NetworkConfig p; ConcurrencyAndBufferSize := ConcurrencyAndBufferSize p; ProxyConfig :=
  ProxyConfig p; CustomProviderConfig := CustomProviderConfig p |}.

Definition set_CustomProviderConfigJSON (v : string) (p : t) : t :=
  {| ID := ID p; Name := Name p; NetworkConfigJSON := NetworkConfigJSON p; ConcurrencyBufferJSON :=
  ConcurrencyBufferJSON p; ProxyConfigJSON := ProxyConfigJSON p; CustomProviderConfigJSON := v;
  SendBackRawResponse := SendBackRawResponse p; NetworkConfig := NetworkConfig p;
  ConcurrencyAndBufferSize := ConcurrencyAndBufferSize p; ProxyConfig := ProxyConfig p;
  CustomProviderConfig := CustomProviderConfig p |}.

Definition set_NetworkConfig (v : option NetworkConfigT) (p : t) : t :=
  {| ID := ID p; Name := Name p; NetworkConfigJSON := NetworkConfigJSON p; ConcurrencyBufferJSON :=
  ConcurrencyBufferJSON p; ProxyConfigJSON := ProxyConfigJSON p; CustomProviderConfigJSON :=
  CustomProviderConfigJSON p; SendBackRawResponse := SendBackRawResponse p; NetworkConfig := v;
  ConcurrencyAndBufferSize := ConcurrencyAndBufferSize p; ProxyConfig := ProxyConfig p;
  CustomProviderConfig := CustomProviderConfig p |}.

Definition set_ConcurrencyAndBufferSize (v : option ConcurrencyAndBufferSizeT) (p : t) : t :=
  {| ID := ID p; Name := Name p; NetworkConfigJSON := NetworkConfigJSON p; ConcurrencyBufferJSON :=
  ConcurrencyBufferJSON p; ProxyConfigJSON := ProxyConfigJSON p; CustomProviderConfigJSON :=
  CustomProviderConfigJSON p; SendBackRawResponse := SendBackRawResponse p; NetworkConfig :=
  NetworkConfig p; ConcurrencyAndBufferSize := v; ProxyConfig := ProxyConfig p; CustomProviderConfig
  := CustomProviderConfig p |}.

Definition set_ProxyConfig (v : option ProxyConfigT) (p : t) : t :=
  {| ID := ID p; Name := Name p; NetworkConfigJSON := NetworkConfigJSON p; ConcurrencyBufferJSON :=
  ConcurrencyBufferJSON p; ProxyConfigJSON := ProxyConfigJSON p; CustomProviderConfigJSON :=
  CustomProviderConfigJSON p; SendBackRawResponse := SendBackRawResponse p; NetworkConfig :=
  NetworkConfig p; ConcurrencyAndBufferSize := ConcurrencyAndBufferSize p; ProxyConfig := v;
  CustomProviderConfig := CustomProviderConfig p |}.

Definition set_CustomProviderConfig (v : option CustomProviderConfigT) (p : t) : t :=
  {| ID := ID p; Name := Name p; NetworkConfigJSON := NetworkConfigJSON p; ConcurrencyBufferJSON :=
  ConcurrencyBufferJSON p; ProxyConfigJSON := ProxyConfigJSON p; CustomProviderConfigJSON :=
  CustomProviderConfigJSON p; SendBackRawResponse := SendBackRawResponse p; NetworkConfig :=
  NetworkConfig p; ConcurrencyAndBufferSize := ConcurrencyAndBufferSize p; ProxyConfig :=
  ProxyConfig p; CustomProviderConfig := v |}.

Context `{GoZero NetworkConfigT, GoZero ConcurrencyAndBufferSizeT,
          GoZero ProxyConfigT, GoZero CustomProviderConfigT}.
Context `{JSON NetworkConfigT, JSON ConcurrencyAndBufferSizeT,
          JSON ProxyConfigT, JSON CustomProviderConfigT}.
Context (BaseProviderType : CustomProviderConfigT → string).

(** [json.Marshal(p.NetworkConfig)] is given the pointer and writes the struct
    it points to. *)
Definition save_NetworkConfig : hook t unit :=
  p ← receiver;
  match NetworkConfig p with
  | Some config =>
      data ← try (json_Marshal config);
      assign (set_NetworkConfigJSON data)
  | None => mret tt
  end.

Definition save_ConcurrencyAndBufferSize : hook t unit :=
  p ← receiver;
  match ConcurrencyAndBufferSize p with
  | Some config =>
      data ← try (json_Marshal config);
      assign (set_ConcurrencyBufferJSON data)
  | None => mret tt
  end.

Definition save_ProxyConfig : hook t unit :=
  p ← receiver;
  match ProxyConfig p with
  | Some config =>
      data ← try (json_Marshal config);
      assign (set_ProxyConfigJSON data)
  | None => mret tt
  end.

Definition check_CustomProviderConfig : hook t unit :=
  p ← receiver;
  match CustomProviderConfig p with
  | Some config =>
      if nonempty (BaseProviderType config) then mret tt
      else try (Err (Error "base_provider_type is required when custom_provider_config is set"))
  | None => mret tt
  end.

Definition save_CustomProviderConfig : hook t unit :=
  p ← receiver;
  match CustomProviderConfig p with
  | Some config =>
      data ← try (json_Marshal config);
      assign (set_CustomProviderConfigJSON data)
  | None => mret tt
  end.

(** [func (p *TableProvider) BeforeSave(tx *gorm.DB) error] *)
Definition BeforeSave : hook t unit :=
  save_NetworkConfig;; save_ConcurrencyAndBufferSize;; save_ProxyConfig;;
  check_CustomProviderConfig;; save_CustomProviderConfig;; mret tt.

Definition find_NetworkConfig : hook t unit :=
  p ← receiver;
  if nonempty (NetworkConfigJSON p) then
    config ← try (json_Unmarshal (NetworkConfigJSON p) go_zero);
    assign (set_NetworkConfig (Some config))
  else mret tt.

Definition find_ConcurrencyAndBufferSize : hook t unit :=
  p ← receiver;
  if nonempty (ConcurrencyBufferJSON p) then
    config ← try (json_Unmarshal (ConcurrencyBufferJSON p) go_zero);
    assign (set_ConcurrencyAndBufferSize (Some config))
  else mret tt.

Definition find_ProxyConfig : hook t unit :=
  p ← receiver;
  if nonempty (ProxyConfigJSON p) then
    proxyConfig ← try (json_Unmarshal (ProxyConfigJSON p) go_zero);
    assign (set_ProxyConfig (Some proxyConfig))
  else mret tt.

Definition find_CustomProviderConfig : hook t unit :=
  p ← receiver;
  if nonempty (CustomProviderConfigJSON p) then
    customConfig ← try (json_Unmarshal (CustomProviderConfigJSON p) go_zero);
    assign (set_CustomProviderConfig (Some customConfig))
  else mret tt.

(** [func (p *TableProvider) AfterFind(tx *gorm.DB) error] *)
Definition AfterFind : hook t unit :=
  find_NetworkConfig;; find_ConcurrencyAndBufferSize;; find_ProxyConfig;;
  find_CustomProviderConfig;; mret tt.

(** What the store hands to [AfterFind]: the columns, and the virtual fields at
    their zero value. *)
Definition scan (p : t) : t :=
  set_CustomProviderConfig None (set_ProxyConfig None
    (set_ConcurrencyAndBufferSize None (set_NetworkConfig None p))).

End row.

Arguments t : clear implicits.

(** A column that holds a configuration [v]: it is empty when [v] is nil, and
    otherwise it is a text that is not empty and deserializes to [v]. *)
Definition stored {A} `{GoZero A, JSON A} (v : option A) (column : string) : Prop :=
  match v with
  | Some c => nonempty column = true ∧ json_Unmarshal column go_zero = Ok c
  | None => column = ""
  end.

End TableProvider.

(** *** [TableClientConfig], the [config_client] row

    The global client configuration.  Its two lists are stored as JSON text;
    the other settings are plain columns that no hook reads or writes.
    [CreatedAt] and [UpdatedAt] are left out. *)
Module TableClientConfig.

Record t : Type := mk {
  ID : N;
  DropExcessRequests : bool;
  PrometheusLabelsJSON : string;
  AllowedOriginsJSON : string;
  InitialPoolSize : Z;
  EnableLogging : bool;
  EnableGovernance : bool;
  EnforceGovernanceHeader : bool;
  AllowDirectKeys : bool;
  MaxRequestBodySizeMB : Z;
  EnableLiteLLMFallbacks : bool;
  PrometheusLabels : option (list string);
  AllowedOrigins : option (list string);
}.

Definition set_PrometheusLabelsJSON (v : string) (cc : t) : t :=
  {| ID := ID cc; DropExcessRequests := DropExcessRequests cc; PrometheusLabelsJSON := v;
  AllowedOriginsJSON := AllowedOriginsJSON cc; InitialPoolSize := InitialPoolSize cc; EnableLogging
  := EnableLogging cc; EnableGovernance := EnableGovernance cc; EnforceGovernanceHeader :=
  EnforceGovernanceHeader cc; AllowDirectKeys := AllowDirectKeys cc; MaxRequestBodySizeMB :=
  MaxRequestBodySizeMB cc; EnableLiteLLMFallbacks := EnableLiteLLMFallbacks cc; PrometheusLabels :=
  PrometheusLabels cc; AllowedOrigins := AllowedOrigins cc |}.

Definition set_AllowedOriginsJSON (v : string) (cc : t) : t :=
  {| ID := ID cc; DropExcessRequests := DropExcessRequests cc; PrometheusLabelsJSON :=
  PrometheusLabelsJSON cc; AllowedOriginsJSON := v; InitialPoolSize := InitialPoolSize cc;
  EnableLogging := EnableLogging cc; EnableGovernance := EnableGovernance cc;
  EnforceGovernanceHeader := EnforceGovernanceHeader cc; AllowDirectKeys := AllowDirectKeys cc;
  MaxRequestBodySizeMB := MaxRequestBodySizeMB cc; EnableLiteLLMFallbacks := EnableLiteLLMFallbacks
  cc; PrometheusLabels := PrometheusLabels cc; AllowedOrigins := AllowedOrigins cc |}.

Definition set_PrometheusLabels (v : option (list string)) (cc : t) : t :=
  {| ID := ID cc; DropExcessRequests := DropExcessRequests cc; PrometheusLabelsJSON :=
  PrometheusLabelsJSON cc; AllowedOriginsJSON := AllowedOriginsJSON cc; InitialPoolSize :=
  InitialPoolSize cc; EnableLogging := EnableLogging cc; EnableGovernance := EnableGovernance cc;
  EnforceGovernanceHeader := EnforceGovernanceHeader cc; AllowDirectKeys := AllowDirectKeys cc;
  MaxRequestBodySizeMB := MaxRequestBodySizeMB cc; EnableLiteLLMFallbacks := EnableLiteLLMFallbacks
  cc; PrometheusLabels := v; AllowedOrigins := AllowedOrigins cc |}.

Definition set_AllowedOrigins (v : option (list string)) (cc : t) : t :=
  {| ID := ID cc; DropExcessRequests := DropExcessRequests cc; PrometheusLabelsJSON :=
  PrometheusLabelsJSON cc; AllowedOriginsJSON := AllowedOriginsJSON cc; InitialPoolSize :=
  InitialPoolSize cc; EnableLogging := EnableLogging cc; EnableGovernance := EnableGovernance cc;
  EnforceGovernanceHeader := EnforceGovernanceHeader cc; AllowDirectKeys := AllowDirectKeys cc;
  MaxRequestBodySizeMB := MaxRequestBodySizeMB cc; EnableLiteLLMFallbacks := EnableLiteLLMFallbacks
  cc; PrometheusLabels := PrometheusLabels cc; AllowedOrigins := v |}.

Section hooks.
Context `{JSON (option (list string))}.

(** The two blocks of [BeforeSave], in order. *)
Definition save_PrometheusLabels : hook t unit :=
  cc ← receiver;
  match PrometheusLabels cc with
  | Some _ =>
      data ← try (json_Marshal (PrometheusLabels cc));
      assign (set_PrometheusLabelsJSON data)
  | None => assign (set_PrometheusLabelsJSON "[]")
  end.

Definition save_AllowedOrigins : hook t unit :=
  cc ← receiver;
  match AllowedOrigins cc with
  | Some _ =>
      data ← try (json_Marshal (AllowedOrigins cc));
      assign (set_AllowedOriginsJSON data)
  | None => assign (set_AllowedOriginsJSON "[]")
  end.

(** [func (cc *TableClientConfig) BeforeSave(tx *gorm.DB) error] *)
Definition BeforeSave : hook t unit :=
  save_PrometheusLabels;; save_AllowedOrigins;; mret tt.

(** The two blocks of [AfterFind]: each list is deserialized into the field
    itself, [json.Unmarshal(data, &cc.PrometheusLabels)]. *)
Definition find_PrometheusLabels : hook t unit :=
  cc ← receiver;
  if nonempty (PrometheusLabelsJSON cc) then
    labels ← try (json_Unmarshal (PrometheusLabelsJSON cc) (PrometheusLabels cc));
    assign (set_PrometheusLabels labels)
  else mret tt.

Definition find_AllowedOrigins : hook t unit :=
  cc ← receiver;
  if nonempty (AllowedOriginsJSON cc) then
    origins ← try (json_Unmarshal (AllowedOriginsJSON cc) (AllowedOrigins cc));
    assign (set_AllowedOrigins origins)
  else mret tt.

(** [func (cc *TableClientConfig) AfterFind(tx *gorm.DB) error] *)
Definition AfterFind : hook t unit :=
  find_PrometheusLabels;; find_AllowedOrigins;; mret tt.

End hooks.

(** What the store hands to [AfterFind]: the columns, and the two virtual
    fields at their zero value. *)
Definition scan (cc : t) : t := set_AllowedOrigins None (set_PrometheusLabels None cc).

(** The settings that are plain columns. *)
Definition settings (cc : t) :=
  (ID cc, DropExcessRequests cc, InitialPoolSize cc, EnableLogging cc, EnableGovernance cc,
   EnforceGovernanceHeader cc, AllowDirectKeys cc, MaxRequestBodySizeMB cc,
   EnableLiteLLMFallbacks cc).

End TableClientConfig.

End tables.

(** ** A reference implementation of the JSON interface

    Enough of JSON to write and read back [[]string] and [map[string]string]:
    strings with the quote and the backslash escaped, arrays of strings,
    objects with string values, and [null].  It shows that the laws of
    [JSONLawful] can be met and lets the hooks run on concrete rows.  Writers
    take the text that follows as an argument; readers return the text that is
    left. *)

Module refjson.

Definition dquote : ascii := "034"%char.
Definition backslash : ascii := "092"%char.
Definition comma : ascii := ","%char.

Definition escaped (c : ascii) : bool := Ascii.eqb c dquote || Ascii.eqb c backslash.

Fixpoint write_chars (s rest : string) : string :=
  match s with
  | EmptyString => rest
  | String c s' =>
      if escaped c then String backslash (String c (write_chars s' rest))
      else String c (write_chars s' rest)
  end.

Definition write_string (s rest : string) : string :=
  String dquote (write_chars s (String dquote rest)).

(** Reads the characters of a string up to its closing quote. *)
Fixpoint read_chars (s : string) : option (string * string) :=
  match s with
  | EmptyString => None
  | String c s' =>
      if Ascii.eqb c dquote then Some (EmptyString, s')
      else if Ascii.eqb c backslash then
        match s' with
        | String d s'' =>
            if escaped d then
              match read_chars s'' with
              | Some (r, rest) => Some (String d r, rest)
              | None => None
              end
            else None
        | EmptyString => None
        end
      else
        match read_chars s' with
        | Some (r, rest) => Some (String c r, rest)
        | None => None
        end
  end.

Definition read_string (s : string) : option (string * string) :=
  match s with
  | String c s' => if Ascii.eqb c dquote then read_chars s' else None
  | EmptyString => None
  end.

Definition write_member (kv : string * string) (rest : string) : string :=
  write_string kv.1 (String ":"%char (write_string kv.2 rest)).

Definition read_member (s : string) : option ((string * string) * string) :=
  match read_string s with
  | Some (k, String c s') =>
      if Ascii.eqb c ":"%char then
        match read_string s' with
        | Some (v, rest) => Some ((k, v), rest)
        | None => None
        end
      else None
  | _ => None
  end.

Section sequences.
Context {A : Type} (write : A → string → string) (read : string → option (A * string)).
Context (close : ascii).

(** The items, separated by commas, then the closing bracket. *)
Fixpoint write_items (l : list A) (rest : string) : string :=
  match l with
  | [] => String close rest
  | x :: l' =>
      match l' with
      | [] => write x (String close rest)
      | _ :: _ => write x (String comma (write_items l' rest))
      end
  end.

Fixpoint read_items (fuel : nat) (s : string) : option (list A * string) :=
  match fuel with
  | O => None
  | S fuel' =>
      match read s with
      | Some (x, String c s') =>
          if Ascii.eqb c close then Some ([x], s')
          else if Ascii.eqb c comma then
            match read_items fuel' s' with
            | Some (l, rest) => Some (x :: l, rest)
            | None => None
            end
          else None
      | _ => None
      end
  end.

(** What follows the opening bracket. *)
Definition read_sequence (s : string) : option (list A * string) :=
  match s with
  | String c s' => if Ascii.eqb c close then Some ([], s') else read_items (String.length s) s
  | EmptyString => None
  end.

End sequences.

Definition syntax_error : error := Error "invalid character looking for beginning of value".

Definition marshal_strings (v : option (list string)) : result string :=
  match v with
  | None => Ok "null"
  | Some l => Ok (String "["%char (write_items write_string "]"%char l EmptyString))
  end.

(** A JSON array replaces the slice; [null] sets it to nil. *)
Definition unmarshal_strings (data : string) (target : option (list string))
  : result (option (list string)) :=
  if String.eqb data "null" then Ok None
  else match data with
       | String c s =>
           if Ascii.eqb c "["%char then
             match read_sequence read_string "]"%char s with
             | Some (l, EmptyString) => Ok (Some l)
             | _ => Err syntax_error
             end
           else Err syntax_error
       | EmptyString => Err (Error "unexpected end of JSON input")
       end.

Definition marshal_map (v : option (gmap string string)) : result string :=
  match v with
  | None => Ok "null"
  | Some m => Ok (String "{"%char (write_items write_member "}"%char (map_to_list m) EmptyString))
  end.

(** A JSON object is read into the map the target holds, or into a new one
    when it is nil; a member met twice keeps its last value; [null] sets the
    map to nil. *)
Definition unmarshal_map (data : string) (target : option (gmap string string))
  : result (option (gmap string string)) :=
  if String.eqb data "null" then Ok None
  else match data with
       | String c s =>
           if Ascii.eqb c "{"%char then
             match read_sequence read_member "}"%char s with
             | Some (l, EmptyString) => Ok (Some (list_to_map (reverse l) ∪ default ∅ target))
             | _ => Err syntax_error
             end
           else Err syntax_error
       | EmptyString => Err (Error "unexpected end of JSON input")
       end.

#[global] Instance json_strings : JSON (option (list string)) :=
  {| json_Marshal := marshal_strings; sonic_Marshal := marshal_strings;
     json_Unmarshal := unmarshal_strings |}.

#[global] Instance json_map : JSON (option (gmap string string)) :=
  {| json_Marshal := marshal_map; sonic_Marshal := marshal_map;
     json_Unmarshal := unmarshal_map |}.

End refjson.

(** ** core/providers/apertus *)

Module apertus.
Import schemas.

(** *** What the provider calls

    The policy gate, the helpers of [providerUtils], the request handlers
    shared with the OpenAI provider and the OpenAI provider itself are
    collaborators: they are parameters, and each call the provider makes to the
    gate, to a handler or to a transient OpenAI provider is recorded, in order,
    with its arguments. *)

(** The handlers of [core/providers/openai] the provider hands requests to. *)
Inductive Handler : Type :=
  | HandleOpenAITextCompletionRequest
  | HandleOpenAITextCompletionStreaming
  | HandleOpenAIChatCompletionRequest
  | HandleOpenAIChatCompletionStreaming
  | HandleOpenAIResponsesRequest
  | HandleOpenAIResponsesStreaming
  | HandleOpenAIEmbeddingRequest.

(** How a handler is given the credential: the key, or the headers built from
    its value. *)
Inductive Credential : Type :=
  | WithKey (key : Key.t)
  | WithHeaders (authHeader : gmap string string).

Section provider.
Context {ContextT CustomProviderConfigT PostHookRunnerT : Type}.

Record HandlerCall : Type := mkHandlerCall {
  handler : Handler;
  ctx : ContextT;
  url : string;
  request : BifrostRequest.t;
  credential : Credential;
  extraHeaders : option (gmap string string);
  sendBackRawResponse_arg : bool;
  providerName : ModelProvider;
}.

(** A method of the OpenAI provider built by [openai.NewOpenAIProvider] from a
    configuration. *)
Record DelegateCall : Type := mkDelegateCall {
  method : RequestType;
  tempConfig : ProviderConfig.t CustomProviderConfigT;
  delegate_ctx : ContextT;
  delegate_key : Key.t;
  delegate_request : BifrostRequest.t;
}.

Inductive Call : Type :=
  | CallCheckOperationAllowed
      (provider : ModelProvider) (config : option CustomProviderConfigT) (operation : RequestType)
  | CallHandler (c : HandlerCall)
  | CallOpenAIProvider (c : DelegateCall).

(** A computation that makes calls: the calls made, in order, and the value. *)
Definition io (A : Type) : Type := list Call * A.

#[global] Instance io_ret : MRet io := λ A a, ([], a).
#[global] Instance io_bind : MBind io := λ A B f m, ((m.1 ++ (f m.2).1)%list, (f m.2).2).

(** The Go pair [(response, err)]. *)
Definition Reply : Type := option BifrostResponse.t * option BifrostError.t.
Definition StreamReply : Type := option (list BifrostStream) * option BifrostError.t.

Context (CheckAndSetDefaults :
           ProviderConfig.t CustomProviderConfigT → ProviderConfig.t CustomProviderConfigT).
Context (CheckOperationAllowed :
           ModelProvider → option CustomProviderConfigT → RequestType → option BifrostError.t).
Context (GetProviderName : ModelProvider → option CustomProviderConfigT → ModelProvider).
Context (GetRequestPath :
           ContextT → string → option CustomProviderConfigT → RequestType → string).
Context (ShouldSendBackRawResponse : ContextT → bool → bool).
Context (HandleOpenAIRequest : HandlerCall → Reply).
Context (HandleOpenAIStreaming : HandlerCall → PostHookRunnerT → StreamReply).
Context (OpenAIProvider : DelegateCall → Reply).
Context (OpenAIProviderStream : DelegateCall → PostHookRunnerT → StreamReply).

Definition checkOperationAllowed (config : option CustomProviderConfigT)
    (operation : RequestType) : io (option BifrostError.t) :=
  ([CallCheckOperationAllowed Apertus config operation],
   CheckOperationAllowed Apertus config operation).

Definition handle (c : HandlerCall) : io Reply := ([CallHandler c], HandleOpenAIRequest c).

Definition handleStreaming (c : HandlerCall) (postHookRunner : PostHookRunnerT)
  : io StreamReply :=
  ([CallHandler c], HandleOpenAIStreaming c postHookRunner).

Definition delegate (c : DelegateCall) : io Reply := ([CallOpenAIProvider c], OpenAIProvider c).

Definition delegateStream (c : DelegateCall) (postHookRunner : PostHookRunnerT)
  : io StreamReply :=
  ([CallOpenAIProvider c], OpenAIProviderStream c postHookRunner).

(** *** The provider *)

(** The logger and the HTTP client are left out: they are handed on to the
    handlers and never read. *)
Record ApertusProvider : Type := mkApertusProvider {
  networkConfig : NetworkConfig.t;
  sendBackRawResponse : bool;
  customProviderConfig : option CustomProviderConfigT;
}.

Definition with_BaseURL (baseURL : string) (n : NetworkConfig.t) : NetworkConfig.t :=
  {| NetworkConfig.BaseURL := baseURL;
     NetworkConfig.ExtraHeaders := NetworkConfig.ExtraHeaders n;
     NetworkConfig.DefaultRequestTimeoutInSeconds :=
       NetworkConfig.DefaultRequestTimeoutInSeconds n;
     NetworkConfig.MaxRetries := NetworkConfig.MaxRetries n;
     NetworkConfig.RetryBackoffInitial := NetworkConfig.RetryBackoffInitial n;
     NetworkConfig.RetryBackoffMax := NetworkConfig.RetryBackoffMax n |}.

(** [func NewApertusProvider(config *schemas.ProviderConfig, logger schemas.Logger) *ApertusProvider] *)
Definition NewApertusProvider (config : ProviderConfig.t CustomProviderConfigT)
  : ApertusProvider :=
  let config := CheckAndSetDefaults config in
  let n := ProviderConfig.NetworkConfig config in
  (* Set default BaseURL if not provided (falls back to OpenAI) *)
  let n := if nonempty (NetworkConfig.BaseURL n) then n
           else with_BaseURL "https://api.openai.com" n in
  let n := with_BaseURL (TrimRight_slash (NetworkConfig.BaseURL n)) n in
  {| networkConfig := n;
     sendBackRawResponse := ProviderConfig.SendBackRawResponse config;
     customProviderConfig := ProviderConfig.CustomProviderConfig config |}.

(** [GetProviderKey] returns the provider identifier for Apertus. *)
Definition GetProviderKey (provider : ApertusProvider) : ModelProvider :=
  GetProviderName Apertus (customProviderConfig provider).

(** [getBaseURL] returns the effective base URL for the given key. *)
Definition getBaseURL (provider : ApertusProvider) (key : Key.t) : string :=
  match Key.ApertusKeyConfig key with
  | Some c =>
      if nonempty (ApertusKeyConfig.Endpoint c)
      then TrimRight_slash (ApertusKeyConfig.Endpoint c)
      else NetworkConfig.BaseURL (networkConfig provider)
  | None => NetworkConfig.BaseURL (networkConfig provider)
  end.

(** [buildRequestURL] constructs the full request URL. *)
Definition buildRequestURL (provider : ApertusProvider) (ctx : ContextT) (key : Key.t)
    (defaultPath : string) (requestType : RequestType) : string :=
  let baseURL := getBaseURL provider key in
  baseURL +:+ GetRequestPath ctx defaultPath (customProviderConfig provider) requestType.

(** [map[string]string{"Authorization": "Bearer " + key.Value}] *)
Definition bearer (key : Key.t) : Credential :=
  WithHeaders {[ "Authorization" := "Bearer " +:+ Key.Value key ]}.

(** [ListModels] returns the models configured for the keys.  [modelSet] is the
    Go map used as a set; ranging over it yields its keys in an order that Go
    leaves unspecified, here the order of [map_to_list]. *)
Definition collectModels (keys : list Key.t) : gmap string bool :=
  foldl (λ modelSet key, foldl (λ modelSet model, <[model := true]> modelSet) modelSet
                           (Key.Models key)) ∅ keys.

Definition ListModels (provider : ApertusProvider) (ctx : ContextT) (keys : list Key.t)
  : io (option BifrostListModelsResponse.t * option BifrostError.t) :=
  err ← checkOperationAllowed (customProviderConfig provider) ListModelsRequest;
  match err with
  | Some err => mret (None, Some err)
  | None =>
      let providerName := GetProviderKey provider in
      let modelSet := collectModels keys in
      let models := (map_to_list modelSet).*1 in
      let ownedBy := "system" in
      let modelInfos :=
        (λ model, {| Model.ID := providerName +:+ "/" +:+ model;
                     Model.OwnedBy := Some ownedBy |}) <$> models in
      mret (Some {| BifrostListModelsResponse.Data := modelInfos;
                    BifrostListModelsResponse.ExtraFields :=
                      {| BifrostResponseExtraFields.Provider := providerName;
                         BifrostResponseExtraFields.RequestType := ListModelsRequest;
                         BifrostResponseExtraFields.Latency := 0 |} |}, None)
  end.

(** The blocking entry points that hand the request to a shared handler:
    [TextCompletion], [ChatCompletion], [Responses] and [Embedding] differ in
    the operation checked, the handler, and the default path. *)
Definition dispatch (provider : ApertusProvider) (operation : RequestType) (h : Handler)
    (defaultPath : string) (ctx : ContextT) (key : Key.t) (request : BifrostRequest.t)
  : io Reply :=
  err ← checkOperationAllowed (customProviderConfig provider) operation;
  match err with
  | Some err => mret (None, Some err)
  | None =>
      handle {| handler := h; ctx := ctx;
                url := buildRequestURL provider ctx key defaultPath operation;
                request := request; credential := WithKey key;
                extraHeaders := NetworkConfig.ExtraHeaders (networkConfig provider);
                sendBackRawResponse_arg :=
                  ShouldSendBackRawResponse ctx (sendBackRawResponse provider);
                providerName := GetProviderKey provider |}
  end.

(** Their streaming counterparts. *)
Definition dispatchStream (provider : ApertusProvider) (operation : RequestType) (h : Handler)
    (defaultPath : string) (ctx : ContextT) (postHookRunner : PostHookRunnerT) (key : Key.t)
    (request : BifrostRequest.t) : io StreamReply :=
  err ← checkOperationAllowed (customProviderConfig provider) operation;
  match err with
  | Some err => mret (None, Some err)
  | None =>
      handleStreaming
        {| handler := h; ctx := ctx;
           url := buildRequestURL provider ctx key defaultPath operation;
           request := request; credential := bearer key;
           extraHeaders := NetworkConfig.ExtraHeaders (networkConfig provider);
           sendBackRawResponse_arg :=
             ShouldSendBackRawResponse ctx (sendBackRawResponse provider);
           providerName := GetProviderKey provider |}
        postHookRunner
  end.

Definition TextCompletion (provider : ApertusProvider) :=
  dispatch provider TextCompletionRequest HandleOpenAITextCompletionRequest "/v1/completions".

Definition TextCompletionStream (provider : ApertusProvider) :=
  dispatchStream provider TextCompletionStreamRequest HandleOpenAITextCompletionStreaming
    "/v1/completions".

Definition ChatCompletion (provider : ApertusProvider) :=
  dispatch provider ChatCompletionRequest HandleOpenAIChatCompletionRequest
    "/v1/chat/completions".

Definition ChatCompletionStream (provider : ApertusProvider) :=
  dispatchStream provider ChatCompletionStreamRequest HandleOpenAIChatCompletionStreaming
    "/v1/chat/completions".

Definition Responses (provider : ApertusProvider) :=
  dispatch provider ResponsesRequest HandleOpenAIResponsesRequest "/v1/responses".

Definition ResponsesStream (provider : ApertusProvider) :=
  dispatchStream provider ResponsesStreamRequest HandleOpenAIResponsesStreaming "/v1/responses".

Definition Embedding (provider : ApertusProvider) :=
  dispatch provider EmbeddingRequest HandleOpenAIEmbeddingRequest "/v1/embeddings".

(** The configuration of the temporary OpenAI provider with the custom
    endpoint; the fields it does not name keep their zero value. *)
Definition temporaryConfig (provider : ApertusProvider) (key : Key.t)
  : ProviderConfig.t CustomProviderConfigT :=
  {| ProviderConfig.NetworkConfig :=
       {| NetworkConfig.BaseURL := getBaseURL provider key;
          NetworkConfig.ExtraHeaders := NetworkConfig.ExtraHeaders (networkConfig provider);
          NetworkConfig.DefaultRequestTimeoutInSeconds :=
            NetworkConfig.DefaultRequestTimeoutInSeconds (networkConfig provider);
          NetworkConfig.MaxRetries := NetworkConfig.MaxRetries (networkConfig provider);
          NetworkConfig.RetryBackoffInitial :=
            NetworkConfig.RetryBackoffInitial (networkConfig provider);
          NetworkConfig.RetryBackoffMax := NetworkConfig.RetryBackoffMax (networkConfig provider) |};
     ProviderConfig.SendBackRawResponse := sendBackRawResponse provider;
     ProviderConfig.CustomProviderConfig := None |}.

Definition with_error_Provider (name : ModelProvider) (err : BifrostError.t) : BifrostError.t :=
  {| BifrostError.Message := BifrostError.Message err;
     BifrostError.ExtraFields :=
       {| BifrostErrorExtraFields.Provider := name;
          BifrostErrorExtraFields.RequestType :=
            BifrostErrorExtraFields.RequestType (BifrostError.ExtraFields err) |} |}.

Definition with_response_Provider (name : ModelProvider) (response : BifrostResponse.t)
  : BifrostResponse.t :=
  {| BifrostResponse.Output := BifrostResponse.Output response;
     BifrostResponse.ExtraFields :=
       {| BifrostResponseExtraFields.Provider := name;
          BifrostResponseExtraFields.RequestType :=
            BifrostResponseExtraFields.RequestType (BifrostResponse.ExtraFields response);
          BifrostResponseExtraFields.Latency :=
            BifrostResponseExtraFields.Latency (BifrostResponse.ExtraFields response) |} |}.

(** [Speech] and [Transcription]: the method of a temporary OpenAI provider is
    called, and the response is returned with the Apertus provider name. *)
Definition delegated (provider : ApertusProvider) (operation : RequestType)
    (ctx : ContextT) (key : Key.t) (request : BifrostRequest.t) : io Reply :=
  err ← checkOperationAllowed (customProviderConfig provider) operation;
  match err with
  | Some err => mret (None, Some err)
  | None =>
      let tempConfig := temporaryConfig provider key in
      r ← delegate {| method := operation; tempConfig := tempConfig; delegate_ctx := ctx;
                      delegate_key := key; delegate_request := request |};
      match r with
      | (_, Some err) => mret (None, Some (with_error_Provider (GetProviderKey provider) err))
      | (Some response, None) =>
          mret (Some (with_response_Provider (GetProviderKey provider) response), None)
      | (None, None) => mret (None, None)
      end
  end.

(** [SpeechStream] and [TranscriptionStream]: what the method of the temporary
    OpenAI provider returns is returned as it is. *)
Definition delegatedStream (provider : ApertusProvider) (operation : RequestType)
    (ctx : ContextT) (postHookRunner : PostHookRunnerT) (key : Key.t)
    (request : BifrostRequest.t) : io StreamReply :=
  err ← checkOperationAllowed (customProviderConfig provider) operation;
  match err with
  | Some err => mret (None, Some err)
  | None =>
      let tempConfig := temporaryConfig provider key in
      delegateStream {| method := operation; tempConfig := tempConfig; delegate_ctx := ctx;
                        delegate_key := key; delegate_request := request |} postHookRunner
  end.

Definition Speech (provider : ApertusProvider) := delegated provider SpeechRequest.
Definition SpeechStream (provider : ApertusProvider) := delegatedStream provider SpeechStreamRequest.
Definition Transcription (provider : ApertusProvider) := delegated provider TranscriptionRequest.
Definition TranscriptionStream (provider : ApertusProvider) :=
  delegatedStream provider TranscriptionStreamRequest.

(** The entry points of the provider, one per request type, gathered so that
    a property can be stated of all of them. *)
Inductive Outcome : Type :=
  | Listed (r : option BifrostListModelsResponse.t * option BifrostError.t)
  | Replied (r : Reply)
  | Streamed (r : StreamReply).

Definition invoke (provider : ApertusProvider) (operation : RequestType) (ctx : ContextT)
    (postHookRunner : PostHookRunnerT) (keys : list Key.t) (key : Key.t)
    (request : BifrostRequest.t) : io Outcome :=
  match operation with
  | ListModelsRequest => r ← ListModels provider ctx keys; mret (Listed r)
  | TextCompletionRequest => r ← TextCompletion provider ctx key request; mret (Replied r)
  | TextCompletionStreamRequest =>
      r ← TextCompletionStream provider ctx postHookRunner key request; mret (Streamed r)
  | ChatCompletionRequest => r ← ChatCompletion provider ctx key request; mret (Replied r)
  | ChatCompletionStreamRequest =>
      r ← ChatCompletionStream provider ctx postHookRunner key request; mret (Streamed r)
  | ResponsesRequest => r ← Responses provider ctx key request; mret (Replied r)
  | ResponsesStreamRequest =>
      r ← ResponsesStream provider ctx postHookRunner key request; mret (Streamed r)
  | EmbeddingRequest => r ← Embedding provider ctx key request; mret (Replied r)
  | SpeechRequest => r ← Speech provider ctx key request; mret (Replied r)
  | SpeechStreamRequest =>
      r ← SpeechStream provider ctx postHookRunner key request; mret (Streamed r)
  | TranscriptionRequest => r ← Transcription provider ctx key request; mret (Replied r)
  | TranscriptionStreamRequest =>
      r ← TranscriptionStream provider ctx postHookRunner key request; mret (Streamed r)
  end.

(** The error of an outcome, and whether it carries a value beside it. *)
Definition outcome_error (o : Outcome) : option BifrostError.t :=
  match o with
  | Listed r => r.2
  | Replied r => r.2
  | Streamed r => r.2
  end.

Definition outcome_empty (o : Outcome) : bool :=
  match o with
  | Listed r => bool_decide (r.1 = None)
  | Replied r => bool_decide (r.1 = None)
  | Streamed r => bool_decide (r.1 = None)
  end.

(** The provider identity that the metadata of an outcome reports, wherever it
    reports one: in the response, in the error, in each event of a stream. *)
Definition stream_providers (events : list BifrostStream) : list ModelProvider :=
  (λ event, match event with
            | StreamResponse response =>
                BifrostResponseExtraFields.Provider (BifrostResponse.ExtraFields response)
            | StreamError err =>
                BifrostErrorExtraFields.Provider (BifrostError.ExtraFields err)
            end) <$> events.

Definition reported_providers (o : Outcome) : list ModelProvider :=
  let of_error err :=
    BifrostErrorExtraFields.Provider (BifrostError.ExtraFields err) in
  match o with
  | Listed r =>
      option_list ((λ response, BifrostResponseExtraFields.Provider
                                  (BifrostListModelsResponse.ExtraFields response)) <$> r.1)
      ++ option_list (of_error <$> r.2)
  | Replied r =>
      option_list ((λ response, BifrostResponseExtraFields.Provider
                                  (BifrostResponse.ExtraFields response)) <$> r.1)
      ++ option_list (of_error <$> r.2)
  | Streamed r => default [] (stream_providers <$> r.1) ++ option_list (of_error <$> r.2)
  end.

(** The request types handed to a shared handler with a URL built here, and
    those handed to a temporary OpenAI provider. *)
Definition handled (operation : RequestType) : bool :=
  match operation with
  | TextCompletionRequest | TextCompletionStreamRequest | ChatCompletionRequest
  | ChatCompletionStreamRequest | ResponsesRequest | ResponsesStreamRequest
  | EmbeddingRequest => true
  | _ => false
  end.

Definition delegated_operation (operation : RequestType) : bool :=
  match operation with
  | SpeechRequest | SpeechStreamRequest | TranscriptionRequest | TranscriptionStreamRequest =>
      true
  | _ => false
  end.

(** The fixed path of a request type (listing the models makes no request).
    The paths of the delegated request types are those of the specification
    and of the documentation; the source of this provider does not name
    them. *)
Definition suffix (operation : RequestType) : string :=
  match operation with
  | ListModelsRequest => ""
  | TextCompletionRequest | TextCompletionStreamRequest => "/v1/completions"
  | ChatCompletionRequest | ChatCompletionStreamRequest => "/v1/chat/completions"
  | ResponsesRequest | ResponsesStreamRequest => "/v1/responses"
  | EmbeddingRequest => "/v1/embeddings"
  | SpeechRequest | SpeechStreamRequest => "/v1/audio/speech"
  | TranscriptionRequest | TranscriptionStreamRequest => "/v1/audio/transcriptions"
  end.

(** C6 as the specification states it, for a request handed to a temporary
    OpenAI provider: whatever URL [target] that provider derives from the call
    it receives, it is the effective base URL followed by the path that the
    configuration of this provider yields for the request type. *)
Definition delegate_targets_configured_path (target : DelegateCall → string) : Prop :=
  ∀ provider ctx key request c,
    CheckOperationAllowed Apertus (customProviderConfig provider) SpeechRequest = None →
    CallOpenAIProvider c ∈ (Speech provider ctx key request).1 →
    target c = getBaseURL provider key
               +:+ GetRequestPath ctx (suffix SpeechRequest) (customProviderConfig provider)
                     SpeechRequest.

(** The request that a call carries to a shared handler or to the temporary
    OpenAI provider; the gate is not given the request. *)
Definition carried_request (c : Call) : option BifrostRequest.t :=
  match c with
  | CallCheckOperationAllowed _ _ _ => None
  | CallHandler c => Some (request c)
  | CallOpenAIProvider c => Some (delegate_request c)
  end.

(** C5 as the specification states it. *)
Definition base_URL_never_empty : Prop :=
  ∀ config key, getBaseURL (NewApertusProvider config) key ≠ "".

End provider.

(** Modelled from the spec: [getModelName] is described by the documentation
    of the provider (with the call [request.Model = provider.getModelName(key,
    request.Model)] at the head of each entry point) and by the specification
    as [effectiveModelName]; the provider source has neither the function nor
    the call.  If the override is present, has a non-nil mapping, and the
    mapping contains the requested model, the mapped value; otherwise the
    requested model. *)
Definition getModelName (key : Key.t) (userModel : string) : string :=
  match Key.ApertusKeyConfig key with
  | Some c =>
      match ApertusKeyConfig.ModelNameMappings c with
      | Some mappings =>
          match mappings !! userModel with
          | Some backendModel => backendModel
          | None => userModel
          end
      | None => userModel
      end
  | None => userModel
  end.

Section model_names.
Context {ContextT CustomProviderConfigT : Type}.
Context (CheckOperationAllowed :
           ModelProvider → option CustomProviderConfigT → RequestType → option BifrostError.t).
Context (GetProviderName : ModelProvider → option CustomProviderConfigT → ModelProvider).
Context (GetRequestPath :
           ContextT → string → option CustomProviderConfigT → RequestType → string).
Context (ShouldSendBackRawResponse : ContextT → bool → bool).
Context (HandleOpenAIRequest : @HandlerCall ContextT → Reply).

(** C2 as the specification states it, for a chat completion: the request
    that reaches the shared handler has the effective model name in its model
    field. *)
Definition model_rewritten_before_dispatch : Prop :=
  ∀ provider ctx key request c,
    CheckOperationAllowed Apertus (customProviderConfig provider) ChatCompletionRequest
    = None →
    CallHandler c
    ∈ (ChatCompletion CheckOperationAllowed GetProviderName GetRequestPath
         ShouldSendBackRawResponse HandleOpenAIRequest provider ctx key request).1 →
    BifrostRequest.Model (apertus.request c)
    = getModelName key (BifrostRequest.Model request).

End model_names.

End apertus.

(** ** core/providers/utils

    Modelled from the spec: the helpers of [providerUtils] and
    [CheckAndSetDefaults] are not among the sources.  The specification has a
    policy gate that may reject a request type, a provider identity, and path
    overrides per request type supplied by the provider configuration; the
    custom provider configuration below carries just that.  The definitions
    serve to run the provider on sample requests and to show that what the
    theorems assume of the collaborators can be met. *)

Module providerUtils.
Import schemas.

Record CustomProviderConfig : Type := mkCustomProviderConfig {
  CustomProviderKey : string;
  AllowedRequests : option (list RequestType);
  RequestPathOverrides : list (RequestType * string);
}.

Definition GetProviderName (defaultProvider : ModelProvider)
    (config : option CustomProviderConfig) : ModelProvider :=
  match config with
  | Some c => if nonempty (CustomProviderKey c) then CustomProviderKey c else defaultProvider
  | None => defaultProvider
  end.

Definition CheckOperationAllowed (defaultProvider : ModelProvider)
    (config : option CustomProviderConfig) (operation : RequestType)
  : option BifrostError.t :=
  match config with
  | Some c =>
      match AllowedRequests c with
      | Some allowed =>
          if bool_decide (operation ∈ allowed) then None
          else Some {| BifrostError.Message := "operation is not allowed";
                       BifrostError.ExtraFields :=
                         {| BifrostErrorExtraFields.Provider :=
                              GetProviderName defaultProvider config;
                            BifrostErrorExtraFields.RequestType := operation |} |}
      | None => None
      end
  | None => None
  end.

Definition GetRequestPath (ctx : unit) (defaultPath : string)
    (config : option CustomProviderConfig) (operation : RequestType) : string :=
  match config with
  | Some c =>
      match list_find (λ entry, entry.1 = operation) (RequestPathOverrides c) with
      | Some (_, (_, path)) => path
      | None => defaultPath
      end
  | None => defaultPath
  end.

Definition ShouldSendBackRawResponse (ctx : unit) (default : bool) : bool := default.

(** The defaults concern timeouts, retries and sizes. *)
Definition CheckAndSetDefaults (config : ProviderConfig.t CustomProviderConfig)
  : ProviderConfig.t CustomProviderConfig :=
  let n := ProviderConfig.NetworkConfig config in
  {| ProviderConfig.NetworkConfig :=
       {| NetworkConfig.BaseURL := NetworkConfig.BaseURL n;
          NetworkConfig.ExtraHeaders := NetworkConfig.ExtraHeaders n;
          NetworkConfig.DefaultRequestTimeoutInSeconds :=
            if bool_decide (NetworkConfig.DefaultRequestTimeoutInSeconds n = 0%Z) then 30%Z
            else NetworkConfig.DefaultRequestTimeoutInSeconds n;
          NetworkConfig.MaxRetries := NetworkConfig.MaxRetries n;
          NetworkConfig.RetryBackoffInitial := NetworkConfig.RetryBackoffInitial n;
          NetworkConfig.RetryBackoffMax := NetworkConfig.RetryBackoffMax n |};
     ProviderConfig.SendBackRawResponse := ProviderConfig.SendBackRawResponse config;
     ProviderConfig.CustomProviderConfig := ProviderConfig.CustomProviderConfig config |}.

End providerUtils.

(** ** The entry points, by kind *)

Module entry_points.
Import schemas apertus.

(** Whether the entry point of a request type returns a stream. *)
Definition streaming (operation : RequestType) : bool :=
  match operation with
  | TextCompletionStreamRequest | ChatCompletionStreamRequest | ResponsesStreamRequest
  | SpeechStreamRequest | TranscriptionStreamRequest => true
  | _ => false
  end.

(** The handler of [core/providers/openai] that the entry point of a request
    type calls; none for the listing of the models, which makes no request, and
    for the request types handed to a temporary OpenAI provider. *)
Definition shared_handler (operation : RequestType) : option Handler :=
  match operation with
  | TextCompletionRequest => Some HandleOpenAITextCompletionRequest
  | TextCompletionStreamRequest => Some HandleOpenAITextCompletionStreaming
  | ChatCompletionRequest => Some HandleOpenAIChatCompletionRequest
  | ChatCompletionStreamRequest => Some HandleOpenAIChatCompletionStreaming
  | ResponsesRequest => Some HandleOpenAIResponsesRequest
  | ResponsesStreamRequest => Some HandleOpenAIResponsesStreaming
  | EmbeddingRequest => Some HandleOpenAIEmbeddingRequest
  | _ => None
  end.

End entry_points.

(** ** The provider before it had a package of its own

    In the last revision it had in the package [providers], the one that
    lists the models, the provider builds the URL of a request from the
    effective base URL and the fixed path, without [GetRequestPath]; it hands
    its raw response flag to the handlers as it is; and it lists the models
    under their bare names, without owner.  [GetProviderKey], [getBaseURL] and
    the four entry points that go through a temporary OpenAI provider read as
    in the [apertus] package, and [NewApertusProvider] differs from the one
    there in the settings of the HTTP client only: they are taken from there.
    As there, the logger, the HTTP client and the converters, which are [nil],
    are left out of the calls. *)

Module providers.
Import schemas apertus.

Section provider.
Context {ContextT CustomProviderConfigT PostHookRunnerT : Type}.
Context (CheckOperationAllowed :
           ModelProvider → option CustomProviderConfigT → RequestType → option BifrostError.t).
Context (GetProviderName : ModelProvider → option CustomProviderConfigT → ModelProvider).
Context (HandleOpenAIRequest : @HandlerCall ContextT → Reply).
Context (HandleOpenAIStreaming : @HandlerCall ContextT → PostHookRunnerT → StreamReply).
Context (OpenAIProvider : @DelegateCall ContextT CustomProviderConfigT → Reply).
Context (OpenAIProviderStream :
           @DelegateCall ContextT CustomProviderConfigT → PostHookRunnerT → StreamReply).

Abbreviation io := (@apertus.io ContextT CustomProviderConfigT).

(** [ListModels] returns a static list of models configured for the keys. *)
Definition ListModels (provider : @ApertusProvider CustomProviderConfigT) (ctx : ContextT)
    (keys : list Key.t) : io (option BifrostListModelsResponse.t * option BifrostError.t) :=
  err ← checkOperationAllowed CheckOperationAllowed (customProviderConfig provider)
          ListModelsRequest;
  match err with
  | Some err => mret (None, Some err)
  | None =>
      let providerName := GetProviderKey GetProviderName provider in
      let modelSet := collectModels keys in
      let models := (map_to_list modelSet).*1 in
      let modelInfos := (λ model, {| Model.ID := model; Model.OwnedBy := None |}) <$> models in
      mret (Some {| BifrostListModelsResponse.Data := modelInfos;
                    BifrostListModelsResponse.ExtraFields :=
                      {| BifrostResponseExtraFields.Provider := providerName;
                         BifrostResponseExtraFields.RequestType := ListModelsRequest;
                         BifrostResponseExtraFields.Latency := 0 |} |}, None)
  end.

(** The blocking entry points that hand the request to a shared handler. *)
Definition dispatch (provider : @ApertusProvider CustomProviderConfigT)
    (operation : RequestType) (h : Handler) (path : string) (ctx : ContextT) (key : Key.t)
    (request : BifrostRequest.t) : io Reply :=
  err ← checkOperationAllowed CheckOperationAllowed (customProviderConfig provider) operation;
  match err with
  | Some err => mret (None, Some err)
  | None =>
      handle HandleOpenAIRequest
        {| handler := h; ctx := ctx;
           url := getBaseURL provider key +:+ path;
           request := request; credential := WithKey key;
           extraHeaders := NetworkConfig.ExtraHeaders (networkConfig provider);
           sendBackRawResponse_arg := sendBackRawResponse provider;
           providerName := GetProviderKey GetProviderName provider |}
  end.

(** Their streaming counterparts. *)
Definition dispatchStream (provider : @ApertusProvider CustomProviderConfigT)
    (operation : RequestType) (h : Handler) (path : string) (ctx : ContextT)
    (postHookRunner : PostHookRunnerT) (key : Key.t) (request : BifrostRequest.t)
  : io StreamReply :=
  err ← checkOperationAllowed CheckOperationAllowed (customProviderConfig provider) operation;
  match err with
  | Some err => mret (None, Some err)
  | None =>
      handleStreaming HandleOpenAIStreaming
        {| handler := h; ctx := ctx;
           url := getBaseURL provider key +:+ path;
           request := request; credential := bearer key;
           extraHeaders := NetworkConfig.ExtraHeaders (networkConfig provider);
           sendBackRawResponse_arg := sendBackRawResponse provider;
           providerName := GetProviderKey GetProviderName provider |}
        postHookRunner
  end.

Definition TextCompletion (provider : @ApertusProvider CustomProviderConfigT) :=
  dispatch provider TextCompletionRequest HandleOpenAITextCompletionRequest "/v1/completions".

Definition TextCompletionStream (provider : @ApertusProvider CustomProviderConfigT) :=
  dispatchStream provider TextCompletionStreamRequest HandleOpenAITextCompletionStreaming
    "/v1/completions".

Definition ChatCompletion (provider : @ApertusProvider CustomProviderConfigT) :=
  dispatch provider ChatCompletionRequest HandleOpenAIChatCompletionRequest
    "/v1/chat/completions".

Definition ChatCompletionStream (provider : @ApertusProvider CustomProviderConfigT) :=
  dispatchStream provider ChatCompletionStreamRequest HandleOpenAIChatCompletionStreaming
    "/v1/chat/completions".

Definition Responses (provider : @ApertusProvider CustomProviderConfigT) :=
  dispatch provider ResponsesRequest HandleOpenAIResponsesRequest "/v1/responses".

Definition ResponsesStream (provider : @ApertusProvider CustomProviderConfigT) :=
  dispatchStream provider ResponsesStreamRequest HandleOpenAIResponsesStreaming "/v1/responses".

Definition Embedding (provider : @ApertusProvider CustomProviderConfigT) :=
  dispatch provider EmbeddingRequest HandleOpenAIEmbeddingRequest "/v1/embeddings".

(** The entry points of the revision, one per request type. *)
Definition invoke (provider : @ApertusProvider CustomProviderConfigT) (operation : RequestType)
    (ctx : ContextT) (postHookRunner : PostHookRunnerT) (keys : list Key.t) (key : Key.t)
    (request : BifrostRequest.t) : io Outcome :=
  match operation with
  | ListModelsRequest => r ← ListModels provider ctx keys; mret (Listed r)
  | TextCompletionRequest => r ← TextCompletion provider ctx key request; mret (Replied r)
  | TextCompletionStreamRequest =>
      r ← TextCompletionStream provider ctx postHookRunner key request; mret (Streamed r)
  | ChatCompletionRequest => r ← ChatCompletion provider ctx key request; mret (Replied r)
  | ChatCompletionStreamRequest =>
      r ← ChatCompletionStream provider ctx postHookRunner key request; mret (Streamed r)
  | ResponsesRequest => r ← Responses provider ctx key request; mret (Replied r)
  | ResponsesStreamRequest =>
      r ← ResponsesStream provider ctx postHookRunner key request; mret (Streamed r)
  | EmbeddingRequest => r ← Embedding provider ctx key request; mret (Replied r)
  | SpeechRequest =>
      r ← Speech CheckOperationAllowed GetProviderName OpenAIProvider provider ctx key request;
      mret (Replied r)
  | SpeechStreamRequest =>
      r ← SpeechStream CheckOperationAllowed OpenAIProviderStream provider ctx postHookRunner
            key request;
      mret (Streamed r)
  | TranscriptionRequest =>
      r ← Transcription CheckOperationAllowed GetProviderName OpenAIProvider provider ctx key
            request;
      mret (Replied r)
  | TranscriptionStreamRequest =>
      r ← TranscriptionStream CheckOperationAllowed OpenAIProviderStream provider ctx
            postHookRunner key request;
      mret (Streamed r)
  end.

End provider.

End providers.

(** ** Sample rows and keys *)

Module samples.
Import schemas.

Definition blank_key : tables.TableKey.t :=
  {| tables.TableKey.ID := 1; tables.TableKey.Name := "primary";
     tables.TableKey.ProviderID := 1; tables.TableKey.Provider := "apertus";
     tables.TableKey.KeyID := "key-1"; tables.TableKey.Value := "sk-xxxxx";
     tables.TableKey.ModelsJSON := "[]";
     tables.TableKey.AzureEndpoint := None; tables.TableKey.AzureAPIVersion := None;
     tables.TableKey.AzureDeploymentsJSON := None;
     tables.TableKey.VertexProjectID := None; tables.TableKey.VertexRegion := None;
     tables.TableKey.VertexAuthCredentials := None;
     tables.TableKey.BedrockAccessKey := None; tables.TableKey.BedrockSecretKey := None;
     tables.TableKey.BedrockSessionToken := None; tables.TableKey.BedrockRegion := None;
     tables.TableKey.BedrockARN := None; tables.TableKey.BedrockDeploymentsJSON := None;
     tables.TableKey.ApertusEndpoint := None;
     tables.TableKey.Models := None;
     tables.TableKey.AzureKeyConfig := None; tables.TableKey.VertexKeyConfig := None;
     tables.TableKey.BedrockKeyConfig := None; tables.TableKey.ApertusKeyConfig := None |}.

(** A row holding one override of each provider, all of them with a key field. *)
Definition full_key : tables.TableKey.t :=
  tables.TableKey.set_Models (Some ["gpt-4"; "gpt-4o"])
    (tables.TableKey.set_AzureKeyConfig
       (Some (AzureKeyConfig.mk "https://res.openai.azure.com" (Some "2024-02-01")
                (Some {[ "gpt-4" := "deploy-1" ]})))
       (tables.TableKey.set_VertexKeyConfig
          (Some (VertexKeyConfig.mk "project" "" "credentials"))
          (tables.TableKey.set_BedrockKeyConfig
             (Some (BedrockKeyConfig.mk "" "secret" None (Some "eu-west-1") None
                      (Some {[ "claude" := "arn-1" ]})))
             (tables.TableKey.set_ApertusKeyConfig
                (Some (ApertusKeyConfig.mk "https://custom.example.com/" None))
                blank_key)))).

(** An Azure override without endpoint but with an API version. *)
Definition azure_version_only : AzureKeyConfig.t :=
  AzureKeyConfig.mk "" (Some "2024-02-01") None.

Definition azure_version_key : tables.TableKey.t :=
  tables.TableKey.set_AzureKeyConfig (Some azure_version_only) blank_key.

(** The row it is stored as: of the Azure columns only the API version is set. *)
Definition azure_version_row : tables.TableKey.t :=
  tables.TableKey.set_AzureAPIVersion (Some "2024-02-01") blank_key.

(** An Apertus override carrying model name mappings. *)
Definition mapped_override : ApertusKeyConfig.t :=
  ApertusKeyConfig.mk "https://custom.example.com" (Some {[ "gpt-4o" := "prod-deploy-1" ]}).

Definition mapped_key : tables.TableKey.t :=
  tables.TableKey.set_ApertusKeyConfig (Some mapped_override) blank_key.

(** A row holding one override of each provider, the Apertus one with model
    name mappings. *)
Definition full_mapped_key : tables.TableKey.t :=
  tables.TableKey.set_ApertusKeyConfig (Some mapped_override) full_key.

(** A row whose Azure deployments column is not JSON. *)
Definition malformed_row : tables.TableKey.t :=
  tables.TableKey.set_AzureDeploymentsJSON (Some "{oops")
    (tables.TableKey.set_AzureEndpoint (Some "https://res.openai.azure.com") blank_key).

(** Provider rows whose configuration structs are JSON objects of strings. *)
Definition stored_network_config : option (gmap string string) :=
  Some {[ "base_url" := "https://default-api.example.com" ]}.

Definition base_provider_type (c : option (gmap string string)) : string :=
  default "" (c ≫= λ m, m !! "base_provider_type").

(** A row read from the store earlier, whose network configuration has since
    been set to nil in memory. *)
Definition cleared_provider :
  tables.TableProvider.t (option (gmap string string)) (option (gmap string string))
    (option (gmap string string)) (option (gmap string string)) :=
  {| tables.TableProvider.ID := 1; tables.TableProvider.Name := "apertus";
     tables.TableProvider.NetworkConfigJSON :=
       tables.TableKey.text (json_Marshal stored_network_config);
     tables.TableProvider.ConcurrencyBufferJSON := "";
     tables.TableProvider.ProxyConfigJSON := "";
     tables.TableProvider.CustomProviderConfigJSON := "";
     tables.TableProvider.SendBackRawResponse := false;
     tables.TableProvider.NetworkConfig := None;
     tables.TableProvider.ConcurrencyAndBufferSize := None;
     tables.TableProvider.ProxyConfig := None;
     tables.TableProvider.CustomProviderConfig := None |}.

(** *** The provider at work *)

Definition network (baseURL : string) : NetworkConfig.t :=
  {| NetworkConfig.BaseURL := baseURL; NetworkConfig.ExtraHeaders := None;
     NetworkConfig.DefaultRequestTimeoutInSeconds := 30; NetworkConfig.MaxRetries := 0;
     NetworkConfig.RetryBackoffInitial := 0; NetworkConfig.RetryBackoffMax := 0 |}.

Definition config (baseURL : string) (custom : option providerUtils.CustomProviderConfig)
  : ProviderConfig.t providerUtils.CustomProviderConfig :=
  {| ProviderConfig.NetworkConfig := network baseURL;
     ProviderConfig.SendBackRawResponse := false;
     ProviderConfig.CustomProviderConfig := custom |}.

(** A shared handler that answers, reporting the provider name it was given. *)
Definition answering_handler (c : @apertus.HandlerCall unit) : apertus.Reply :=
  (Some {| BifrostResponse.Output := "ok";
           BifrostResponse.ExtraFields :=
             {| BifrostResponseExtraFields.Provider := apertus.providerName c;
                BifrostResponseExtraFields.RequestType := ChatCompletionRequest;
                BifrostResponseExtraFields.Latency := 12 |} |}, None).

Definition answering_stream (c : @apertus.HandlerCall unit) (postHookRunner : unit)
  : apertus.StreamReply :=
  (Some [StreamResponse
           {| BifrostResponse.Output := "ok";
              BifrostResponse.ExtraFields :=
                {| BifrostResponseExtraFields.Provider := apertus.providerName c;
                   BifrostResponseExtraFields.RequestType := ChatCompletionStreamRequest;
                   BifrostResponseExtraFields.Latency := 12 |} |}], None).

(** An OpenAI provider that reports its own identity: one whose calls are
    refused upstream, and one whose stream carries one event. *)
Definition openai_error (operation : RequestType) : BifrostError.t :=
  {| BifrostError.Message := "401 Unauthorized";
     BifrostError.ExtraFields :=
       {| BifrostErrorExtraFields.Provider := "openai";
          BifrostErrorExtraFields.RequestType := operation |} |}.

Definition refused_openai (c : @apertus.DelegateCall unit providerUtils.CustomProviderConfig)
  : apertus.Reply :=
  (None, Some (openai_error (apertus.method c))).

Definition streaming_openai (c : @apertus.DelegateCall unit providerUtils.CustomProviderConfig)
    (postHookRunner : unit) : apertus.StreamReply :=
  (Some [StreamResponse
           {| BifrostResponse.Output := "audio";
              BifrostResponse.ExtraFields :=
                {| BifrostResponseExtraFields.Provider := "openai";
                   BifrostResponseExtraFields.RequestType := apertus.method c;
                   BifrostResponseExtraFields.Latency := 40 |} |}], None).

Definition refused_stream (c : @apertus.DelegateCall unit providerUtils.CustomProviderConfig)
    (postHookRunner : unit) : apertus.StreamReply :=
  (None, Some (openai_error (apertus.method c))).

(** The provider built from a configuration, and its entry points, with these
    collaborators. *)
Definition provider (baseURL : string) (custom : option providerUtils.CustomProviderConfig) :=
  apertus.NewApertusProvider providerUtils.CheckAndSetDefaults (config baseURL custom).

Definition invoke :=
  apertus.invoke (PostHookRunnerT := unit) providerUtils.CheckOperationAllowed
    providerUtils.GetProviderName providerUtils.GetRequestPath
    providerUtils.ShouldSendBackRawResponse answering_handler answering_stream
    refused_openai streaming_openai.

(** The same with an OpenAI provider that refuses to open a stream. *)
Definition invoke_refused :=
  apertus.invoke (PostHookRunnerT := unit) providerUtils.CheckOperationAllowed
    providerUtils.GetProviderName providerUtils.GetRequestPath
    providerUtils.ShouldSendBackRawResponse answering_handler answering_stream
    refused_openai refused_stream.

Definition plain_key : Key.t :=
  {| Key.ID := "key-2"; Key.Value := "sk-yyyyy"; Key.Models := ["gpt-4"];
     Key.ApertusKeyConfig := None |}.

(** The key of the first scenario: an endpoint with a trailing slash. *)
Definition custom_key : Key.t :=
  {| Key.ID := "key-1"; Key.Value := "sk-xxxxx"; Key.Models := ["gpt-4"; "gpt-3.5-turbo"];
     Key.ApertusKeyConfig := Some (ApertusKeyConfig.mk "https://custom.example.com/" None) |}.

(** The key of the second scenario: no endpoint, one mapping. *)
Definition mapping_key : Key.t :=
  {| Key.ID := "key-3"; Key.Value := "sk-zzzzz"; Key.Models := ["gpt-4o"];
     Key.ApertusKeyConfig :=
       Some (ApertusKeyConfig.mk "" (Some {[ "gpt-4o" := "prod-deploy-1" ]})) |}.

(** A key whose endpoint is a slash. *)
Definition slash_key : Key.t :=
  {| Key.ID := "key-4"; Key.Value := "sk-wwwww"; Key.Models := [];
     Key.ApertusKeyConfig := Some (ApertusKeyConfig.mk "/" None) |}.

Definition chat (model : string) : BifrostRequest.t :=
  {| BifrostRequest.Model := model; BifrostRequest.Input := "Hello!" |}.

(** A custom provider configuration that overrides the path of speech
    requests, and one that allows chat completions only. *)
Definition speech_override : providerUtils.CustomProviderConfig :=
  {| providerUtils.CustomProviderKey := "";
     providerUtils.AllowedRequests := None;
     providerUtils.RequestPathOverrides := [(SpeechRequest, "/custom/speech")] |}.

Definition chat_only : providerUtils.CustomProviderConfig :=
  {| providerUtils.CustomProviderKey := "";
     providerUtils.AllowedRequests := Some [ChatCompletionRequest];
     providerUtils.RequestPathOverrides := [] |}.

End samples.

(** ** More sample rows *)

Module cases.
Import schemas.

(** A client configuration with labels and without allowed origins, not yet
    stored. *)
Definition client : tables.TableClientConfig.t :=
  {| tables.TableClientConfig.ID := 1;
     tables.TableClientConfig.DropExcessRequests := false;
     tables.TableClientConfig.PrometheusLabelsJSON := "";
     tables.TableClientConfig.AllowedOriginsJSON := "";
     tables.TableClientConfig.InitialPoolSize := 300;
     tables.TableClientConfig.EnableLogging := true;
     tables.TableClientConfig.EnableGovernance := false;
     tables.TableClientConfig.EnforceGovernanceHeader := false;
     tables.TableClientConfig.AllowDirectKeys := false;
     tables.TableClientConfig.MaxRequestBodySizeMB := 100;
     tables.TableClientConfig.EnableLiteLLMFallbacks := false;
     tables.TableClientConfig.PrometheusLabels := Some ["team"; "environment"];
     tables.TableClientConfig.AllowedOrigins := None |}.

(** The same lists over columns that hold something else. *)
Definition client_over_old_columns : tables.TableClientConfig.t :=
  tables.TableClientConfig.set_AllowedOriginsJSON "[old]"
    (tables.TableClientConfig.set_PrometheusLabelsJSON "[old]" client).

(** A stored row whose labels column is not JSON, read into a struct that
    holds allowed origins already. *)
Definition client_malformed : tables.TableClientConfig.t :=
  tables.TableClientConfig.set_AllowedOrigins (Some ["https://app.example.com"])
    (tables.TableClientConfig.set_AllowedOriginsJSON "[]"
       (tables.TableClientConfig.set_PrometheusLabelsJSON "{oops"
          (tables.TableClientConfig.set_PrometheusLabels None client))).

(** A provider row with a network configuration and a custom configuration
    that names its base provider type, not yet stored. *)
Definition typed_provider :
  tables.TableProvider.t (option (gmap string string)) (option (gmap string string))
    (option (gmap string string)) (option (gmap string string)) :=
  {| tables.TableProvider.ID := 2; tables.TableProvider.Name := "my-apertus";
     tables.TableProvider.NetworkConfigJSON := "";
     tables.TableProvider.ConcurrencyBufferJSON := "";
     tables.TableProvider.ProxyConfigJSON := "";
     tables.TableProvider.CustomProviderConfigJSON := "";
     tables.TableProvider.SendBackRawResponse := true;
     tables.TableProvider.NetworkConfig := Some samples.stored_network_config;
     tables.TableProvider.ConcurrencyAndBufferSize := None;
     tables.TableProvider.ProxyConfig := None;
     tables.TableProvider.CustomProviderConfig :=
       Some (Some {[ "base_provider_type" := "openai" ]}) |}.

(** The same with a custom configuration that names no base provider type. *)
Definition untyped_provider :=
  tables.TableProvider.set_CustomProviderConfig
    (Some (Some ({[ "custom_provider_key" := "my-apertus" ]} : gmap string string)))
    typed_provider.

(** A [sonic] that refuses every value. *)
Definition refusing_sonic : JSON (option (gmap string string)) :=
  {| json_Marshal := refjson.marshal_map;
     sonic_Marshal := λ _, Err (Error "sonic: unsupported value");
     json_Unmarshal := refjson.unmarshal_map |}.

(** A call of [sonic] that writes the members of a map from the last to the
    first, and a row whose Bedrock override has two deployments. *)
Definition reversing_sonic (v : option (gmap string string)) : result string :=
  match v with
  | None => Ok "null"
  | Some m =>
      Ok (String "{"%char
            (refjson.write_items refjson.write_member "}"%char (reverse (map_to_list m))
               EmptyString))
  end.

Definition two_deployments_key : tables.TableKey.t :=
  tables.TableKey.set_BedrockKeyConfig
    (Some (schemas.BedrockKeyConfig.mk "" "secret" None (Some "eu-west-1") None
             (Some {[ "claude" := "arn-1"; "titan" := "arn-2" ]})))
    samples.blank_key.

(** A struct that still holds the overrides of the row it was used for, with
    the columns of a row that has none. *)
Definition reused_key : tables.TableKey.t := samples.full_key.

(** Two keys whose endpoints differ by trailing slashes. *)
Definition endpoint_key (endpoint : string) : Key.t :=
  {| Key.ID := "key-5"; Key.Value := "sk-vvvvv"; Key.Models := ["gpt-4"; "gpt-4"];
     Key.ApertusKeyConfig := Some (ApertusKeyConfig.mk endpoint None) |}.

(** An OpenAI provider that answers, reporting its own identity. *)
Definition answering_openai (c : @apertus.DelegateCall unit providerUtils.CustomProviderConfig)
  : apertus.Reply :=
  (Some {| BifrostResponse.Output := "audio";
           BifrostResponse.ExtraFields :=
             {| BifrostResponseExtraFields.Provider := "openai";
                BifrostResponseExtraFields.RequestType := apertus.method c;
                BifrostResponseExtraFields.Latency := 40 |} |}, None).

End cases.

(** * Properties *)

(** ** The reference JSON implementation meets the laws *)

Module refjson_laws.
Import refjson.

Lemma read_chars_write_chars (s rest : string) :
  read_chars (write_chars s (String dquote rest)) = Some (s, rest).
Proof.
  induction s as [|c s IH]; simpl.
  - reflexivity.
  - destruct (escaped c) eqn:Hesc; simpl.
    + rewrite Hesc, IH. reflexivity.
    + unfold escaped in Hesc. apply orb_false_elim in Hesc as [Hq Hb].
      rewrite Hq, Hb, IH. reflexivity.
Qed.

Lemma read_write_string (s rest : string) :
  read_string (write_string s rest) = Some (s, rest).
Proof. unfold read_string, write_string. simpl. apply read_chars_write_chars. Qed.

Lemma read_write_member (kv : string * string) (rest : string) :
  read_member (write_member kv rest) = Some (kv, rest).
Proof.
  destruct kv as [k v]. unfold read_member, write_member. cbn [fst snd].
  rewrite read_write_string, Ascii.eqb_refl, read_write_string. reflexivity.
Qed.

Lemma length_write_chars (s rest : string) :
  (String.length rest ≤ String.length (write_chars s rest))%nat.
Proof. induction s as [|c s IH]; simpl; [lia|]. destruct (escaped c); simpl; lia. Qed.

Lemma length_write_string (s rest : string) :
  String.length rest < String.length (write_string s rest).
Proof.
  unfold write_string. simpl.
  pose proof (length_write_chars s (String dquote rest)) as Hlen. simpl in Hlen. lia.
Qed.

Lemma length_write_member (kv : string * string) (rest : string) :
  String.length rest < String.length (write_member kv rest).
Proof.
  unfold write_member.
  pose proof (length_write_string kv.1 (String ":"%char (write_string kv.2 rest))) as H1.
  pose proof (length_write_string kv.2 rest) as H2.
  unfold write_string in *. simpl in *. lia.
Qed.

Section sequences.
Context {A : Type} (write : A → string → string) (read : string → option (A * string)).
Context (close : ascii).
Hypothesis close_not_comma : Ascii.eqb comma close = false.
Hypothesis read_write : ∀ x rest, read (write x rest) = Some (x, rest).
Hypothesis write_grows : ∀ x rest, String.length rest < String.length (write x rest).

Lemma read_items_write_items (l : list A) (fuel : nat) (rest : string) :
  l ≠ [] → (length l ≤ fuel)%nat →
  read_items read close fuel (write_items write close l rest) = Some (l, rest).
Proof.
  revert fuel. induction l as [|x l IH]; intros fuel Hne Hfuel; [done|].
  destruct fuel as [|fuel]; simpl in Hfuel; [lia|].
  destruct l as [|y l].
  - simpl. rewrite read_write, Ascii.eqb_refl. reflexivity.
  - change (write_items write close (x :: y :: l) rest)
      with (write x (String comma (write_items write close (y :: l) rest))).
    simpl read_items. rewrite read_write, close_not_comma, Ascii.eqb_refl.
    rewrite IH; [reflexivity|done|simpl in *; lia].
Qed.

Lemma length_write_items (l : list A) (rest : string) :
  (length l ≤ String.length (write_items write close l rest))%nat.
Proof.
  induction l as [|x l IH]; simpl; [lia|].
  destruct l as [|y l].
  - pose proof (write_grows x (String close rest)). simpl in *. lia.
  - pose proof (write_grows x (String comma (write_items write close (y :: l) rest))).
    simpl in *. lia.
Qed.

Hypothesis write_not_close : ∀ x rest, ∃ c s, write x rest = String c s ∧ Ascii.eqb c close = false.

Lemma read_sequence_write_items (l : list A) (rest : string) :
  read_sequence read close (write_items write close l rest) = Some (l, rest).
Proof.
  destruct l as [|x l].
  - simpl. rewrite Ascii.eqb_refl. reflexivity.
  - unfold read_sequence.
    assert (∃ c s, write_items write close (x :: l) rest = String c s ∧ Ascii.eqb c close = false)
      as (c & s & Heq & Hc).
    { destruct l; simpl; apply write_not_close. }
    rewrite Heq, Hc, <- Heq.
    apply read_items_write_items; [done|apply length_write_items].
Qed.

End sequences.

Lemma write_string_head (close : ascii) (s rest : string) :
  Ascii.eqb dquote close = false →
  ∃ c r, write_string s rest = String c r ∧ Ascii.eqb c close = false.
Proof. intros H. unfold write_string. eauto. Qed.

Lemma unmarshal_marshal_strings (v : option (list string)) (s : string) :
  marshal_strings v = Ok s → unmarshal_strings s None = Ok v.
Proof.
  destruct v as [l|]; simpl; intros [= <-]; [|reflexivity].
  unfold unmarshal_strings. simpl.
  rewrite (read_sequence_write_items write_string read_string); try done.
  - apply read_write_string.
  - apply length_write_string.
  - intros x rest. by apply write_string_head.
Qed.

Lemma unmarshal_marshal_map (v : option (gmap string string)) (s : string) :
  marshal_map v = Ok s → unmarshal_map s None = Ok v.
Proof.
  destruct v as [m|]; simpl; intros [= <-]; [|reflexivity].
  unfold unmarshal_map. simpl.
  rewrite (read_sequence_write_items write_member read_member); try done.
  - simpl. do 2 f_equal. rewrite (right_id_L ∅ (∪)).
    rewrite <- (list_to_map_to_list m) at 2.
    apply list_to_map_proper.
    + rewrite fmap_reverse, reverse_Permutation. apply NoDup_fst_map_to_list.
    + apply reverse_Permutation.
  - apply read_write_member.
  - apply length_write_member.
  - intros [k x] rest. unfold write_member. by apply write_string_head.
Qed.

Lemma marshal_strings_nonempty (v : option (list string)) (s : string) :
  marshal_strings v = Ok s → s ≠ "".
Proof. destruct v; simpl; intros [= <-]; done. Qed.

Lemma marshal_map_nonempty (v : option (gmap string string)) (s : string) :
  marshal_map v = Ok s → s ≠ "".
Proof. destruct v; simpl; intros [= <-]; done. Qed.

#[global] Instance strings_lawful : JSONLawful (option (list string)).
Proof.
  split; simpl.
  - intros [l|]; simpl; eauto.
  - intros [l|]; simpl; eauto.
  - apply marshal_strings_nonempty.
  - apply marshal_strings_nonempty.
  - apply unmarshal_marshal_strings.
  - apply unmarshal_marshal_strings.
Qed.

#[global] Instance map_lawful : JSONLawful (option (gmap string string)).
Proof.
  split; simpl.
  - intros [l|]; simpl; eauto.
  - intros [l|]; simpl; eauto.
  - apply marshal_map_nonempty.
  - apply marshal_map_nonempty.
  - apply unmarshal_marshal_map.
  - apply unmarshal_marshal_map.
Qed.

#[global] Instance strings_empty_array : JSONEmptyArray.
Proof. reflexivity. Qed.

End refjson_laws.

(** ** The codec of [config_keys] *)

(** Runs the hook in hypothesis [H]: each test it meets is decided by cases, and
    the fields of the rows built on the way are computed. *)
Ltac run_hook H :=
  repeat (simpl in H;
          match type of H with
          | context [match ?x with _ => _ end] =>
              match x with
              | context [match _ with _ => _ end] => fail 1
              | context [if _ then _ else _] => fail 1
              | _ => destruct x eqn:?
              end
          | context [if ?b then _ else _] =>
              match b with
              | context [match _ with _ => _ end] => fail 1
              | context [if _ then _ else _] => fail 1
              | _ => destruct b eqn:?
              end
          end).


Lemma nonempty_true (s : string) : nonempty s = true ↔ s ≠ "".
Proof. unfold nonempty. rewrite negb_true_iff. apply String.eqb_neq. Qed.

Lemma nonempty_false (s : string) : nonempty s = false ↔ s = "".
Proof. unfold nonempty. rewrite negb_false_iff. apply String.eqb_eq. Qed.

Lemma hook_bind_ok {S A B : Type} (m : hook S A) (f : A → hook S B) (k k' : S) (a : A) :
  m k = (k', Ok a) → (m ≫= f) k = f a k'.
Proof. unfold mbind, hook_bind. by intros ->. Qed.

Lemma hook_bind_Ok_inv {S A B : Type} (m : hook S A) (f : A → hook S B) (k k' : S) (b : B) :
  (m ≫= f) k = (k', Ok b) → ∃ k0 a, m k = (k0, Ok a) ∧ f a k0 = (k', Ok b).
Proof.
  unfold mbind, hook_bind. destruct (m k) as [k0 [a|e]]; [eauto|discriminate].
Qed.

Module TableKey_facts.
Import tables.TableKey.

Lemma present_nonempty_true (col : option string) :
  present_nonempty col = true ↔ ∃ s, col = Some s ∧ s ≠ "".
Proof.
  destruct col as [s|]; simpl.
  - rewrite nonempty_true. split; [eauto|]. by intros (? & [= <-] & ?).
  - split; [done|]. by intros (? & ? & ?).
Qed.

Ltac unfold_hooks :=
  unfold BeforeSave, save_Models, save_Azure, save_Vertex, save_Bedrock, save_Apertus,
    AfterFind, find_Models, find_Azure, find_Vertex, find_Bedrock, find_Apertus in *;
  unfold mbind, hook_bind, mret, hook_ret, receiver, try, assign, go_zero, option_zero in *.

Section facts.
Context `{JSON (option (list string)), JSON (option (gmap string string))}.

(** [AfterFind] on a scanned row, group by group: the hook stops at the first
    column that does not deserialize, and each override set before that is the
    one decoded from the columns of its group. *)
Lemma AfterFind_scan (k k' : t) (r : result unit) :
  AfterFind (scan k) = (k', r) →
  match models_decoded k with
  | Err e => r = Err e ∧ overrides k' = no_overrides
  | Ok _ =>
      match azure_decoded (azure_columns k) with
      | Err e => r = Err e ∧ overrides k' = no_overrides
      | Ok azure =>
          AzureKeyConfig k' = azure
          ∧ VertexKeyConfig k' = vertex_decoded (vertex_columns k)
          ∧ match bedrock_decoded (bedrock_columns k) with
            | Err e => r = Err e ∧ BedrockKeyConfig k' = None ∧ ApertusKeyConfig k' = None
            | Ok bedrock =>
                r = Ok tt ∧ BedrockKeyConfig k' = bedrock
                ∧ ApertusKeyConfig k' = apertus_decoded (ApertusEndpoint k)
            end
      end
  end.
Proof.
  unfold models_decoded, azure_decoded, vertex_decoded, bedrock_decoded, apertus_decoded,
    deployments_decoded, azure_columns, vertex_columns, bedrock_columns, overrides, no_overrides.
  intros Hfind. unfold_hooks. run_hook Hfind.
  all: injection Hfind as <- <-;
    cbn [AzureKeyConfig VertexKeyConfig BedrockKeyConfig ApertusKeyConfig
         set_ApertusKeyConfig set_BedrockKeyConfig set_VertexKeyConfig set_AzureKeyConfig
         set_Models scan].
  all: repeat match goal with Heq : ?x = _ |- context [?x] => rewrite Heq end.
  all: done.
Qed.

(** The steps of [BeforeSave]: when a step succeeds, the columns of its group
    are the ones encoded from the override. *)
Lemma save_Models_Ok (k k0 : t) :
  save_Models k = (k0, Ok tt) → k0 = set_ModelsJSON (models_encoded (Models k)) k.
Proof.
  unfold_hooks. unfold models_encoded. destruct (Models k) as [l|]; [|by intros [= <-]].
  destruct (json_Marshal (Some l)); [by intros [= <-]|discriminate].
Qed.

Lemma save_Azure_Ok (k k0 : t) :
  save_Azure k = (k0, Ok tt) →
  k0 = let cols := azure_encoded (AzureKeyConfig k) in
       set_AzureDeploymentsJSON cols.2
         (set_AzureAPIVersion cols.1.2 (set_AzureEndpoint cols.1.1 k)).
Proof.
  unfold_hooks. unfold azure_encoded, kept.
  destruct (AzureKeyConfig k) as [[e v [m|]]|]; simpl;
    [|destruct (nonempty e); by intros [= <-]|by intros [= <-]].
  destruct (nonempty e), (json_Marshal (Some m)); simpl; by intros [= <-].
Qed.

Lemma save_Vertex_Ok (k k0 : t) :
  save_Vertex k = (k0, Ok tt) →
  k0 = let cols := vertex_encoded (VertexKeyConfig k) in
       set_VertexAuthCredentials cols.2
         (set_VertexRegion cols.1.2 (set_VertexProjectID cols.1.1 k)).
Proof.
  unfold_hooks. unfold vertex_encoded, kept.
  destruct (VertexKeyConfig k) as [[p r c]|]; simpl; [|by intros [= <-]].
  destruct (nonempty p), (nonempty r), (nonempty c); by intros [= <-].
Qed.

Lemma save_Bedrock_Ok (k k0 : t) :
  save_Bedrock k = (k0, Ok tt) →
  k0 = let cols := bedrock_encoded (BedrockKeyConfig k) in
       set_BedrockDeploymentsJSON cols.2
         (set_BedrockARN cols.1.2
            (set_BedrockRegion cols.1.1.2
               (set_BedrockSessionToken cols.1.1.1.2
                  (set_BedrockSecretKey cols.1.1.1.1.2
                     (set_BedrockAccessKey cols.1.1.1.1.1 k))))).
Proof.
  unfold_hooks. unfold bedrock_encoded, kept.
  destruct (BedrockKeyConfig k) as [[a s t r n [m|]]|]; simpl;
    [|destruct (nonempty a), (nonempty s); by intros [= <-]|by intros [= <-]].
  destruct (nonempty a), (nonempty s), (sonic_Marshal (Some m)); simpl; by intros [= <-].
Qed.

Lemma save_Apertus_Ok (k k0 : t) :
  save_Apertus k = (k0, Ok tt) →
  k0 = set_ApertusEndpoint (apertus_encoded (ApertusKeyConfig k)) k.
Proof.
  unfold_hooks. unfold apertus_encoded, kept.
  destruct (ApertusKeyConfig k) as [[e m]|]; simpl; [|by intros [= <-]].
  destruct (nonempty e); by intros [= <-].
Qed.

(** [BeforeSave], group by group: when it succeeds it has written the columns
    encoded from each override, and left the overrides as they are. *)
Lemma BeforeSave_Ok (k k1 : t) :
  BeforeSave k = (k1, Ok tt) →
  ModelsJSON k1 = models_encoded (Models k)
  ∧ azure_columns k1 = azure_encoded (AzureKeyConfig k)
  ∧ vertex_columns k1 = vertex_encoded (VertexKeyConfig k)
  ∧ bedrock_columns k1 = bedrock_encoded (BedrockKeyConfig k)
  ∧ ApertusEndpoint k1 = apertus_encoded (ApertusKeyConfig k)
  ∧ overrides k1 = overrides k.
Proof.
  unfold BeforeSave. intros Hsave.
  apply hook_bind_Ok_inv in Hsave as (? & [] & ->%save_Models_Ok & Hsave).
  apply hook_bind_Ok_inv in Hsave as (? & [] & ->%save_Azure_Ok & Hsave).
  apply hook_bind_Ok_inv in Hsave as (? & [] & ->%save_Vertex_Ok & Hsave).
  apply hook_bind_Ok_inv in Hsave as (? & [] & ->%save_Bedrock_Ok & Hsave).
  apply hook_bind_Ok_inv in Hsave as (? & [] & ->%save_Apertus_Ok & Hsave).
  injection Hsave as <-.
  unfold azure_columns, vertex_columns, bedrock_columns, overrides. simpl.
  destruct (azure_encoded (AzureKeyConfig k)) as [[? ?] ?].
  destruct (vertex_encoded (VertexKeyConfig k)) as [[? ?] ?].
  destruct (bedrock_encoded (BedrockKeyConfig k)) as [[[[[? ?] ?] ?] ?] ?].
  done.
Qed.

(** With encoders that succeed on the values of the row, [BeforeSave]
    succeeds. *)
Lemma BeforeSave_encodes (k : t) :
  (∀ l, Models k = Some l → ∃ s, json_Marshal (Some l) = Ok s) →
  (∀ c m, AzureKeyConfig k = Some c → schemas.AzureKeyConfig.Deployments c = Some m →
          ∃ s, json_Marshal (Some m) = Ok s) →
  (∀ c m, BedrockKeyConfig k = Some c → schemas.BedrockKeyConfig.Deployments c = Some m →
          ∃ s, sonic_Marshal (Some m) = Ok s) →
  ∃ k1, BeforeSave k = (k1, Ok tt).
Proof.
  intros Hmodels Hazure Hbedrock.
  assert (∃ k1, save_Models k = (k1, Ok tt)) as [k1 Hk1].
  { unfold_hooks. destruct (Models k) as [l|]; [|by eexists].
    destruct (Hmodels l eq_refl) as [s ->]. by eexists. }
  assert (∀ k0, AzureKeyConfig k0 = AzureKeyConfig k → ∃ k', save_Azure k0 = (k', Ok tt))
    as Hstep2.
  { intros k0 Hsame. unfold_hooks. rewrite Hsame.
    destruct (AzureKeyConfig k) as [[e v [m|]]|]; simpl;
      [|destruct (nonempty e); by eexists|by eexists].
    destruct (Hazure _ m eq_refl eq_refl) as [s Hs].
    destruct (nonempty e); simpl; rewrite Hs; by eexists. }
  assert (∀ k0, ∃ k', save_Vertex k0 = (k', Ok tt)) as Hstep3.
  { intros k0. unfold_hooks. destruct (VertexKeyConfig k0) as [[p r c]|]; simpl; [|by eexists].
    destruct (nonempty p), (nonempty r), (nonempty c); by eexists. }
  assert (∀ k0, BedrockKeyConfig k0 = BedrockKeyConfig k → ∃ k', save_Bedrock k0 = (k', Ok tt))
    as Hstep4.
  { intros k0 Hsame. unfold_hooks. rewrite Hsame.
    destruct (BedrockKeyConfig k) as [[a s t r n [m|]]|]; simpl;
      [|destruct (nonempty a), (nonempty s); by eexists|by eexists].
    destruct (Hbedrock _ m eq_refl eq_refl) as [data Hdata].
    destruct (nonempty a), (nonempty s); simpl; rewrite Hdata; by eexists. }
  assert (∀ k0, ∃ k', save_Apertus k0 = (k', Ok tt)) as Hstep5.
  { intros k0. unfold_hooks. destruct (ApertusKeyConfig k0) as [[e m]|]; simpl; [|by eexists].
    destruct (nonempty e); by eexists. }
  unfold BeforeSave. rewrite (hook_bind_ok _ _ _ _ _ Hk1).
  apply save_Models_Ok in Hk1 as ->.
  destruct (Hstep2 (set_ModelsJSON (models_encoded (Models k)) k) eq_refl) as [k2 Hk2].
  rewrite (hook_bind_ok _ _ _ _ _ Hk2). apply save_Azure_Ok in Hk2.
  destruct (Hstep3 k2) as [k3 Hk3]. rewrite (hook_bind_ok _ _ _ _ _ Hk3).
  apply save_Vertex_Ok in Hk3.
  destruct (Hstep4 k3) as [k4 Hk4]; [by subst k3 k2|].
  rewrite (hook_bind_ok _ _ _ _ _ Hk4).
  destruct (Hstep5 k4) as [k5 Hk5]. rewrite (hook_bind_ok _ _ _ _ _ Hk5).
  by eexists.
Qed.

(** *** Decoding what was encoded, group by group *)

Lemma default_kept (s : string) : default "" (kept s) = s.
Proof.
  unfold kept. destruct (nonempty s) eqn:Hs; [done|]. by apply nonempty_false in Hs.
Qed.

Lemma is_Some_kept (s : string) : bool_decide (is_Some (kept s)) = nonempty s.
Proof. unfold kept. by destruct (nonempty s). Qed.

Lemma reads_back_encoded {A : Type} `{GoZero A, JSON A} (encode : A → result string) (a : A) :
  reads_back encode a →
  ∃ s, encode a = Ok s ∧ nonempty s = true ∧ json_Unmarshal s go_zero = Ok a.
Proof. unfold reads_back. destruct (encode a) as [s|]; [|done]. intros []. eauto. Qed.

Lemma models_read (k1 : t) (v : option (list string)) :
  models_read_back v → ModelsJSON k1 = models_encoded v →
  ∃ models, models_decoded k1 = Ok models.
Proof.
  unfold models_decoded, models_encoded. intros Hread ->. destruct v as [l|]; simpl in Hread.
  - apply reads_back_encoded in Hread as (s & -> & Hs & Hback). simpl. rewrite Hs. eauto.
  - simpl. eauto.
Qed.

Lemma deployments_read (encode : option (gmap string string) → result string)
    (m : gmap string string) :
  deployments_read_back encode (Some m) →
  deployments_decoded (Some (text (encode (Some m)))) = Ok (Some m)
  ∧ present_nonempty (Some (text (encode (Some m)))) = true.
Proof.
  intros (s & -> & Hs & Hback)%reads_back_encoded. done.
Qed.

Lemma azure_read (v : option schemas.AzureKeyConfig.t) :
  match v with
  | Some c => deployments_read_back json_Marshal (schemas.AzureKeyConfig.Deployments c)
  | None => True
  end →
  azure_keyed v = true → azure_decoded (azure_encoded v) = Ok (normalize azure_empty v).
Proof.
  destruct v as [[e ver dep]|]; [|done]. unfold azure_keyed, azure_empty, azure_encoded, kept.
  simpl. intros Hread. destruct (nonempty e) eqn:He; simpl.
  - intros _. destruct dep as [m|]; [|done]. unfold azure_decoded.
    by destruct (deployments_read _ _ Hread) as [-> _].
  - by intros ->.
Qed.

Lemma vertex_decoded_encoded (v : option schemas.VertexKeyConfig.t) :
  vertex_decoded (vertex_encoded v) = normalize vertex_empty v.
Proof.
  destruct v as [[p r c]|]; [|done]. unfold vertex_decoded, vertex_encoded, vertex_empty.
  simpl. rewrite !is_Some_kept, !default_kept.
  by destruct (nonempty p), (nonempty r), (nonempty c).
Qed.

Lemma bedrock_read (v : option schemas.BedrockKeyConfig.t) :
  match v with
  | Some c => deployments_read_back sonic_Marshal (schemas.BedrockKeyConfig.Deployments c)
  | None => True
  end →
  bedrock_decoded (bedrock_encoded v) = Ok (normalize bedrock_empty v).
Proof.
  destruct v as [[a s t r n dep]|]; [|done]. intros Hread.
  unfold bedrock_decoded, bedrock_encoded, bedrock_empty. simpl.
  rewrite !is_Some_kept, !default_kept.
  destruct dep as [m|].
  - destruct (deployments_read _ _ Hread) as [-> ->].
    rewrite !orb_true_r, !andb_false_r. done.
  - by destruct (nonempty a), (nonempty s), t, r, n.
Qed.

(** The endpoint of an Apertus override is read back; its model name mappings
    are not written, and read back as nil. *)
Lemma apertus_read (v : option schemas.ApertusKeyConfig.t) :
  apertus_decoded (apertus_encoded v) = normalize apertus_empty (stored_apertus v).
Proof.
  destruct v as [[e m]|]; [|done].
  unfold apertus_decoded, apertus_encoded, apertus_empty, kept. simpl.
  by destruct (nonempty e).
Qed.

Lemma stored_apertus_unmapped (v : option schemas.ApertusKeyConfig.t) :
  apertus_unmapped v = true → stored_apertus v = v.
Proof. by destruct v as [[e [m|]]|]. Qed.

(** An override whose every field is empty is written as null columns. *)
Lemma empty_encoded :
  (∀ v, normalize azure_empty v = None → azure_encoded v = (None, None, None))
  ∧ (∀ v, normalize vertex_empty v = None → vertex_encoded v = (None, None, None))
  ∧ (∀ v, normalize bedrock_empty v = None →
          bedrock_encoded v = (None, None, None, None, None, None))
  ∧ (∀ v, normalize apertus_empty v = None → apertus_encoded v = None).
Proof.
  repeat apply conj.
  - intros [[e ver dep]|]; [|done]. unfold azure_empty, azure_encoded, kept. simpl.
    by destruct (nonempty e), ver, dep.
  - intros [[p r c]|]; [|done]. unfold vertex_empty, vertex_encoded, kept. simpl.
    by destruct (nonempty p), (nonempty r), (nonempty c).
  - intros [[a s t r n dep]|]; [|done]. unfold bedrock_empty, bedrock_encoded, kept. simpl.
    by destruct (nonempty a), (nonempty s), t, r, n, dep.
  - intros [[e m]|]; [|done]. unfold apertus_empty, apertus_encoded, kept. simpl.
    by destruct (nonempty e), m.
Qed.

(** The encoders succeed on the values that the libraries read back. *)
Lemma read_back_encodes (k : t) :
  libraries_read_back k →
  (∀ l, Models k = Some l → ∃ s, json_Marshal (Some l) = Ok s)
  ∧ (∀ c m, AzureKeyConfig k = Some c → schemas.AzureKeyConfig.Deployments c = Some m →
            ∃ s, json_Marshal (Some m) = Ok s)
  ∧ (∀ c m, BedrockKeyConfig k = Some c → schemas.BedrockKeyConfig.Deployments c = Some m →
            ∃ s, sonic_Marshal (Some m) = Ok s).
Proof.
  intros (Hmodels & Hazure & Hbedrock). repeat apply conj.
  - intros l Hl. rewrite Hl in Hmodels.
    apply reads_back_encoded in Hmodels as (s & ? & _). eauto.
  - intros c m Hc Hm. rewrite Hc, Hm in Hazure.
    apply reads_back_encoded in Hazure as (s & ? & _). eauto.
  - intros c m Hc Hm. rewrite Hc, Hm in Hbedrock.
    apply reads_back_encoded in Hbedrock as (s & ? & _). eauto.
Qed.

(** C1 (as amended).  For every row whose list of models and deployment maps
    the JSON libraries read back as they encode them, and whose Azure override,
    if there is one, has an endpoint or no field at all: [BeforeSave] succeeds,
    [AfterFind] succeeds on the row scanned back, and the overrides it
    reconstructs are the overrides saved, an override whose every field is
    empty being read back as absent, and an Apertus override being read back
    with its endpoint and without its model name mappings, which have no
    column; for a row without mappings that is the round trip as it is claimed.
    The columns of an override that is absent or has only empty fields are all
    null, and a row whose override columns are all null is read back without
    any override. *)
Theorem override_round_trip (k : t) :
  libraries_read_back k →
  azure_keyed (AzureKeyConfig k) = true →
  (∃ k1 k2, BeforeSave k = (k1, Ok tt) ∧ AfterFind (scan k1) = (k2, Ok tt)
            ∧ overrides k2 = stored_overrides k)
  ∧ (apertus_unmapped (ApertusKeyConfig k) = true → round_trip k)
  ∧ (∀ k1, BeforeSave k = (k1, Ok tt) →
       (normalize azure_empty (AzureKeyConfig k) = None →
          azure_columns k1 = (None, None, None))
       ∧ (normalize vertex_empty (VertexKeyConfig k) = None →
            vertex_columns k1 = (None, None, None))
       ∧ (normalize bedrock_empty (BedrockKeyConfig k) = None →
            bedrock_columns k1 = (None, None, None, None, None, None))
       ∧ (normalize apertus_empty (ApertusKeyConfig k) = None → ApertusEndpoint k1 = None))
  ∧ (∀ row, azure_columns row = (None, None, None) →
            vertex_columns row = (None, None, None) →
            bedrock_columns row = (None, None, None, None, None, None) →
            ApertusEndpoint row = None →
            overrides (AfterFind (scan row)).1 = no_overrides).
Proof.
  intros Hread Hazure.
  assert (∃ k1 k2, BeforeSave k = (k1, Ok tt) ∧ AfterFind (scan k1) = (k2, Ok tt)
                   ∧ overrides k2 = stored_overrides k) as Htrip.
  { destruct (read_back_encodes k Hread) as (Em & Ea & Eb).
    destruct (BeforeSave_encodes k Em Ea Eb) as [k1 Hsave].
    destruct (BeforeSave_Ok _ _ Hsave) as (Hm & Ha & Hv & Hb & Hp & _).
    destruct Hread as (Rm & Ra & Rb).
    destruct (models_read _ _ Rm Hm) as [models Hmodels].
    destruct (AfterFind (scan k1)) as [k2 r] eqn:Hfind.
    exists k1, k2. split; [done|]. rewrite Hfind.
    apply AfterFind_scan in Hfind.
    rewrite Hmodels, Ha, Hv, Hb, Hp in Hfind.
    rewrite (azure_read _ Ra Hazure), vertex_decoded_encoded, (bedrock_read _ Rb), apertus_read
      in Hfind.
    destruct Hfind as (Ha' & Hv' & -> & Hb' & Hp'). split; [done|].
    unfold overrides, stored_overrides. by rewrite Ha', Hv', Hb', Hp'. }
  repeat apply conj.
  - done.
  - intros Hunmapped. destruct Htrip as (k1 & k2 & Hsave & Hfind & Hsame).
    exists k1, k2. split; [done|]. split; [done|]. rewrite Hsame.
    unfold stored_overrides, normalized_overrides.
    by rewrite (stored_apertus_unmapped _ Hunmapped).
  - intros k1 Hsave. destruct (BeforeSave_Ok _ _ Hsave) as (_ & -> & -> & -> & -> & _).
    destruct empty_encoded as (Ea & Ev & Eb & Ep). auto.
  - intros row Ha' Hv' Hb' Hp'.
    destruct (AfterFind (scan row)) as [k' r] eqn:Hfind. apply AfterFind_scan in Hfind.
    rewrite Ha', Hv', Hb', Hp' in Hfind. simpl in Hfind.
    destruct (models_decoded row); [|by destruct Hfind].
    destruct Hfind as (? & ? & _ & ? & ?). unfold overrides, no_overrides. simpl.
    by repeat f_equal.
Qed.

Section lawful.
Context `{!JSONLawful (option (list string)), !JSONLawful (option (gmap string string))}.
Context `{!JSONEmptyArray}.

(** Lawful libraries read back every value. *)
Lemma lawful_models (v : option (list string)) : models_read_back v.
Proof.
  unfold models_read_back, reads_back. destruct v as [l|].
  - destruct (json_Marshal_total (Some l)) as [s Hs]. rewrite Hs. split.
    + by apply nonempty_true, (json_Marshal_nonempty _ _ Hs).
    + by apply json_Unmarshal_Marshal.
  - apply json_Unmarshal_empty_array.
Qed.

Lemma lawful_deployments (v : option (gmap string string)) :
  deployments_read_back json_Marshal v ∧ deployments_read_back sonic_Marshal v.
Proof.
  destruct v as [m|]; [|done]. unfold deployments_read_back, reads_back.
  destruct (json_Marshal_total (Some m)) as [s Hs].
  destruct (sonic_Marshal_total (Some m)) as [s' Hs']. rewrite Hs, Hs'. repeat split.
  - by apply nonempty_true, (json_Marshal_nonempty _ _ Hs).
  - by apply json_Unmarshal_Marshal.
  - by apply nonempty_true, (sonic_Marshal_nonempty _ _ Hs').
  - by apply json_Unmarshal_sonic.
Qed.

Lemma lawful_reads_back (k : t) : libraries_read_back k.
Proof.
  split; [apply lawful_models|]. split.
  - destruct (AzureKeyConfig k) as [c|]; [apply lawful_deployments|done].
  - destruct (BedrockKeyConfig k) as [c|]; [apply lawful_deployments|done].
Qed.

(** With encoders that cannot fail, [BeforeSave] succeeds. *)
Lemma BeforeSave_total (k : t) : ∃ k1, BeforeSave k = (k1, Ok tt).
Proof.
  destruct (read_back_encodes k (lawful_reads_back k)) as (Em & Ea & Eb).
  by apply BeforeSave_encodes.
Qed.

(** The models column it writes reads back. *)
Lemma models_decoded_encoded (k1 : t) (v : option (list string)) :
  ModelsJSON k1 = models_encoded v → ∃ models, models_decoded k1 = Ok models.
Proof. apply models_read, lawful_models. Qed.

Lemma deployments_round_trip (m : gmap string string) :
  deployments_decoded (Some (text (json_Marshal (Some m)))) = Ok (Some m).
Proof. apply deployments_read, lawful_deployments. Qed.

Lemma azure_decoded_encoded (v : option schemas.AzureKeyConfig.t) :
  azure_keyed v = true → azure_decoded (azure_encoded v) = Ok (normalize azure_empty v).
Proof. apply azure_read. destruct v as [c|]; [apply lawful_deployments|done]. Qed.

Lemma bedrock_decoded_encoded (v : option schemas.BedrockKeyConfig.t) :
  bedrock_decoded (bedrock_encoded v) = Ok (normalize bedrock_empty v).
Proof. apply bedrock_read. destruct v as [c|]; [apply lawful_deployments|done]. Qed.

End lawful.

(** *** What [AfterFind] reconstructs *)

Lemma vertex_test_true (a b c : option string) :
  bool_decide (is_Some a) || bool_decide (is_Some b) || bool_decide (is_Some c) = true
  ↔ is_Some a ∨ is_Some b ∨ is_Some c.
Proof. rewrite !orb_true_iff, !bool_decide_eq_true. tauto. Qed.

Lemma bedrock_test_true (a b c d e f : option string) :
  bool_decide (is_Some a) || bool_decide (is_Some b) || bool_decide (is_Some c)
  || bool_decide (is_Some d) || bool_decide (is_Some e) || present_nonempty f = true
  ↔ is_Some a ∨ is_Some b ∨ is_Some c ∨ is_Some d ∨ is_Some e
    ∨ ∃ s, f = Some s ∧ s ≠ "".
Proof.
  rewrite !orb_true_iff, !bool_decide_eq_true, present_nonempty_true. tauto.
Qed.

Lemma azure_decoded_is_Some (cols : option string * option string * option string)
    (v : option schemas.AzureKeyConfig.t) :
  azure_decoded cols = Ok v → (is_Some v ↔ is_Some cols.1.1).
Proof.
  destruct cols as [[[e|] ver] dep]; simpl.
  - destruct (deployments_decoded dep); intros [= <-]. split; eauto.
  - intros [= <-]. done.
Qed.

Lemma vertex_decoded_is_Some (cols : option string * option string * option string) :
  is_Some (vertex_decoded cols) ↔ is_Some cols.1.1 ∨ is_Some cols.1.2 ∨ is_Some cols.2.
Proof.
  destruct cols as [[a b] c]. unfold vertex_decoded. rewrite <- vertex_test_true. simpl.
  destruct (_ || _); split; intros Hv; eauto; try done; by destruct Hv.
Qed.

Lemma bedrock_decoded_is_Some
    (a b c d e f : option string) (v : option schemas.BedrockKeyConfig.t) :
  bedrock_decoded (a, b, c, d, e, f) = Ok v →
  (is_Some v ↔ is_Some a ∨ is_Some b ∨ is_Some c ∨ is_Some d ∨ is_Some e
               ∨ ∃ s, f = Some s ∧ s ≠ "").
Proof.
  unfold bedrock_decoded. rewrite <- bedrock_test_true.
  destruct (_ || _).
  - destruct (deployments_decoded f); intros [= <-]. split; eauto.
  - intros [= <-]. split; [by intros [? ?]|done].
Qed.

Lemma apertus_decoded_is_Some (col : option string) :
  is_Some (apertus_decoded col) ↔ is_Some col.
Proof. destruct col; simpl; split; eauto; by intros [? ?]. Qed.

(** C8 (as amended).  On a row scanned from the store, when [AfterFind]
    succeeds it has reconstructed the Azure override if and only if the Azure
    endpoint column is non-null, the Vertex override if and only if one of the
    three Vertex columns is non-null, the Bedrock override if and only if one
    of its five scalar columns is non-null or its deployments column is
    non-null and not the empty text, and the Apertus override if and only if
    the Apertus endpoint column is non-null.  A models column, or the
    deployments column of a group that is being reconstructed, that does not
    deserialize makes [AfterFind] return an error, and neither the override of
    that group nor the override of a later group is reconstructed. *)
Theorem AfterFind_reconstruction (k k' : t) (r : result unit) :
  AfterFind (scan k) = (k', r) →
  (r = Ok tt →
     (is_Some (AzureKeyConfig k') ↔ is_Some (AzureEndpoint k))
     ∧ (is_Some (VertexKeyConfig k') ↔
          is_Some (VertexProjectID k) ∨ is_Some (VertexRegion k)
          ∨ is_Some (VertexAuthCredentials k))
     ∧ (is_Some (BedrockKeyConfig k') ↔
          is_Some (BedrockAccessKey k) ∨ is_Some (BedrockSecretKey k)
          ∨ is_Some (BedrockSessionToken k) ∨ is_Some (BedrockRegion k)
          ∨ is_Some (BedrockARN k)
          ∨ ∃ s, BedrockDeploymentsJSON k = Some s ∧ s ≠ "")
     ∧ (is_Some (ApertusKeyConfig k') ↔ is_Some (ApertusEndpoint k)))
  ∧ (∀ e, nonempty (ModelsJSON k) = true →
          json_Unmarshal (ModelsJSON k) (None : option (list string)) = Err e →
          r = Err e ∧ overrides k' = no_overrides)
  ∧ (∀ s e, is_Some (AzureEndpoint k) → AzureDeploymentsJSON k = Some s →
            json_Unmarshal s (None : option (gmap string string)) = Err e →
            (∃ e', r = Err e') ∧ overrides k' = no_overrides)
  ∧ (∀ s e, (is_Some (BedrockAccessKey k) ∨ is_Some (BedrockSecretKey k)
             ∨ is_Some (BedrockSessionToken k) ∨ is_Some (BedrockRegion k)
             ∨ is_Some (BedrockARN k) ∨ s ≠ "") →
            BedrockDeploymentsJSON k = Some s →
            json_Unmarshal s (None : option (gmap string string)) = Err e →
            (∃ e', r = Err e') ∧ BedrockKeyConfig k' = None ∧ ApertusKeyConfig k' = None).
Proof.
  intros Hfind. apply AfterFind_scan in Hfind.
  repeat apply conj.
  - intros ->.
    destruct (models_decoded k); [|by destruct Hfind].
    destruct (azure_decoded (azure_columns k)) as [azure|] eqn:Hazure; [|by destruct Hfind].
    destruct Hfind as (-> & -> & Hfind).
    destruct (bedrock_decoded (bedrock_columns k)) as [bedrock|] eqn:Hbedrock;
      [|by destruct Hfind].
    destruct Hfind as (_ & -> & ->).
    split; [apply (azure_decoded_is_Some _ _ Hazure)|].
    split; [apply vertex_decoded_is_Some|].
    split; [apply (bedrock_decoded_is_Some _ _ _ _ _ _ _ Hbedrock)|].
    apply apertus_decoded_is_Some.
  - intros e Hnonempty Hmodels. unfold models_decoded in Hfind.
    by rewrite Hnonempty, Hmodels in Hfind.
  - intros s e [endpoint Hendpoint] Hcolumn Herr.
    destruct (models_decoded k); [|destruct Hfind; eauto].
    unfold azure_decoded, azure_columns, deployments_decoded in Hfind.
    rewrite Hendpoint, Hcolumn, Herr in Hfind. destruct Hfind; eauto.
  - intros s e Hpresent Hcolumn Herr.
    destruct (models_decoded k); [|destruct Hfind as [? [= _ _ -> ->]]; eauto].
    destruct (azure_decoded (azure_columns k)); [|destruct Hfind as [? [= _ _ -> ->]]; eauto].
    destruct Hfind as (_ & _ & Hfind).
    unfold bedrock_decoded, bedrock_columns, deployments_decoded in Hfind.
    rewrite Hcolumn, Herr in Hfind.
    assert (bool_decide (is_Some (BedrockAccessKey k))
            || bool_decide (is_Some (BedrockSecretKey k))
            || bool_decide (is_Some (BedrockSessionToken k))
            || bool_decide (is_Some (BedrockRegion k))
            || bool_decide (is_Some (BedrockARN k)) || present_nonempty (Some s) = true)
      as Htest.
    { apply bedrock_test_true. destruct Hpresent as [?|[?|[?|[?|[?|?]]]]]; eauto 10. }
    rewrite Htest in Hfind. destruct Hfind as (-> & -> & ->). eauto.
Qed.

End facts.

(** *** On the sample rows *)

Lemma override_round_trip_witness :
  libraries_read_back samples.full_mapped_key
  ∧ ∃ k1 k2,
      BeforeSave samples.full_mapped_key = (k1, Ok tt) ∧ AfterFind (scan k1) = (k2, Ok tt)
      ∧ AzureKeyConfig k2 = AzureKeyConfig samples.full_mapped_key
      ∧ BedrockKeyConfig k2 = BedrockKeyConfig samples.full_mapped_key
      ∧ ApertusKeyConfig k2
        = Some (schemas.ApertusKeyConfig.mk "https://custom.example.com" None).
Proof.
  assert (libraries_read_back samples.full_mapped_key) as Hread.
  { vm_compute. repeat split. }
  split; [exact Hread|].
  destruct (override_round_trip samples.full_mapped_key Hread eq_refl)
    as ((k1 & k2 & Hsave & Hfind & Hsame) & _).
  exists k1, k2. split; [exact Hsave|]. split; [exact Hfind|].
  injection Hsame as Ha _ Hb Hp. split; [exact Ha|]. split; [exact Hb|exact Hp].
Defined.

(** C1 (as stated) fails, in two ways.  An Azure override without endpoint but
    with an API version is saved and read back, both with success, as no
    override at all, although one of its fields is not empty.  And the model
    name mappings of an Apertus override have no column: an override with an
    endpoint and a mapping is saved and read back, both with success, with its
    endpoint and no mapping. *)
Lemma round_trip_loses_version_and_mappings :
  (¬ round_trip samples.azure_version_key
   ∧ ∃ k1 k2, BeforeSave samples.azure_version_key = (k1, Ok tt)
              ∧ AfterFind (scan k1) = (k2, Ok tt)
              ∧ AzureAPIVersion k1 = Some "2024-02-01"
              ∧ AzureKeyConfig k2 = None
              ∧ normalize azure_empty (AzureKeyConfig samples.azure_version_key)
                = Some samples.azure_version_only)
  ∧ (¬ round_trip samples.mapped_key
     ∧ ∃ k1 k2, BeforeSave samples.mapped_key = (k1, Ok tt)
                ∧ AfterFind (scan k1) = (k2, Ok tt)
                ∧ ApertusEndpoint k1 = Some "https://custom.example.com"
                ∧ ApertusKeyConfig k2
                  = Some (schemas.ApertusKeyConfig.mk "https://custom.example.com" None)
                ∧ normalize apertus_empty (ApertusKeyConfig samples.mapped_key)
                  = Some samples.mapped_override
                ∧ schemas.ApertusKeyConfig.ModelNameMappings samples.mapped_override
                  = Some {[ "gpt-4o" := "prod-deploy-1" ]}).
Proof.
  split; split.
  - intros (k1 & k2 & Hsave & Hfind & Hsame).
    vm_compute in Hsave. injection Hsave as <-.
    vm_compute in Hfind. injection Hfind as <-.
    vm_compute in Hsame. discriminate Hsame.
  - do 2 eexists. split; [vm_compute; reflexivity|]. split; [vm_compute; reflexivity|].
    repeat split; vm_compute; reflexivity.
  - intros (k1 & k2 & Hsave & Hfind & Hsame).
    vm_compute in Hsave. injection Hsave as <-.
    vm_compute in Hfind. injection Hfind as <-.
    injection Hsame as Hsame. vm_compute in Hsame. discriminate Hsame.
  - do 2 eexists. split; [vm_compute; reflexivity|]. split; [vm_compute; reflexivity|].
    repeat split; vm_compute; reflexivity.
Qed.

Lemma AfterFind_reconstruction_witness :
  (AfterFind (scan samples.malformed_row)).2 = Err refjson.syntax_error
  ∧ overrides (AfterFind (scan samples.malformed_row)).1 = no_overrides.
Proof.
  split; [vm_compute; reflexivity|].
  refine (proj2 (proj1 (proj2 (proj2
            (AfterFind_reconstruction samples.malformed_row
               (AfterFind (scan samples.malformed_row)).1
               (AfterFind (scan samples.malformed_row)).2 _)))
            "{oops" refjson.syntax_error _ _ _));
    [vm_compute; reflexivity | by eexists | reflexivity | vm_compute; reflexivity].
Defined.

(** C8 (as stated) fails: in a row where, of the Azure columns, only the API
    version is set, [AfterFind] succeeds, a column of the group is non-null and
    no Azure override is reconstructed. *)
Lemma azure_version_row_not_reconstructed :
  ¬ reconstructs_when_a_column_is_set samples.azure_version_row
  ∧ (AfterFind (scan samples.azure_version_row)).2 = Ok tt
  ∧ AzureAPIVersion samples.azure_version_row = Some "2024-02-01"
  ∧ AzureKeyConfig (AfterFind (scan samples.azure_version_row)).1 = None.
Proof.
  split; [|repeat split; vm_compute; reflexivity].
  intros Hclaim.
  destruct (Hclaim (AfterFind (scan samples.azure_version_row)).1) as [Hazure _];
    [vm_compute; reflexivity|].
  destruct Hazure as [_ Hazure]. destruct Hazure as [v Hv]; [right; left; by eexists|].
  vm_compute in Hv. discriminate Hv.
Qed.

End TableKey_facts.

(** ** The codec of [config_providers] *)

Module TableProvider_facts.
Import tables.TableProvider.

Ltac unfold_hooks :=
  unfold BeforeSave, save_NetworkConfig, save_ConcurrencyAndBufferSize, save_ProxyConfig,
    check_CustomProviderConfig, save_CustomProviderConfig,
    AfterFind, find_NetworkConfig, find_ConcurrencyAndBufferSize, find_ProxyConfig,
    find_CustomProviderConfig in *;
  unfold mbind, hook_bind, mret, hook_ret, receiver, try, assign in *.

Section facts.
Context {NetworkConfigT ConcurrencyAndBufferSizeT ProxyConfigT CustomProviderConfigT : Type}.
Context `{GoZero NetworkConfigT, GoZero ConcurrencyAndBufferSizeT,
          GoZero ProxyConfigT, GoZero CustomProviderConfigT}.
Context `{JSON NetworkConfigT, JSON ConcurrencyAndBufferSizeT,
          JSON ProxyConfigT, JSON CustomProviderConfigT}.
Context (BaseProviderType : CustomProviderConfigT → string).

Abbreviation row := (t NetworkConfigT ConcurrencyAndBufferSizeT ProxyConfigT CustomProviderConfigT).

(** A virtual field that is nil when the row is saved leaves its column as it
    was, whether or not [BeforeSave] succeeds. *)
Lemma BeforeSave_keeps_column (p p1 : row) (r : result unit) :
  BeforeSave BaseProviderType p = (p1, r) →
  (NetworkConfig p = None → NetworkConfigJSON p1 = NetworkConfigJSON p)
  ∧ (ConcurrencyAndBufferSize p = None → ConcurrencyBufferJSON p1 = ConcurrencyBufferJSON p)
  ∧ (ProxyConfig p = None → ProxyConfigJSON p1 = ProxyConfigJSON p)
  ∧ (CustomProviderConfig p = None → CustomProviderConfigJSON p1 = CustomProviderConfigJSON p).
Proof.
  intros Hsave. unfold_hooks. run_hook Hsave.
  all: injection Hsave as <- <-; simpl.
  all: repeat split; congruence.
Qed.

(** A column that is not empty is read back into its virtual field. *)
Lemma AfterFind_reads_column (p p2 : row) :
  AfterFind (scan p) = (p2, Ok tt) →
  (nonempty (NetworkConfigJSON p) = true →
     ∃ c, json_Unmarshal (NetworkConfigJSON p) go_zero = Ok c ∧ NetworkConfig p2 = Some c)
  ∧ (nonempty (ConcurrencyBufferJSON p) = true →
       ∃ c, json_Unmarshal (ConcurrencyBufferJSON p) go_zero = Ok c
            ∧ ConcurrencyAndBufferSize p2 = Some c)
  ∧ (nonempty (ProxyConfigJSON p) = true →
       ∃ c, json_Unmarshal (ProxyConfigJSON p) go_zero = Ok c ∧ ProxyConfig p2 = Some c)
  ∧ (nonempty (CustomProviderConfigJSON p) = true →
       ∃ c, json_Unmarshal (CustomProviderConfigJSON p) go_zero = Ok c
            ∧ CustomProviderConfig p2 = Some c).
Proof.
  intros Hfind. unfold_hooks. run_hook Hfind.
  all: try discriminate Hfind.
  all: injection Hfind as <-; simpl.
  all: repeat split; intros; try congruence; eauto.
Qed.

Context `{JSON (option (list string)), JSON (option (gmap string string))}.

(** C10.  In the codec of the provider table, a virtual configuration field
    (network configuration, concurrency and buffer size, proxy configuration,
    custom provider configuration) that is nil when the row is saved leaves its
    JSON column as it was; so after a successful save and the next read, a
    column that was not empty is back in the virtual field that had been
    cleared.  In the codec of the key table a successful save with an absent
    override sets every column of its group to null. *)
Theorem nil_field_keeps_stored_column :
  (∀ (p p1 : row) (r : result unit),
     BeforeSave BaseProviderType p = (p1, r) →
     (NetworkConfig p = None → NetworkConfigJSON p1 = NetworkConfigJSON p)
     ∧ (ConcurrencyAndBufferSize p = None →
          ConcurrencyBufferJSON p1 = ConcurrencyBufferJSON p)
     ∧ (ProxyConfig p = None → ProxyConfigJSON p1 = ProxyConfigJSON p)
     ∧ (CustomProviderConfig p = None →
          CustomProviderConfigJSON p1 = CustomProviderConfigJSON p))
  ∧ (∀ p p1 p2 : row,
       BeforeSave BaseProviderType p = (p1, Ok tt) →
       AfterFind (scan p1) = (p2, Ok tt) →
       (NetworkConfig p = None → nonempty (NetworkConfigJSON p) = true →
          ∃ c, json_Unmarshal (NetworkConfigJSON p) go_zero = Ok c
               ∧ NetworkConfig p2 = Some c)
       ∧ (ConcurrencyAndBufferSize p = None → nonempty (ConcurrencyBufferJSON p) = true →
            ∃ c, json_Unmarshal (ConcurrencyBufferJSON p) go_zero = Ok c
                 ∧ ConcurrencyAndBufferSize p2 = Some c)
       ∧ (ProxyConfig p = None → nonempty (ProxyConfigJSON p) = true →
            ∃ c, json_Unmarshal (ProxyConfigJSON p) go_zero = Ok c ∧ ProxyConfig p2 = Some c)
       ∧ (CustomProviderConfig p = None → nonempty (CustomProviderConfigJSON p) = true →
            ∃ c, json_Unmarshal (CustomProviderConfigJSON p) go_zero = Ok c
                 ∧ CustomProviderConfig p2 = Some c))
  ∧ (∀ k k1 : tables.TableKey.t,
       tables.TableKey.BeforeSave k = (k1, Ok tt) →
       (tables.TableKey.AzureKeyConfig k = None →
          tables.TableKey.azure_columns k1 = (None, None, None))
       ∧ (tables.TableKey.VertexKeyConfig k = None →
            tables.TableKey.vertex_columns k1 = (None, None, None))
       ∧ (tables.TableKey.BedrockKeyConfig k = None →
            tables.TableKey.bedrock_columns k1 = (None, None, None, None, None, None))
       ∧ (tables.TableKey.ApertusKeyConfig k = None →
            tables.TableKey.ApertusEndpoint k1 = None)).
Proof.
  repeat apply conj.
  - apply BeforeSave_keeps_column.
  - intros p p1 p2 Hsave Hfind.
    destruct (BeforeSave_keeps_column _ _ _ Hsave) as (Hn & Hc & Hp & Hx).
    destruct (AfterFind_reads_column _ _ Hfind) as (Hn' & Hc' & Hp' & Hx').
    repeat split; intros Hnil Hnonempty.
    + rewrite <- (Hn Hnil) in *. auto.
    + rewrite <- (Hc Hnil) in *. auto.
    + rewrite <- (Hp Hnil) in *. auto.
    + rewrite <- (Hx Hnil) in *. auto.
  - intros k k1 Hsave.
    destruct (TableKey_facts.BeforeSave_Ok _ _ Hsave) as (_ & Ha & Hv & Hb & Hp & _).
    rewrite Ha, Hv, Hb, Hp. by repeat split; intros ->.
Qed.

End facts.

Lemma nil_field_keeps_stored_column_witness :
  let p := samples.cleared_provider in
  let p1 := (BeforeSave samples.base_provider_type p).1 in
  let p2 := (AfterFind (scan p1)).1 in
  NetworkConfig p = None
  ∧ NetworkConfigJSON p1 = NetworkConfigJSON p
  ∧ ∃ c, json_Unmarshal (NetworkConfigJSON p) go_zero = Ok c ∧ NetworkConfig p2 = Some c.
Proof.
  intros p p1 p2. split; [reflexivity|]. split.
  - refine (proj1 (proj1 (nil_field_keeps_stored_column samples.base_provider_type)
                     p p1 (Ok tt) _) _); [vm_compute; reflexivity | reflexivity].
  - refine (proj1 (proj1 (proj2 (nil_field_keeps_stored_column samples.base_provider_type))
                     p p1 p2 _ _) _ _);
      [vm_compute; reflexivity | vm_compute; reflexivity | reflexivity
      | vm_compute; reflexivity].
Defined.

End TableProvider_facts.

(** ** Trimming trailing slashes *)

Lemma TrimRight_slash_empty (s : string) :
  TrimRight_slash s = "" ↔ only_slashes s = true.
Proof.
  induction s as [|c s IH]; simpl; [done|].
  destruct (TrimRight_slash s) eqn:Htrim.
  - destruct (Ascii.eqb c slash); simpl; [tauto|]. split; [done|]. intros [=].
  - split; [done|]. rewrite andb_true_iff. intros [_ Hs]. apply IH in Hs. done.
Qed.

(** [TrimRight_slash s] is [s] without a tail of slashes ... *)
Lemma TrimRight_slash_tail (s : string) :
  ∃ slashes, s = TrimRight_slash s +:+ slashes ∧ only_slashes slashes = true.
Proof.
  induction s as [|c s (slashes & Hs & Hslashes)]; simpl.
  - by exists "".
  - destruct (TrimRight_slash s) eqn:Htrim.
    + destruct (Ascii.eqb c slash) eqn:Hc.
      * exists (String c s). split; [done|]. simpl. rewrite Hc. simpl.
        by apply TrimRight_slash_empty.
      * exists slashes. split; [|done]. simpl in Hs. by rewrite Hs at 1.
    + exists slashes. split; [|done]. by rewrite Hs at 1.
Qed.

(** ... and it does not end with a slash. *)
Lemma TrimRight_slash_trimmed (s : string) : ends_with_slash (TrimRight_slash s) = false.
Proof.
  induction s as [|c s IH]; simpl; [done|].
  destruct (TrimRight_slash s) eqn:Htrim.
  - destruct (Ascii.eqb c slash) eqn:Hc; simpl; [done|]. by rewrite Hc.
  - done.
Qed.

Lemma TrimRight_slash_nonempty (s : string) :
  only_slashes s = false → TrimRight_slash s ≠ "".
Proof. intros Hs Htrim. apply TrimRight_slash_empty in Htrim. congruence. Qed.

(** ** The Apertus provider *)

Module apertus_facts.
Import schemas apertus.

Section facts.
Context {ContextT CustomProviderConfigT PostHookRunnerT : Type}.
Context (CheckAndSetDefaults :
           ProviderConfig.t CustomProviderConfigT → ProviderConfig.t CustomProviderConfigT).
Context (CheckOperationAllowed :
           ModelProvider → option CustomProviderConfigT → RequestType → option BifrostError.t).
Context (GetProviderName : ModelProvider → option CustomProviderConfigT → ModelProvider).
Context (GetRequestPath :
           ContextT → string → option CustomProviderConfigT → RequestType → string).
Context (ShouldSendBackRawResponse : ContextT → bool → bool).
Context (HandleOpenAIRequest : @HandlerCall ContextT → Reply).
Context (HandleOpenAIStreaming : @HandlerCall ContextT → PostHookRunnerT → StreamReply).
Context (OpenAIProvider : @DelegateCall ContextT CustomProviderConfigT → Reply).
Context (OpenAIProviderStream :
           @DelegateCall ContextT CustomProviderConfigT → PostHookRunnerT → StreamReply).

Abbreviation Provider := (@ApertusProvider CustomProviderConfigT).

Abbreviation run := (invoke CheckOperationAllowed GetProviderName GetRequestPath
                 ShouldSendBackRawResponse HandleOpenAIRequest HandleOpenAIStreaming
                 OpenAIProvider OpenAIProviderStream).

(** *** The resolver *)

(** C4.  For every key: if its override is absent or the endpoint of its
    override is empty, the effective base URL is the provider default; if the
    endpoint is not empty, the effective base URL is that endpoint with its
    trailing slashes stripped (what is left of it does not end with a slash and
    what was taken off are slashes), whatever the provider default. *)
Theorem getBaseURL_resolves (provider : Provider) (key : Key.t) :
  (Key.ApertusKeyConfig key = None →
     getBaseURL provider key = NetworkConfig.BaseURL (networkConfig provider))
  ∧ (∀ c, Key.ApertusKeyConfig key = Some c → ApertusKeyConfig.Endpoint c = "" →
          getBaseURL provider key = NetworkConfig.BaseURL (networkConfig provider))
  ∧ (∀ c, Key.ApertusKeyConfig key = Some c → ApertusKeyConfig.Endpoint c ≠ "" →
          getBaseURL provider key = TrimRight_slash (ApertusKeyConfig.Endpoint c)
          ∧ ends_with_slash (getBaseURL provider key) = false
          ∧ (∃ slashes, ApertusKeyConfig.Endpoint c = getBaseURL provider key +:+ slashes
                        ∧ only_slashes slashes = true)
          ∧ ∀ provider' : Provider, getBaseURL provider' key = getBaseURL provider key).
Proof.
  unfold getBaseURL. repeat apply conj.
  - by intros ->.
  - intros c -> ->. done.
  - intros c -> Hc. apply nonempty_true in Hc. rewrite Hc.
    split; [done|]. split; [apply TrimRight_slash_trimmed|].
    split; [apply TrimRight_slash_tail|done].
Qed.

(** C5 (as amended).  The provider default is normalized once, when the
    provider is built: it is the configured default, or the hardcoded fallback
    when the configured default is empty, without its trailing slashes.  The
    effective base URL of a key is not empty provided that neither the
    configured default nor the endpoint of the key, when they are not empty,
    consist of slashes only. *)
Theorem getBaseURL_nonempty (config : ProviderConfig.t CustomProviderConfigT) (key : Key.t) :
  let configured :=
    NetworkConfig.BaseURL (ProviderConfig.NetworkConfig (CheckAndSetDefaults config)) in
  let provider := NewApertusProvider CheckAndSetDefaults config in
  NetworkConfig.BaseURL (networkConfig provider)
  = TrimRight_slash (if nonempty configured then configured else "https://api.openai.com")
  ∧ (configured = "" →
       NetworkConfig.BaseURL (networkConfig provider) = "https://api.openai.com")
  ∧ ((configured = "" ∨ only_slashes configured = false) →
     (∀ c, Key.ApertusKeyConfig key = Some c →
           ApertusKeyConfig.Endpoint c = "" ∨ only_slashes (ApertusKeyConfig.Endpoint c) = false) →
     getBaseURL provider key ≠ "").
Proof.
  intros configured provider.
  assert (NetworkConfig.BaseURL (networkConfig provider)
          = TrimRight_slash (if nonempty configured then configured
                             else "https://api.openai.com")) as Hdefault.
  { unfold provider, NewApertusProvider. fold configured. by destruct (nonempty configured). }
  split; [done|]. split.
  - intros Hempty. rewrite Hdefault, Hempty. reflexivity.
  - intros Hconfigured Hendpoint.
    assert (NetworkConfig.BaseURL (networkConfig provider) ≠ "") as Hnonempty.
    { rewrite Hdefault. destruct (nonempty configured) eqn:Hc.
      - apply TrimRight_slash_nonempty. destruct Hconfigured as [->|]; done.
      - done. }
    unfold getBaseURL. destruct (Key.ApertusKeyConfig key) as [c|]; [|done].
    destruct (nonempty (ApertusKeyConfig.Endpoint c)) eqn:Hc; [|done].
    apply TrimRight_slash_nonempty. destruct (Hendpoint c eq_refl) as [He|]; [|done].
    by rewrite He in Hc.
Qed.

(** *** The dispatcher *)

Ltac unfold_entry :=
  unfold invoke, ListModels, TextCompletion, TextCompletionStream, ChatCompletion,
    ChatCompletionStream, Responses, ResponsesStream, Embedding, Speech, SpeechStream,
    Transcription, TranscriptionStream, dispatch, dispatchStream, delegated, delegatedStream,
    checkOperationAllowed, handle, handleStreaming, delegate, delegateStream;
  unfold mbind, io_bind, mret, io_ret.

(** C7.  Every entry point calls the policy gate first, with the provider and
    its own request type; when the gate rejects, the entry point makes no other
    call and returns the error of the gate, unchanged, with no value. *)
Theorem gate_comes_first (provider : Provider) (operation : RequestType) (ctx : ContextT)
    (postHookRunner : PostHookRunnerT) (keys : list Key.t) (key : Key.t)
    (request : BifrostRequest.t) :
  let gate := CallCheckOperationAllowed Apertus (customProviderConfig provider) operation in
  let result := run provider operation ctx postHookRunner keys key request in
  (∃ calls, result.1 = gate :: calls)
  ∧ (∀ err, CheckOperationAllowed Apertus (customProviderConfig provider) operation = Some err →
            result.1 = [gate] ∧ outcome_error result.2 = Some err
            ∧ outcome_empty result.2 = true).
Proof.
  split.
  - destruct operation; unfold_entry; simpl; eauto.
  - intros err Hgate. destruct operation; unfold_entry; simpl; by rewrite Hgate.
Qed.

(** C6 (as amended).  When the gate lets the request through: a text
    completion, a chat completion, a responses request (blocking or streaming)
    or an embedding is handed to its shared handler, once, with a URL that is
    the effective base URL of the key followed by the path that
    [GetRequestPath] yields from the fixed path of the request type and the
    configuration of the provider; a speech or a transcription request
    (blocking or streaming) is handed, once, to a temporary OpenAI provider
    whose base URL is the effective base URL of the key and which is given no
    custom provider configuration, hence none of the path overrides.  For a key
    with endpoint [https://custom.example.com/] and no path override in force,
    a chat completion goes to [https://custom.example.com/v1/chat/completions]. *)
Theorem request_target (provider : Provider) (operation : RequestType) (ctx : ContextT)
    (postHookRunner : PostHookRunnerT) (keys : list Key.t) (key : Key.t)
    (request : BifrostRequest.t) :
  let gate := CallCheckOperationAllowed Apertus (customProviderConfig provider) operation in
  let result := run provider operation ctx postHookRunner keys key request in
  CheckOperationAllowed Apertus (customProviderConfig provider) operation = None →
  (handled operation = true →
     ∃ c, result.1 = [gate; CallHandler c]
          ∧ url c = getBaseURL provider key
                    +:+ GetRequestPath ctx (suffix operation) (customProviderConfig provider)
                          operation
          ∧ (operation = ChatCompletionRequest →
             (∃ o, Key.ApertusKeyConfig key = Some o
                   ∧ ApertusKeyConfig.Endpoint o = "https://custom.example.com/") →
             GetRequestPath ctx "/v1/chat/completions" (customProviderConfig provider)
               ChatCompletionRequest = "/v1/chat/completions" →
             url c = "https://custom.example.com/v1/chat/completions"))
  ∧ (delegated_operation operation = true →
       ∃ c, result.1 = [gate; CallOpenAIProvider c]
            ∧ method c = operation
            ∧ NetworkConfig.BaseURL (ProviderConfig.NetworkConfig (tempConfig c))
              = getBaseURL provider key
            ∧ ProviderConfig.CustomProviderConfig (tempConfig c) = None).
Proof.
  intros gate result Hgate. subst gate result. split; intros Hkind.
  - destruct operation; try discriminate Hkind; unfold_entry; simpl; rewrite Hgate; simpl;
      (eexists; split; [reflexivity|]; split; [reflexivity|]);
      try (intros Heq; discriminate Heq).
    intros _ (o & Ho & Hendpoint) Hpath. unfold buildRequestURL, getBaseURL. simpl.
    rewrite Ho, Hendpoint, Hpath. reflexivity.
  - destruct operation; try discriminate Hkind; unfold_entry; simpl; rewrite Hgate; simpl;
      try (destruct (OpenAIProvider _) as [[?|] [?|]]; simpl);
      eexists; (split; [reflexivity|]); done.
Qed.

(** A request reaches its shared handler as it was received: its model field
    is not rewritten. *)
Lemma request_handed_on (provider : Provider) (operation : RequestType) (ctx : ContextT)
    (postHookRunner : PostHookRunnerT) (keys : list Key.t) (key : Key.t)
    (request : BifrostRequest.t) (c : HandlerCall) :
  CallHandler c ∈ (run provider operation ctx postHookRunner keys key request).1 →
  apertus.request c = request.
Proof.
  destruct operation; unfold_entry; simpl;
    destruct (CheckOperationAllowed _ _ _); simpl;
    try (destruct (OpenAIProvider _) as [[?|] [?|]]; simpl);
    rewrite ?elem_of_cons, ?elem_of_nil; intros Hc; destruct_or?; try done;
    by simplify_eq.
Qed.

(** C2 (as amended).  For every key and every request, whatever model name
    mappings the override of the key carries: when the gate lets the request
    through, an entry point other than the listing makes one call after the
    gate, to its shared handler or to the temporary OpenAI provider, and that
    call carries the request as it was received, hence with the requested
    model name in its model field. *)
Theorem requested_model_is_dispatched (provider : Provider) (operation : RequestType)
    (ctx : ContextT) (postHookRunner : PostHookRunnerT) (keys : list Key.t) (key : Key.t)
    (request : BifrostRequest.t) :
  operation ≠ ListModelsRequest →
  CheckOperationAllowed Apertus (customProviderConfig provider) operation = None →
  carried_request <$> (run provider operation ctx postHookRunner keys key request).1
  = [None; Some request].
Proof.
  intros Hrequest Hgate.
  destruct operation; try done; unfold_entry; simpl; rewrite Hgate; simpl;
    try (destruct (OpenAIProvider _) as [[?|] [?|]]; simpl); reflexivity.
Qed.

(** *** Identity of delegated calls *)

(** The blocking entry points that go through a temporary OpenAI provider
    report the identity of this provider, in the response and in the error. *)
Lemma delegated_reports_provider (provider : Provider) (operation : RequestType)
    (ctx : ContextT) (key : Key.t) (request : BifrostRequest.t) :
  CheckOperationAllowed Apertus (customProviderConfig provider) operation = None →
  ∀ name,
    name ∈ reported_providers
             (Replied (delegated CheckOperationAllowed GetProviderName OpenAIProvider
                         provider operation ctx key request).2) →
    name = GetProviderKey GetProviderName provider.
Proof.
  intros Hgate name. unfold delegated. unfold_entry. simpl. rewrite Hgate. simpl.
  destruct (OpenAIProvider _) as [[response|] [err|]]; simpl;
    rewrite ?elem_of_cons, ?elem_of_nil; intros Hname; destruct_or?; done.
Qed.

(** The streaming ones return what the temporary OpenAI provider returned. *)
Lemma delegatedStream_returns_delegate_reply (provider : Provider) (operation : RequestType)
    (ctx : ContextT) (postHookRunner : PostHookRunnerT) (key : Key.t)
    (request : BifrostRequest.t) :
  CheckOperationAllowed Apertus (customProviderConfig provider) operation = None →
  (delegatedStream CheckOperationAllowed OpenAIProviderStream provider operation ctx
     postHookRunner key request).2
  = OpenAIProviderStream
      {| method := operation; tempConfig := temporaryConfig provider key;
         delegate_ctx := ctx; delegate_key := key; delegate_request := request |}
      postHookRunner.
Proof. intros Hgate. unfold delegatedStream. unfold_entry. simpl. by rewrite Hgate. Qed.

(** *** Listing the models *)

Lemma insert_models_lookup (models : list string) (modelSet : gmap string bool) (m : string) :
  is_Some (foldl (λ modelSet model, <[model := true]> modelSet) modelSet models !! m)
  ↔ is_Some (modelSet !! m) ∨ m ∈ models.
Proof.
  revert modelSet. induction models as [|x models IH]; intros modelSet; simpl.
  - rewrite elem_of_nil. tauto.
  - rewrite IH, lookup_insert_is_Some, elem_of_cons.
    destruct (decide (x = m)) as [->|Hne].
    + split; intros _; [right|left]; by left.
    + split.
      * intros [[?|[_ ?]]|?]; [congruence|by left|right; by right].
      * intros [?|[?|?]]; [left; right; done|congruence|by right].
Qed.

Lemma collect_models_lookup (keys : list Key.t) (modelSet : gmap string bool) (m : string) :
  is_Some (foldl (λ modelSet key, foldl (λ modelSet model, <[model := true]> modelSet)
                                    modelSet (Key.Models key)) modelSet keys !! m)
  ↔ is_Some (modelSet !! m) ∨ ∃ key, key ∈ keys ∧ m ∈ Key.Models key.
Proof.
  revert modelSet. induction keys as [|key keys IH]; intros modelSet; simpl.
  - split; [eauto|]. intros [?|(key & Hkey & _)]; [done|]. by apply elem_of_nil in Hkey.
  - rewrite IH, insert_models_lookup. split.
    + intros [[?|?]|(key' & ? & ?)]; [by left| |]; right.
      * exists key. split; [apply elem_of_cons; by left|done].
      * exists key'. split; [apply elem_of_cons; by right|done].
    + intros [?|(key' & [->|?]%elem_of_cons & ?)]; eauto.
Qed.

Lemma collectModels_elem (keys : list Key.t) (m : string) :
  m ∈ (map_to_list (collectModels keys)).*1 ↔ ∃ key, key ∈ keys ∧ m ∈ Key.Models key.
Proof.
  transitivity (is_Some (collectModels keys !! m)).
  - rewrite list_elem_of_fmap. split.
    + intros ([m' b] & -> & Hin). apply elem_of_map_to_list in Hin. by eexists.
    + intros [b Hb]. exists (m, b). split; [done|]. by apply elem_of_map_to_list.
  - unfold collectModels. rewrite collect_models_lookup, lookup_empty.
    split; [intros [[? [=]]|?]; done|eauto].
Qed.

Lemma collectModels_models (keys keys' : list Key.t) :
  Key.Models <$> keys' = Key.Models <$> keys → collectModels keys' = collectModels keys.
Proof.
  unfold collectModels. generalize (∅ : gmap string bool).
  revert keys'. induction keys as [|key keys IH]; intros [|key' keys'] modelSet; simpl;
    try done.
  intros [= -> Hkeys]. by apply IH.
Qed.

(** C9.  For every list of keys, the listing calls the gate and nothing else:
    no handler, no OpenAI provider.  When the gate lets it through, it reports
    a latency of zero and the identity of this provider; the identifiers of the
    models it lists are pairwise distinct, and they are the model names found
    in the lists of allowed models of the keys, each prefixed with the identity
    of the provider and a slash.  Nothing but the lists of allowed models of
    the keys bears on the listing: the overrides of the keys, mappings
    included, do not. *)
Theorem ListModels_lists_configured_models (provider : Provider) (ctx : ContextT)
    (keys : list Key.t) :
  let gate := CallCheckOperationAllowed Apertus (customProviderConfig provider)
                ListModelsRequest in
  let name := GetProviderKey GetProviderName provider in
  (ListModels CheckOperationAllowed GetProviderName provider ctx keys).1 = [gate]
  ∧ (CheckOperationAllowed Apertus (customProviderConfig provider) ListModelsRequest = None →
     ∃ response,
    ListModels CheckOperationAllowed GetProviderName provider ctx keys
    = ([gate], (Some response, None))
    ∧ BifrostResponseExtraFields.Latency (BifrostListModelsResponse.ExtraFields response) = 0%Z
    ∧ BifrostResponseExtraFields.Provider (BifrostListModelsResponse.ExtraFields response)
      = name
    ∧ NoDup (Model.ID <$> BifrostListModelsResponse.Data response)
    ∧ (∀ id, id ∈ Model.ID <$> BifrostListModelsResponse.Data response
             ↔ ∃ key model, key ∈ keys ∧ model ∈ Key.Models key
                            ∧ id = name +:+ "/" +:+ model)
    ∧ (∀ keys', Key.Models <$> keys' = Key.Models <$> keys →
                ListModels CheckOperationAllowed GetProviderName provider ctx keys'
                = ListModels CheckOperationAllowed GetProviderName provider ctx keys)).
Proof.
  intros gate name. split.
  { unfold ListModels. unfold_entry. simpl. by destruct (CheckOperationAllowed _ _ _). }
  intros Hgate. unfold ListModels. unfold_entry. simpl. rewrite Hgate. simpl.
  eexists. split; [reflexivity|]. simpl. split; [done|]. split; [done|].
  rewrite <- list_fmap_compose.
  assert (Inj (=) (=) (λ model : string, name +:+ "/" +:+ model)) as Hinj.
  { intros x y Hxy. by do 2 apply (inj (String.app _)) in Hxy. }
  split; [|split].
  - apply (NoDup_fmap_2 _), NoDup_fst_map_to_list.
  - intros id. rewrite list_elem_of_fmap. split.
    + intros (model & -> & (key & Hkey & Hmodel)%collectModels_elem). by exists key, model.
    + intros (key & model & Hkey & Hmodel & ->). exists model. split; [done|].
      apply collectModels_elem. by exists key.
  - intros keys' Hkeys. by rewrite (collectModels_models _ _ Hkeys).
Qed.

End facts.

(** *** On the sample requests *)

Abbreviation gate_call custom operation :=
  (CallCheckOperationAllowed (ContextT := unit) Apertus custom operation).

Lemma getBaseURL_resolves_witness :
  Key.ApertusKeyConfig samples.custom_key
  = Some (ApertusKeyConfig.mk "https://custom.example.com/" None)
  ∧ getBaseURL (samples.provider "https://api.openai.com" None) samples.custom_key
    = "https://custom.example.com".
Proof.
  split; [reflexivity|].
  refine (eq_trans
            (proj1 (proj2 (proj2 (getBaseURL_resolves
                                    (samples.provider "https://api.openai.com" None)
                                    samples.custom_key))
                      (ApertusKeyConfig.mk "https://custom.example.com/" None) _ _)) _);
    [reflexivity | discriminate | vm_compute; reflexivity].
Defined.

Lemma getBaseURL_nonempty_witness :
  getBaseURL (samples.provider "" None) samples.custom_key ≠ "".
Proof.
  refine (proj2 (proj2 (getBaseURL_nonempty providerUtils.CheckAndSetDefaults
                          (samples.config "" None) samples.custom_key)) _ _).
  - left. reflexivity.
  - intros c [= <-]. right. vm_compute. reflexivity.
Defined.

(** C5 (as stated) fails, whatever [CheckAndSetDefaults] does: for a key whose
    endpoint is a slash the effective base URL is empty. *)
Lemma base_URL_of_slash_endpoint_is_empty :
  ¬ ∃ CheckAndSetDefaults :
        ProviderConfig.t providerUtils.CustomProviderConfig
        → ProviderConfig.t providerUtils.CustomProviderConfig,
      base_URL_never_empty CheckAndSetDefaults.
Proof.
  intros [CheckAndSetDefaults Hclaim].
  apply (Hclaim (samples.config "https://api.openai.com" None) samples.slash_key).
  reflexivity.
Qed.

(** So is a provider default configured as a slash. *)
Lemma base_URL_of_slash_default_is_empty :
  getBaseURL (samples.provider "/" None) samples.plain_key = "".
Proof. vm_compute. reflexivity. Qed.

Lemma gate_comes_first_witness :
  let result :=
    samples.invoke (samples.provider "" (Some samples.chat_only)) EmbeddingRequest tt tt []
      samples.plain_key (samples.chat "text-embedding-3-small") in
  result.1 = [gate_call (Some samples.chat_only) EmbeddingRequest]
  ∧ outcome_empty result.2 = true.
Proof.
  intros result.
  destruct (proj2 (gate_comes_first providerUtils.CheckOperationAllowed
                     providerUtils.GetProviderName providerUtils.GetRequestPath
                     providerUtils.ShouldSendBackRawResponse samples.answering_handler
                     samples.answering_stream samples.refused_openai samples.streaming_openai
                     (samples.provider "" (Some samples.chat_only)) EmbeddingRequest tt tt []
                     samples.plain_key (samples.chat "text-embedding-3-small"))
              _ eq_refl) as (Hcalls & _ & Hempty).
  split; [exact Hcalls|exact Hempty].
Defined.

Lemma request_target_witness :
  ∃ c, (samples.invoke (samples.provider "https://api.openai.com" None) ChatCompletionRequest
          tt tt [] samples.custom_key (samples.chat "gpt-4")).1
       = [gate_call None ChatCompletionRequest; CallHandler c]
       ∧ url c = "https://custom.example.com/v1/chat/completions"
       ∧ BifrostRequest.Model (request c) = "gpt-4".
Proof.
  destruct (proj1 (request_target providerUtils.CheckOperationAllowed
                     providerUtils.GetProviderName providerUtils.GetRequestPath
                     providerUtils.ShouldSendBackRawResponse samples.answering_handler
                     samples.answering_stream samples.refused_openai samples.streaming_openai
                     (samples.provider "https://api.openai.com" None) ChatCompletionRequest
                     tt tt [] samples.custom_key (samples.chat "gpt-4") eq_refl) eq_refl)
    as (c & Hcalls & _ & Hscenario).
  exists c. split; [exact Hcalls|]. split.
  - apply Hscenario; [reflexivity| |reflexivity]. eexists. split; reflexivity.
  - injection Hcalls as <-. reflexivity.
Defined.

Lemma ListModels_lists_configured_models_witness :
  ∃ response,
    ListModels providerUtils.CheckOperationAllowed providerUtils.GetProviderName
      (samples.provider "" None) tt [samples.custom_key; samples.mapping_key; samples.plain_key]
    = ([gate_call None ListModelsRequest], (Some response, None))
    ∧ BifrostResponseExtraFields.Latency (BifrostListModelsResponse.ExtraFields response) = 0%Z
    ∧ "apertus/gpt-4o" ∈ Model.ID <$> BifrostListModelsResponse.Data response
    ∧ "apertus/prod-deploy-1" ∉ Model.ID <$> BifrostListModelsResponse.Data response.
Proof.
  destruct (proj2 (ListModels_lists_configured_models providerUtils.CheckOperationAllowed
                     providerUtils.GetProviderName (samples.provider "" None) tt
                     [samples.custom_key; samples.mapping_key; samples.plain_key]) eq_refl)
    as (response & Hrun & Hlatency & _ & _ & Hids & _).
  exists response. split; [exact Hrun|]. split; [exact Hlatency|]. split.
  - apply Hids. exists samples.mapping_key, "gpt-4o".
    split; [apply elem_of_cons; right; apply elem_of_cons; by left|].
    split; [apply elem_of_cons; by left|reflexivity].
  - rewrite Hids. intros (key & model & Hkey & Hmodel & Hid).
    vm_compute in Hid. injection Hid as <-.
    repeat (apply elem_of_cons in Hkey as [->|Hkey];
            [vm_compute in Hmodel;
             repeat (apply elem_of_cons in Hmodel as [Hmodel|Hmodel]; [discriminate Hmodel|]);
             by apply elem_of_nil in Hmodel|]).
    by apply elem_of_nil in Hkey.
Defined.

(** C6 (as stated) fails for the delegated request types.  A provider with a
    path override for speech requests and a provider without one hand the same
    call to the temporary OpenAI provider, so no URL derived from that call is
    the effective base URL followed by the configured path for both. *)
Lemma delegate_ignores_path_override :
  ¬ ∃ target,
      delegate_targets_configured_path providerUtils.CheckOperationAllowed
        providerUtils.GetProviderName providerUtils.GetRequestPath samples.refused_openai
        target.
Proof.
  intros [target Hclaim].
  pose proof (Hclaim (samples.provider "https://api.openai.com" None) tt samples.plain_key
                (samples.chat "tts-1") _ eq_refl
                (list_elem_of_further _ _ _ (list_elem_of_here _ _))) as Hplain.
  pose proof (Hclaim (samples.provider "https://api.openai.com" (Some samples.speech_override))
                tt samples.plain_key (samples.chat "tts-1") _ eq_refl
                (list_elem_of_further _ _ _ (list_elem_of_here _ _))) as Hoverride.
  vm_compute in Hplain, Hoverride. rewrite Hplain in Hoverride. discriminate Hoverride.
Qed.

(** C2 (as stated) fails on the second scenario of the specification: a key
    without endpoint whose mapping sends [gpt-4o] to [prod-deploy-1], a
    provider default [https://api.openai.com], a chat completion for [gpt-4o].
    The effective model name of the specification is [prod-deploy-1]; the
    request goes to [https://api.openai.com/v1/chat/completions] with the
    model [gpt-4o]. *)
Lemma mapped_model_is_not_rewritten :
  ¬ model_rewritten_before_dispatch providerUtils.CheckOperationAllowed
      providerUtils.GetProviderName providerUtils.GetRequestPath
      providerUtils.ShouldSendBackRawResponse samples.answering_handler
  ∧ getModelName samples.mapping_key "gpt-4o" = "prod-deploy-1"
  ∧ ∃ c, (samples.invoke (samples.provider "https://api.openai.com" None)
            ChatCompletionRequest tt tt [] samples.mapping_key (samples.chat "gpt-4o")).1
         = [gate_call None ChatCompletionRequest; CallHandler c]
         ∧ url c = "https://api.openai.com/v1/chat/completions"
         ∧ BifrostRequest.Model (request c) = "gpt-4o".
Proof.
  split; [|split; [vm_compute; reflexivity|]].
  - intros Hclaim.
    pose proof (Hclaim (samples.provider "https://api.openai.com" None) tt samples.mapping_key
                  (samples.chat "gpt-4o") _ eq_refl
                  (list_elem_of_further _ _ _ (list_elem_of_here _ _))) as Hmodel.
    vm_compute in Hmodel. discriminate Hmodel.
  - eexists. split; [vm_compute; reflexivity|]. split; reflexivity.
Qed.

Lemma requested_model_is_dispatched_witness :
  ApertusKeyConfig.ModelNameMappings <$> Key.ApertusKeyConfig samples.mapping_key
  = Some (Some {[ "gpt-4o" := "prod-deploy-1" ]})
  ∧ carried_request
      <$> (samples.invoke (samples.provider "https://api.openai.com" None)
             ChatCompletionRequest tt tt [] samples.mapping_key (samples.chat "gpt-4o")).1
    = [None; Some (samples.chat "gpt-4o")].
Proof.
  split; [reflexivity|].
  apply (requested_model_is_dispatched providerUtils.CheckOperationAllowed
           providerUtils.GetProviderName providerUtils.GetRequestPath
           providerUtils.ShouldSendBackRawResponse samples.answering_handler
           samples.answering_stream samples.refused_openai samples.streaming_openai
           (samples.provider "https://api.openai.com" None) ChatCompletionRequest tt tt []
           samples.mapping_key (samples.chat "gpt-4o")); [discriminate|reflexivity].
Defined.

(** C3 on a speech request: the blocking entry point reports the identity of
    this provider, the streaming entry point reports the identity of the OpenAI
    provider it went through, in the events of the stream and in the error
    when the stream cannot be opened.  The same holds of transcriptions. *)
Lemma stream_reports_delegate_identity :
  let provider := samples.provider "https://api.openai.com" None in
  let speech := samples.chat "tts-1" in
  GetProviderKey providerUtils.GetProviderName provider = "apertus"
  ∧ reported_providers
      (samples.invoke provider SpeechRequest tt tt [] samples.custom_key speech).2
    = ["apertus"]
  ∧ reported_providers
      (samples.invoke provider SpeechStreamRequest tt tt [] samples.custom_key speech).2
    = ["openai"]
  ∧ reported_providers
      (samples.invoke_refused provider SpeechStreamRequest tt tt [] samples.custom_key speech).2
    = ["openai"]
  ∧ reported_providers
      (samples.invoke provider TranscriptionStreamRequest tt tt [] samples.custom_key speech).2
    = ["openai"]
  ∧ reported_providers
      (samples.invoke_refused provider TranscriptionStreamRequest tt tt [] samples.custom_key
         speech).2
    = ["openai"].
Proof. repeat split; vm_compute; reflexivity. Qed.

(** The resolver of model names as it is documented: the mapped name when the
    key maps the requested name, the requested name otherwise. *)
Lemma getModelName_mapped (key : Key.t) (userModel : string) :
  (∀ c mappings backendModel,
     Key.ApertusKeyConfig key = Some c →
     ApertusKeyConfig.ModelNameMappings c = Some mappings →
     mappings !! userModel = Some backendModel →
     getModelName key userModel = backendModel)
  ∧ ((∀ c mappings, Key.ApertusKeyConfig key = Some c →
                    ApertusKeyConfig.ModelNameMappings c = Some mappings →
                    mappings !! userModel = None) →
     getModelName key userModel = userModel).
Proof.
  unfold getModelName. split.
  - by intros c mappings backendModel -> -> ->.
  - intros Hunmapped. destruct (Key.ApertusKeyConfig key) as [c|]; [|done].
    destruct (ApertusKeyConfig.ModelNameMappings c) as [mappings|] eqn:Hc; [|done].
    by rewrite (Hunmapped c mappings eq_refl Hc).
Qed.

End apertus_facts.

(** ** Hooks, step by step *)

Lemma hook_bind_inv {S A B : Type} (m : hook S A) (f : A → hook S B) (k k' : S)
    (r : result B) :
  (m ≫= f) k = (k', r) →
  (∃ e, m k = (k', Err e) ∧ r = Err e) ∨ (∃ k0 a, m k = (k0, Ok a) ∧ f a k0 = (k', r)).
Proof.
  unfold mbind, hook_bind. destruct (m k) as [k0 [a|e]]; [eauto|].
  intros [= <- <-]. eauto.
Qed.

Lemma hook_bind_err {S A B : Type} (m : hook S A) (f : A → hook S B) (k k' : S) (e : error) :
  m k = (k', Err e) → (m ≫= f) k = (k', Err e).
Proof. unfold mbind, hook_bind. by intros ->. Qed.

Lemma unchanged_bind {S A B C : Type} (part : S → C) (m : hook S A) (f : A → hook S B) :
  unchanged part m → (∀ a, unchanged part (f a)) → unchanged part (m ≫= f).
Proof.
  intros Hm Hf k. unfold mbind, hook_bind. specialize (Hm k).
  destruct (m k) as [k0 [a|e]]; simpl in *; [|done]. by rewrite Hf.
Qed.

Lemma unchanged_ret {S A C : Type} (part : S → C) (a : A) : unchanged part (mret a : hook S A).
Proof. done. Qed.

(** ** The codec of [config_client] *)

Module TableClientConfig_facts.
Import tables.TableClientConfig.

Ltac unfold_hooks :=
  unfold BeforeSave, save_PrometheusLabels, save_AllowedOrigins,
    AfterFind, find_PrometheusLabels, find_AllowedOrigins in *;
  unfold mbind, hook_bind, mret, hook_ret, receiver, try, assign in *.

Section facts.
Context `{JSON (option (list string))}.

(** X1.  [BeforeSave] rewrites both JSON columns from the two lists alone:
    two rows holding the same lists are saved, when the save succeeds, with the
    same two columns, whatever their columns held before; and a nil list is
    stored as the text of the empty array. *)
Theorem client_config_columns_from_lists (cc cc' cc1 : t) :
  PrometheusLabels cc' = PrometheusLabels cc →
  AllowedOrigins cc' = AllowedOrigins cc →
  BeforeSave cc = (cc1, Ok tt) →
  (∃ cc1', BeforeSave cc' = (cc1', Ok tt)
           ∧ PrometheusLabelsJSON cc1' = PrometheusLabelsJSON cc1
           ∧ AllowedOriginsJSON cc1' = AllowedOriginsJSON cc1)
  ∧ (PrometheusLabels cc = None → PrometheusLabelsJSON cc1 = "[]")
  ∧ (AllowedOrigins cc = None → AllowedOriginsJSON cc1 = "[]").
Proof.
  intros Hlabels Horigins Hsave. unfold_hooks. rewrite Hlabels. simpl in *.
  destruct (PrometheusLabels cc) as [labels|];
    [destruct (json_Marshal (Some labels)); [|discriminate Hsave]|];
    simpl in *; rewrite Horigins;
    (destruct (AllowedOrigins cc) as [origins|];
     [destruct (json_Marshal (Some origins)); [|discriminate Hsave]|]);
    simpl in *; injection Hsave as <-; simpl;
    (split; [eexists; split; [reflexivity|done]|]; split; congruence).
Qed.

(** X2.  [AfterFind] never writes a column, and it stops at the first list
    that does not deserialize.  If the labels column is not empty and does not
    deserialize, the hook returns that error and the allowed origins are left
    as they were, whatever their column holds.  If the labels are read (or
    their column is empty) and the origins column is not empty and does not
    deserialize, the hook returns that error after the labels have been
    replaced by the ones read.  On a row whose two columns are empty the hook
    succeeds and changes nothing. *)
Theorem client_config_find_stops_at_first_error (cc : t) :
  let cc' := (AfterFind cc).1 in
  let r := (AfterFind cc).2 in
  (PrometheusLabelsJSON cc' = PrometheusLabelsJSON cc
   ∧ AllowedOriginsJSON cc' = AllowedOriginsJSON cc ∧ settings cc' = settings cc)
  ∧ (∀ e, PrometheusLabelsJSON cc ≠ "" →
          json_Unmarshal (PrometheusLabelsJSON cc) (PrometheusLabels cc) = Err e →
          r = Err e ∧ AllowedOrigins cc' = AllowedOrigins cc)
  ∧ (∀ e, AllowedOriginsJSON cc ≠ "" →
          json_Unmarshal (AllowedOriginsJSON cc) (AllowedOrigins cc) = Err e →
          (PrometheusLabelsJSON cc = "" → r = Err e ∧ PrometheusLabels cc' = PrometheusLabels cc)
          ∧ (∀ labels,
               PrometheusLabelsJSON cc ≠ "" →
               json_Unmarshal (PrometheusLabelsJSON cc) (PrometheusLabels cc) = Ok labels →
               r = Err e ∧ PrometheusLabels cc' = labels))
  ∧ (PrometheusLabelsJSON cc = "" → AllowedOriginsJSON cc = "" → AfterFind cc = (cc, Ok tt)).
Proof.
  intros cc' r. subst cc' r.
  destruct (AfterFind cc) as [cc' r] eqn:Hfind. unfold_hooks. simpl.
  repeat apply conj.
  - run_hook Hfind; injection Hfind as <- <-; done.
  - run_hook Hfind; injection Hfind as <- <-; done.
  - run_hook Hfind; injection Hfind as <- <-; done.
  - intros e Hcolumn%nonempty_true Herr. rewrite Hcolumn, Herr in Hfind.
    by injection Hfind as <- <-.
  - intros e Hcolumn%nonempty_true Herr. split.
    + intros Hlabels%nonempty_false. rewrite Hlabels in Hfind. simpl in Hfind.
      rewrite Hcolumn, Herr in Hfind. by injection Hfind as <- <-.
    + intros labels Hlabels%nonempty_true Hread. rewrite Hlabels, Hread in Hfind.
      simpl in Hfind. rewrite Hcolumn, Herr in Hfind. by injection Hfind as <- <-.
  - intros Hlabels%nonempty_false Horigins%nonempty_false.
    rewrite Hlabels in Hfind. simpl in Hfind. by rewrite Horigins in Hfind.
Qed.

Section lawful.
Context `{!JSONLawful (option (list string)), !JSONEmptyArray}.

(** X3.  With JSON libraries that encode every value and read back what they
    wrote, every row is saved and read back with success.  A list that was not
    nil is read back as it was saved; a nil list is read back as the empty
    list, not as nil.  The other settings are untouched. *)
Theorem client_config_round_trip (cc : t) :
  ∃ cc1 cc2,
    BeforeSave cc = (cc1, Ok tt) ∧ AfterFind (scan cc1) = (cc2, Ok tt)
    ∧ PrometheusLabels cc2 = Some (default [] (PrometheusLabels cc))
    ∧ AllowedOrigins cc2 = Some (default [] (AllowedOrigins cc))
    ∧ settings cc2 = settings cc.
Proof.
  assert (∀ v : option (list string),
            ∃ s, (match v with Some _ => json_Marshal v | None => Ok "[]" end) = Ok s
                 ∧ nonempty s = true
                 ∧ json_Unmarshal s (None : option (list string)) = Ok (Some (default [] v)))
    as Hcolumn.
  { intros [l|].
    - destruct (json_Marshal_total (Some l)) as [s Hs]. exists s. split; [done|].
      split; [by apply nonempty_true, (json_Marshal_nonempty _ _ Hs)|].
      by apply json_Unmarshal_Marshal.
    - exists "[]". split; [done|]. split; [done|]. apply json_Unmarshal_empty_array. }
  destruct (Hcolumn (PrometheusLabels cc)) as (s1 & Hs1 & Hn1 & Hr1).
  destruct (Hcolumn (AllowedOrigins cc)) as (s2 & Hs2 & Hn2 & Hr2).
  exists (set_AllowedOriginsJSON s2 (set_PrometheusLabelsJSON s1 cc)). eexists.
  split; [|split].
  - unfold_hooks. simpl.
    destruct (PrometheusLabels cc) as [l1|]; simpl in *; simplify_eq; rewrite ?Hs1; simpl;
      destruct (AllowedOrigins cc) as [l2|]; simpl in *; simplify_eq; rewrite ?Hs2;
      reflexivity.
  - unfold_hooks. simpl. rewrite Hn1, Hr1. simpl. rewrite Hn2, Hr2. reflexivity.
  - done.
Qed.

End lawful.

End facts.

(** *** On the sample rows *)

Lemma client_config_round_trip_witness :
  ∃ cc1 cc2,
    BeforeSave cases.client = (cc1, Ok tt) ∧ AfterFind (scan cc1) = (cc2, Ok tt)
    ∧ PrometheusLabels cc2 = Some ["team"; "environment"] ∧ AllowedOrigins cc2 = Some [].
Proof.
  destruct (client_config_round_trip cases.client) as (cc1 & cc2 & Hsave & Hfind & Hl & Ho & _).
  exists cc1, cc2. split; [exact Hsave|]. split; [exact Hfind|]. split; [exact Hl|exact Ho].
Defined.

Lemma client_config_find_stops_at_first_error_witness :
  (AfterFind cases.client_malformed).2 = Err refjson.syntax_error
  ∧ AllowedOrigins (AfterFind cases.client_malformed).1 = Some ["https://app.example.com"].
Proof.
  refine (proj1 (proj2 (client_config_find_stops_at_first_error cases.client_malformed))
            refjson.syntax_error _ _); [discriminate|vm_compute; reflexivity].
Defined.

Lemma client_config_columns_from_lists_witness :
  ∃ cc1,
    BeforeSave cases.client_over_old_columns = (cc1, Ok tt)
    ∧ PrometheusLabelsJSON cc1 = PrometheusLabelsJSON (BeforeSave cases.client).1
    ∧ AllowedOriginsJSON (BeforeSave cases.client).1 = "[]".
Proof.
  destruct (client_config_columns_from_lists cases.client cases.client_over_old_columns
              (BeforeSave cases.client).1 eq_refl eq_refl)
    as ((cc1 & Hsave & Hlabels & _) & _ & Horigins); [vm_compute; reflexivity|].
  exists cc1. split; [exact Hsave|]. split; [exact Hlabels|]. apply Horigins. reflexivity.
Defined.

End TableClientConfig_facts.

(** ** More on the codec of [config_providers] *)

Module TableProvider_more.
Import tables.TableProvider.

Ltac unfold_hooks :=
  unfold BeforeSave, save_NetworkConfig, save_ConcurrencyAndBufferSize, save_ProxyConfig,
    check_CustomProviderConfig, save_CustomProviderConfig,
    AfterFind, find_NetworkConfig, find_ConcurrencyAndBufferSize, find_ProxyConfig,
    find_CustomProviderConfig in *;
  unfold mbind, hook_bind, mret, hook_ret, receiver, try, assign in *.

Section facts.
Context {NetworkConfigT ConcurrencyAndBufferSizeT ProxyConfigT CustomProviderConfigT : Type}.
Context `{GoZero NetworkConfigT, GoZero ConcurrencyAndBufferSizeT,
          GoZero ProxyConfigT, GoZero CustomProviderConfigT}.
Context `{JSON NetworkConfigT, JSON ConcurrencyAndBufferSizeT,
          JSON ProxyConfigT, JSON CustomProviderConfigT}.
Context (BaseProviderType : CustomProviderConfigT → string).

Abbreviation row := (t NetworkConfigT ConcurrencyAndBufferSizeT ProxyConfigT CustomProviderConfigT).

(** X4.  A custom provider configuration without a base provider type is
    refused: [BeforeSave] returns an error and leaves the column of the custom
    configuration as it was.  The three columns before it have been dealt with
    by then: when their encoders succeed the error is the one that names
    [base_provider_type], and each of the three fields that is set has already
    been written to its column. *)
Theorem base_provider_type_is_required (p : row) (c : CustomProviderConfigT) :
  CustomProviderConfig p = Some c →
  BaseProviderType c = "" →
  let p1 := (BeforeSave BaseProviderType p).1 in
  let r := (BeforeSave BaseProviderType p).2 in
  (∃ e, r = Err e)
  ∧ CustomProviderConfigJSON p1 = CustomProviderConfigJSON p
  ∧ ((∀ n, NetworkConfig p = Some n → ∃ s, json_Marshal n = Ok s) →
     (∀ b, ConcurrencyAndBufferSize p = Some b → ∃ s, json_Marshal b = Ok s) →
     (∀ x, ProxyConfig p = Some x → ∃ s, json_Marshal x = Ok s) →
     r = Err (Error "base_provider_type is required when custom_provider_config is set")
     ∧ (∀ n s, NetworkConfig p = Some n → json_Marshal n = Ok s → NetworkConfigJSON p1 = s)
     ∧ (∀ b s, ConcurrencyAndBufferSize p = Some b → json_Marshal b = Ok s →
               ConcurrencyBufferJSON p1 = s)
     ∧ (∀ x s, ProxyConfig p = Some x → json_Marshal x = Ok s → ProxyConfigJSON p1 = s)).
Proof.
  intros Hcustom Hbase p1 r. subst p1 r.
  destruct (BeforeSave BaseProviderType p) as [p1 r] eqn:Hsave. simpl.
  apply nonempty_false in Hbase.
  unfold_hooks. simpl in Hsave.
  destruct (NetworkConfig p) as [n|];
    [destruct (json_Marshal n) as [sn|en] eqn:Hn|]; simpl in Hsave.
  2: { injection Hsave as <- <-. split; [eauto|]. split; [done|].
       intros Hnetwork. destruct (Hnetwork n eq_refl) as [? ?]. congruence. }
  all: destruct (ConcurrencyAndBufferSize p) as [b|];
    [destruct (json_Marshal b) as [sb|eb] eqn:Hb|]; simpl in Hsave.
  all: try (injection Hsave as <- <-; split; [eauto|]; split; [done|];
            intros _ Hbuffer; destruct (Hbuffer b eq_refl) as [? ?]; congruence).
  all: destruct (ProxyConfig p) as [x|];
    [destruct (json_Marshal x) as [sx|ex] eqn:Hx|]; simpl in Hsave.
  all: try (injection Hsave as <- <-; split; [eauto|]; split; [done|];
            intros _ _ Hproxy; destruct (Hproxy x eq_refl) as [? ?]; congruence).
  all: rewrite Hcustom in Hsave; simpl in Hsave; rewrite Hbase in Hsave; simpl in Hsave.
  all: injection Hsave as <- <-; split; [eauto|]; split; [done|]; intros _ _ _.
  all: split; [done|]; simpl; repeat split; intros; congruence.
Qed.

(** X5.  Each hook of the provider row keeps to its side, whether it succeeds
    or not.  [BeforeSave] leaves the four configurations in memory as they
    were, [AfterFind] leaves the four JSON columns as they were, and neither
    touches the identifier, the name or the raw response flag.  On a row whose
    four JSON columns are empty [AfterFind] succeeds and changes nothing. *)
Theorem provider_hooks_keep_to_their_side (p : row) :
  let saved := (BeforeSave BaseProviderType p).1 in
  let found := (AfterFind p).1 in
  (NetworkConfig saved, ConcurrencyAndBufferSize saved, ProxyConfig saved,
   CustomProviderConfig saved)
  = (NetworkConfig p, ConcurrencyAndBufferSize p, ProxyConfig p, CustomProviderConfig p)
  ∧ (NetworkConfigJSON found, ConcurrencyBufferJSON found, ProxyConfigJSON found,
     CustomProviderConfigJSON found)
    = (NetworkConfigJSON p, ConcurrencyBufferJSON p, ProxyConfigJSON p,
       CustomProviderConfigJSON p)
  ∧ (ID saved, Name saved, SendBackRawResponse saved) = (ID p, Name p, SendBackRawResponse p)
  ∧ (ID found, Name found, SendBackRawResponse found) = (ID p, Name p, SendBackRawResponse p)
  ∧ ((NetworkConfigJSON p, ConcurrencyBufferJSON p, ProxyConfigJSON p,
      CustomProviderConfigJSON p) = ("", "", "", "") →
     AfterFind p = (p, Ok tt)).
Proof.
  intros saved found. subst saved found.
  destruct (BeforeSave BaseProviderType p) as [saved r] eqn:Hsave.
  destruct (AfterFind p) as [found r'] eqn:Hfind. simpl.
  repeat apply conj.
  - clear Hfind. unfold_hooks. run_hook Hsave.
    all: injection Hsave as <- <-; simpl; congruence.
  - clear Hsave. unfold_hooks. run_hook Hfind.
    all: injection Hfind as <- <-; simpl; congruence.
  - clear Hfind. unfold_hooks. run_hook Hsave.
    all: injection Hsave as <- <-; simpl; congruence.
  - clear Hsave. unfold_hooks. run_hook Hfind.
    all: injection Hfind as <- <-; simpl; congruence.
  - clear Hsave. intros [= Hn Hb Hx Hc]. unfold_hooks. simpl in Hfind.
    rewrite Hn in Hfind. simpl in Hfind. rewrite Hb in Hfind. simpl in Hfind.
    rewrite Hx in Hfind. simpl in Hfind. rewrite Hc in Hfind. simpl in Hfind.
    by injection Hfind as <- <-.
Qed.

Section lawful.
Context `{!JSONLawful NetworkConfigT, !JSONLawful ConcurrencyAndBufferSizeT,
          !JSONLawful ProxyConfigT, !JSONLawful CustomProviderConfigT}.

Lemma save_NetworkConfig_lawful (p : row) :
  (NetworkConfig p = None → NetworkConfigJSON p = "") →
  ∃ s, save_NetworkConfig p = (set_NetworkConfigJSON s p, Ok tt) ∧ stored (NetworkConfig p) s.
Proof.
  intros Hnil. unfold save_NetworkConfig, stored. unfold_hooks.
  destruct (NetworkConfig p) as [c|].
  - destruct (json_Marshal_total c) as [s Hs]. exists s. rewrite Hs. split; [done|].
    split; [by apply nonempty_true, (json_Marshal_nonempty _ _ Hs)|].
    by apply json_Unmarshal_Marshal.
  - exists (NetworkConfigJSON p). split; [by destruct p|by apply Hnil].
Qed.

Lemma find_NetworkConfig_stored (p : row) (v : option NetworkConfigT) :
  stored v (NetworkConfigJSON p) → NetworkConfig p = None →
  find_NetworkConfig p = (set_NetworkConfig v p, Ok tt).
Proof.
  unfold find_NetworkConfig, stored. unfold_hooks. destruct v as [c|].
  - intros [-> ->] _. done.
  - intros -> Hnil. simpl. rewrite <- Hnil. by destruct p.
Qed.

Lemma save_ConcurrencyAndBufferSize_lawful (p : row) :
  (ConcurrencyAndBufferSize p = None → ConcurrencyBufferJSON p = "") →
  ∃ s, save_ConcurrencyAndBufferSize p = (set_ConcurrencyBufferJSON s p, Ok tt) ∧ stored (ConcurrencyAndBufferSize p) s.
Proof.
  intros Hnil. unfold save_ConcurrencyAndBufferSize, stored. unfold_hooks.
  destruct (ConcurrencyAndBufferSize p) as [c|].
  - destruct (json_Marshal_total c) as [s Hs]. exists s. rewrite Hs. split; [done|].
    split; [by apply nonempty_true, (json_Marshal_nonempty _ _ Hs)|].
    by apply json_Unmarshal_Marshal.
  - exists (ConcurrencyBufferJSON p). split; [by destruct p|by apply Hnil].
Qed.

Lemma find_ConcurrencyAndBufferSize_stored (p : row) (v : option ConcurrencyAndBufferSizeT) :
  stored v (ConcurrencyBufferJSON p) → ConcurrencyAndBufferSize p = None →
  find_ConcurrencyAndBufferSize p = (set_ConcurrencyAndBufferSize v p, Ok tt).
Proof.
  unfold find_ConcurrencyAndBufferSize, stored. unfold_hooks. destruct v as [c|].
  - intros [-> ->] _. done.
  - intros -> Hnil. simpl. rewrite <- Hnil. by destruct p.
Qed.

Lemma save_ProxyConfig_lawful (p : row) :
  (ProxyConfig p = None → ProxyConfigJSON p = "") →
  ∃ s, save_ProxyConfig p = (set_ProxyConfigJSON s p, Ok tt) ∧ stored (ProxyConfig p) s.
Proof.
  intros Hnil. unfold save_ProxyConfig, stored. unfold_hooks.
  destruct (ProxyConfig p) as [c|].
  - destruct (json_Marshal_total c) as [s Hs]. exists s. rewrite Hs. split; [done|].
    split; [by apply nonempty_true, (json_Marshal_nonempty _ _ Hs)|].
    by apply json_Unmarshal_Marshal.
  - exists (ProxyConfigJSON p). split; [by destruct p|by apply Hnil].
Qed.

Lemma find_ProxyConfig_stored (p : row) (v : option ProxyConfigT) :
  stored v (ProxyConfigJSON p) → ProxyConfig p = None →
  find_ProxyConfig p = (set_ProxyConfig v p, Ok tt).
Proof.
  unfold find_ProxyConfig, stored. unfold_hooks. destruct v as [c|].
  - intros [-> ->] _. done.
  - intros -> Hnil. simpl. rewrite <- Hnil. by destruct p.
Qed.

Lemma save_CustomProviderConfig_lawful (p : row) :
  (CustomProviderConfig p = None → CustomProviderConfigJSON p = "") →
  ∃ s, save_CustomProviderConfig p = (set_CustomProviderConfigJSON s p, Ok tt) ∧ stored (CustomProviderConfig p) s.
Proof.
  intros Hnil. unfold save_CustomProviderConfig, stored. unfold_hooks.
  destruct (CustomProviderConfig p) as [c|].
  - destruct (json_Marshal_total c) as [s Hs]. exists s. rewrite Hs. split; [done|].
    split; [by apply nonempty_true, (json_Marshal_nonempty _ _ Hs)|].
    by apply json_Unmarshal_Marshal.
  - exists (CustomProviderConfigJSON p). split; [by destruct p|by apply Hnil].
Qed.

Lemma find_CustomProviderConfig_stored (p : row) (v : option CustomProviderConfigT) :
  stored v (CustomProviderConfigJSON p) → CustomProviderConfig p = None →
  find_CustomProviderConfig p = (set_CustomProviderConfig v p, Ok tt).
Proof.
  unfold find_CustomProviderConfig, stored. unfold_hooks. destruct v as [c|].
  - intros [-> ->] _. done.
  - intros -> Hnil. simpl. rewrite <- Hnil. by destruct p.
Qed.

(** X6.  With JSON libraries that encode every value and read back what they
    wrote, a provider row whose custom configuration, if it has one, names a
    base provider type, and whose nil fields have nothing stored in their
    columns, is saved and read back with success, and the four configurations
    read back are the ones saved: a configuration that was set is read back
    equal, one that was nil is read back as nil.  The hooks leave the name and
    the other plain columns alone. *)
Theorem provider_round_trip (p : row) :
  (∀ c, CustomProviderConfig p = Some c → BaseProviderType c ≠ "") →
  (NetworkConfig p = None → NetworkConfigJSON p = "") →
  (ConcurrencyAndBufferSize p = None → ConcurrencyBufferJSON p = "") →
  (ProxyConfig p = None → ProxyConfigJSON p = "") →
  (CustomProviderConfig p = None → CustomProviderConfigJSON p = "") →
  ∃ p1 p2,
    BeforeSave BaseProviderType p = (p1, Ok tt) ∧ AfterFind (scan p1) = (p2, Ok tt)
    ∧ NetworkConfig p2 = NetworkConfig p
    ∧ ConcurrencyAndBufferSize p2 = ConcurrencyAndBufferSize p
    ∧ ProxyConfig p2 = ProxyConfig p
    ∧ CustomProviderConfig p2 = CustomProviderConfig p
    ∧ (ID p2, Name p2, SendBackRawResponse p2) = (ID p, Name p, SendBackRawResponse p).
Proof.
  intros Hbase Hn Hb Hx Hc.
  destruct (save_NetworkConfig_lawful p Hn) as (sn & Hsn & Hrn).
  destruct (save_ConcurrencyAndBufferSize_lawful (set_NetworkConfigJSON sn p) Hb)
    as (sb & Hsb & Hrb).
  destruct (save_ProxyConfig_lawful
              (set_ConcurrencyBufferJSON sb (set_NetworkConfigJSON sn p)) Hx)
    as (sx & Hsx & Hrx).
  set (p' := set_ProxyConfigJSON sx
               (set_ConcurrencyBufferJSON sb (set_NetworkConfigJSON sn p))) in *.
  assert (check_CustomProviderConfig BaseProviderType p' = (p', Ok tt)) as Hcheck.
  { unfold check_CustomProviderConfig. unfold_hooks.
    change (CustomProviderConfig p') with (CustomProviderConfig p).
    destruct (CustomProviderConfig p) as [c|]; [|done].
    pose proof (Hbase c eq_refl) as Hc'. by apply nonempty_true in Hc' as ->. }
  destruct (save_CustomProviderConfig_lawful p' Hc) as (sc & Hsc & Hrc).
  set (p1 := set_CustomProviderConfigJSON sc p') in *.
  exists p1.
  assert (BeforeSave BaseProviderType p = (p1, Ok tt)) as Hsave.
  { unfold BeforeSave.
    rewrite (hook_bind_ok _ _ _ _ _ Hsn), (hook_bind_ok _ _ _ _ _ Hsb),
      (hook_bind_ok _ _ _ _ _ Hsx), (hook_bind_ok _ _ _ _ _ Hcheck),
      (hook_bind_ok _ _ _ _ _ Hsc).
    done. }
  set (q1 := set_NetworkConfig (NetworkConfig p) (scan p1)).
  set (q2 := set_ConcurrencyAndBufferSize (ConcurrencyAndBufferSize p) q1).
  set (q3 := set_ProxyConfig (ProxyConfig p) q2).
  set (q4 := set_CustomProviderConfig (CustomProviderConfig p) q3).
  exists q4. split; [done|]. split; [|done].
  unfold AfterFind.
  rewrite (hook_bind_ok _ _ _ _ _
             (find_NetworkConfig_stored (scan p1) (NetworkConfig p) Hrn eq_refl)).
  rewrite (hook_bind_ok _ _ _ _ _
             (find_ConcurrencyAndBufferSize_stored q1 (ConcurrencyAndBufferSize p) Hrb
                eq_refl)).
  rewrite (hook_bind_ok _ _ _ _ _ (find_ProxyConfig_stored q2 (ProxyConfig p) Hrx eq_refl)).
  rewrite (hook_bind_ok _ _ _ _ _
             (find_CustomProviderConfig_stored q3 (CustomProviderConfig p) Hrc eq_refl)).
  done.
Qed.

End lawful.

End facts.

(** *** On the sample rows *)

Lemma provider_round_trip_witness :
  ∃ p1 p2,
    BeforeSave samples.base_provider_type cases.typed_provider = (p1, Ok tt)
    ∧ AfterFind (scan p1) = (p2, Ok tt)
    ∧ NetworkConfig p2 = Some samples.stored_network_config
    ∧ ProxyConfig p2 = None
    ∧ CustomProviderConfig p2 = Some (Some {[ "base_provider_type" := "openai" ]}).
Proof.
  destruct (provider_round_trip samples.base_provider_type cases.typed_provider)
    as (p1 & p2 & Hsave & Hfind & Hn & _ & Hx & Hc & _).
  - intros c [= <-]. vm_compute. discriminate.
  - discriminate.
  - reflexivity.
  - reflexivity.
  - discriminate.
  - exists p1, p2. split; [exact Hsave|]. split; [exact Hfind|].
    split; [exact Hn|]. split; [exact Hx|exact Hc].
Defined.

Lemma base_provider_type_is_required_witness :
  let saved := BeforeSave samples.base_provider_type cases.untyped_provider in
  saved.2 = Err (Error "base_provider_type is required when custom_provider_config is set")
  ∧ CustomProviderConfigJSON saved.1 = ""
  ∧ NetworkConfigJSON saved.1 = tables.TableKey.text (json_Marshal samples.stored_network_config).
Proof.
  intros saved.
  destruct (base_provider_type_is_required samples.base_provider_type cases.untyped_provider
              (Some {[ "custom_provider_key" := "my-apertus" ]}) eq_refl)
    as (_ & Hcolumn & Hrest); [vm_compute; reflexivity|].
  destruct Hrest as (Herr & Hnetwork & _).
  - intros n _. destruct n; eexists; reflexivity.
  - intros b _. destruct b; eexists; reflexivity.
  - intros x _. destruct x; eexists; reflexivity.
  - split; [exact Herr|]. split; [exact Hcolumn|].
    apply (Hnetwork samples.stored_network_config); reflexivity.
Defined.

End TableProvider_more.

(** ** More on the codec of [config_keys] *)

Module TableKey_more.
Import tables.TableKey.

Ltac unfold_hooks := TableKey_facts.unfold_hooks.

(** Decides a goal [unchanged part step] for a step that does not write
    [part]. *)
Ltac step_unchanged :=
  let k := fresh "k" in
  let k' := fresh "k" in
  let r := fresh "r" in
  let Hstep := fresh "Hstep" in
  intros k; unfold unchanged;
  match goal with |- context [(?m k).1] => destruct (m k) as [k' r] eqn:Hstep end;
  unfold_hooks; run_hook Hstep; injection Hstep as <- <-;
  unfold overrides, identity; simpl; congruence.

Section written.
Context `{JSON (option (list string)), JSON (option (gmap string string))}.

(** *** Saving a row whose columns are written already *)

Lemma set_ModelsJSON_same (k : t) (s : string) : ModelsJSON k = s → set_ModelsJSON s k = k.
Proof. intros <-. by destruct k. Qed.

Lemma set_BedrockDeploymentsJSON_same (k : t) (s : option string) :
  BedrockDeploymentsJSON k = s → set_BedrockDeploymentsJSON s k = k.
Proof. intros <-. by destruct k. Qed.

Lemma save_Models_written (k : t) :
  (∀ l, Models k = Some l → ∃ s, json_Marshal (Some l) = Ok s) →
  save_Models k = (set_ModelsJSON (models_encoded (Models k)) k, Ok tt).
Proof.
  intros Hencoder. unfold_hooks. unfold models_encoded.
  destruct (Models k) as [l|]; [|done]. by destruct (Hencoder l eq_refl) as [s ->].
Qed.

Lemma save_Azure_written (k : t) :
  (∀ c m, AzureKeyConfig k = Some c → schemas.AzureKeyConfig.Deployments c = Some m →
          ∃ s, json_Marshal (Some m) = Ok s) →
  azure_columns k = azure_encoded (AzureKeyConfig k) →
  save_Azure k = (k, Ok tt).
Proof.
  intros Hencoder Hcolumns. unfold_hooks. unfold azure_columns, azure_encoded, kept in Hcolumns.
  destruct (AzureKeyConfig k) as [[e v [m|]]|] eqn:Hc; simpl in *.
  - destruct (Hencoder _ m eq_refl eq_refl) as [s Hs]. rewrite Hs in *. simpl in *.
    destruct (nonempty e); simpl; destruct k; simpl in *; by simplify_eq.
  - destruct (nonempty e); simpl; destruct k; simpl in *; by simplify_eq.
  - destruct k; simpl in *; by simplify_eq.
Qed.

Lemma save_Vertex_written (k : t) :
  vertex_columns k = vertex_encoded (VertexKeyConfig k) → save_Vertex k = (k, Ok tt).
Proof.
  intros Hcolumns. unfold_hooks. unfold vertex_columns, vertex_encoded, kept in Hcolumns.
  destruct (VertexKeyConfig k) as [[p g c]|] eqn:Hc; simpl in *.
  - destruct (nonempty p), (nonempty g), (nonempty c); simpl; destruct k; simpl in *;
      by simplify_eq.
  - destruct k; simpl in *; by simplify_eq.
Qed.

Lemma save_Bedrock_written (k : t) :
  bedrock_scalars k = (bedrock_encoded (BedrockKeyConfig k)).1 →
  save_Bedrock k
  = match bedrock_deployments k with
    | Some m =>
        match sonic_Marshal (Some m) with
        | Ok s => (set_BedrockDeploymentsJSON (Some s) k, Ok tt)
        | Err e => (k, Err e)
        end
    | None => (set_BedrockDeploymentsJSON None k, Ok tt)
    end.
Proof.
  intros Hcolumns. unfold_hooks.
  unfold bedrock_scalars, bedrock_encoded, kept, bedrock_deployments in *.
  destruct (BedrockKeyConfig k) as [[a s t g n [m|]]|] eqn:Hc; simpl in *.
  - destruct (sonic_Marshal (Some m)); destruct (nonempty a), (nonempty s); simpl;
      destruct k; simpl in *; by simplify_eq.
  - destruct (nonempty a), (nonempty s); simpl; destruct k; simpl in *; by simplify_eq.
  - destruct k; simpl in *; by simplify_eq.
Qed.

Lemma save_Apertus_written (k : t) :
  ApertusEndpoint k = apertus_encoded (ApertusKeyConfig k) → save_Apertus k = (k, Ok tt).
Proof.
  intros Hcolumn. unfold_hooks. unfold apertus_encoded, kept in Hcolumn.
  destruct (ApertusKeyConfig k) as [[e m]|] eqn:Hc; simpl in *.
  - destruct (nonempty e); simpl; destruct k; simpl in *; by simplify_eq.
  - destruct k; simpl in *; by simplify_eq.
Qed.

(** [BeforeSave] on a row whose override columns, the Bedrock deployments
    apart, hold what the hook writes: the models column and the Bedrock
    deployments column are written, nothing else changes. *)
Lemma BeforeSave_written (k : t) :
  (∀ l, Models k = Some l → ∃ s, json_Marshal (Some l) = Ok s) →
  (∀ c m, AzureKeyConfig k = Some c → schemas.AzureKeyConfig.Deployments c = Some m →
          ∃ s, json_Marshal (Some m) = Ok s) →
  azure_columns k = azure_encoded (AzureKeyConfig k) →
  vertex_columns k = vertex_encoded (VertexKeyConfig k) →
  bedrock_scalars k = (bedrock_encoded (BedrockKeyConfig k)).1 →
  ApertusEndpoint k = apertus_encoded (ApertusKeyConfig k) →
  BeforeSave k
  = let k' := set_ModelsJSON (models_encoded (Models k)) k in
    match bedrock_deployments k with
    | Some m =>
        match sonic_Marshal (Some m) with
        | Ok s => (set_BedrockDeploymentsJSON (Some s) k', Ok tt)
        | Err e => (k', Err e)
        end
    | None => (set_BedrockDeploymentsJSON None k', Ok tt)
    end.
Proof.
  intros Hmodels Hazure Ca Cv Cb Cp. unfold BeforeSave.
  rewrite (hook_bind_ok _ _ _ _ _ (save_Models_written k Hmodels)).
  set (k' := set_ModelsJSON (models_encoded (Models k)) k).
  rewrite (hook_bind_ok _ _ _ _ _ (save_Azure_written k' Hazure Ca)).
  rewrite (hook_bind_ok _ _ _ _ _ (save_Vertex_written k' Cv)).
  pose proof (save_Bedrock_written k' Cb) as Hstep.
  change (bedrock_deployments k') with (bedrock_deployments k) in Hstep. simpl.
  destruct (bedrock_deployments k) as [m|].
  - destruct (sonic_Marshal (Some m)) as [s|e].
    + rewrite (hook_bind_ok _ _ _ _ _ Hstep).
      by rewrite (hook_bind_ok _ _ _ _ _
                    (save_Apertus_written (set_BedrockDeploymentsJSON (Some s) k') Cp)).
    + by rewrite (hook_bind_err _ _ _ _ _ Hstep).
  - rewrite (hook_bind_ok _ _ _ _ _ Hstep).
    by rewrite (hook_bind_ok _ _ _ _ _
                  (save_Apertus_written (set_BedrockDeploymentsJSON None k') Cp)).
Qed.

End written.

Section facts.
Context `{JSON (option (list string)), JSON (option (gmap string string))}.

(** *** What the hooks leave alone *)

Lemma BeforeSave_unchanged {B : Type} (part : t → B) :
  unchanged part save_Models → unchanged part save_Azure → unchanged part save_Vertex →
  unchanged part save_Bedrock → unchanged part save_Apertus → unchanged part BeforeSave.
Proof.
  intros. unfold BeforeSave.
  repeat (apply unchanged_bind; [done|intros _]). apply unchanged_ret.
Qed.

Lemma BeforeSave_memory (k : t) :
  Models (BeforeSave k).1 = Models k ∧ overrides (BeforeSave k).1 = overrides k
  ∧ identity (BeforeSave k).1 = identity k.
Proof.
  assert (unchanged (λ k, (Models k, overrides k, identity k)) BeforeSave) as Hsame.
  { apply BeforeSave_unchanged; step_unchanged. }
  specialize (Hsame k). simpl in Hsame. repeat split; congruence.
Qed.

Lemma AfterFind_columns (k : t) :
  ModelsJSON (AfterFind k).1 = ModelsJSON k
  ∧ azure_columns (AfterFind k).1 = azure_columns k
  ∧ vertex_columns (AfterFind k).1 = vertex_columns k
  ∧ bedrock_columns (AfterFind k).1 = bedrock_columns k
  ∧ ApertusEndpoint (AfterFind k).1 = ApertusEndpoint k
  ∧ identity (AfterFind k).1 = identity k.
Proof.
  destruct (AfterFind k) as [k' r] eqn:Hfind. unfold_hooks. run_hook Hfind.
  all: by injection Hfind as <- <-.
Qed.

(** X7.  Each hook keeps to its side of the row, whether it succeeds or not.
    [BeforeSave] writes columns only: the list of models and the four
    overrides in memory are as they were, and so are the identifiers, the name
    and the secret value of the key.  [AfterFind] writes virtual fields only:
    every column is as it was. *)
Theorem hooks_keep_to_their_side (k : t) :
  (Models (BeforeSave k).1 = Models k ∧ overrides (BeforeSave k).1 = overrides k
   ∧ identity (BeforeSave k).1 = identity k)
  ∧ (ModelsJSON (AfterFind k).1 = ModelsJSON k
     ∧ azure_columns (AfterFind k).1 = azure_columns k
     ∧ vertex_columns (AfterFind k).1 = vertex_columns k
     ∧ bedrock_columns (AfterFind k).1 = bedrock_columns k
     ∧ ApertusEndpoint (AfterFind k).1 = ApertusEndpoint k
     ∧ identity (AfterFind k).1 = identity k).
Proof.
  split; [apply BeforeSave_memory|].
  destruct (AfterFind k) as [k' r] eqn:Hfind. unfold_hooks. run_hook Hfind.
  all: by injection Hfind as <- <-.
Qed.

(** X8.  [AfterFind] sets overrides, it never clears one.  On a receiver
    that already holds a list of models or an override (a struct that is used
    again), a group whose test fails keeps what the receiver held: the list of
    models when the models column is empty, the Azure override when the
    endpoint column is null, the Vertex override when the three Vertex columns
    are null, the Bedrock override when the five scalar columns are null and
    the deployments column is null or the empty text, the Apertus override when
    the endpoint column is null. *)
Theorem AfterFind_never_clears (k : t) :
  let k' := (AfterFind k).1 in
  (ModelsJSON k = "" → Models k' = Models k)
  ∧ (AzureEndpoint k = None → AzureKeyConfig k' = AzureKeyConfig k)
  ∧ (vertex_columns k = (None, None, None) → VertexKeyConfig k' = VertexKeyConfig k)
  ∧ (∀ deployments,
       bedrock_columns k = (None, None, None, None, None, deployments) →
       deployments = None ∨ deployments = Some "" →
       BedrockKeyConfig k' = BedrockKeyConfig k)
  ∧ (ApertusEndpoint k = None → ApertusKeyConfig k' = ApertusKeyConfig k).
Proof.
  intros k'. subst k'.
  destruct (AfterFind k) as [k' r] eqn:Hfind. unfold_hooks.
  unfold vertex_columns, bedrock_columns.
  run_hook Hfind; injection Hfind as <- <-; simpl.
  all: repeat apply conj; try done.
  all: intros; destruct_or?; simplify_eq.
  all: repeat match goal with Hc : ?x = _ |- _ => progress (rewrite Hc in * ) end.
  all: simpl in *; try done; congruence.
Qed.

(** *** When [BeforeSave] fails *)

Lemma save_Models_Err (k k0 : t) (e : error) :
  save_Models k = (k0, Err e) → ∃ l, Models k = Some l ∧ json_Marshal (Some l) = Err e.
Proof.
  unfold_hooks. destruct (Models k) as [l|]; [|discriminate].
  destruct (json_Marshal (Some l)) eqn:Hl; [discriminate|]. intros [= _ <-]. eauto.
Qed.

Lemma save_Azure_Err (k k0 : t) (e : error) :
  save_Azure k = (k0, Err e) →
  ∃ c m, AzureKeyConfig k = Some c ∧ schemas.AzureKeyConfig.Deployments c = Some m
         ∧ json_Marshal (Some m) = Err e.
Proof.
  unfold_hooks. destruct (AzureKeyConfig k) as [[endpoint version [m|]]|]; simpl.
  - destruct (nonempty endpoint), (json_Marshal (Some m)) eqn:Hm; simpl;
      try discriminate; intros [= _ <-]; eauto.
  - destruct (nonempty endpoint); discriminate.
  - discriminate.
Qed.

Lemma save_Vertex_Ok_or (k k0 : t) (r : result unit) : save_Vertex k = (k0, r) → r = Ok tt.
Proof.
  unfold_hooks. destruct (VertexKeyConfig k) as [[p g c]|]; simpl; [|by intros [= _ <-]].
  destruct (nonempty p), (nonempty g), (nonempty c); by intros [= _ <-].
Qed.

Lemma save_Bedrock_Err (k k0 : t) (e : error) :
  save_Bedrock k = (k0, Err e) →
  ∃ c m, BedrockKeyConfig k = Some c ∧ schemas.BedrockKeyConfig.Deployments c = Some m
         ∧ sonic_Marshal (Some m) = Err e.
Proof.
  unfold_hooks. destruct (BedrockKeyConfig k) as [[a s t g n [m|]]|]; simpl.
  - destruct (nonempty a), (nonempty s), (sonic_Marshal (Some m)) eqn:Hm; simpl;
      try discriminate; intros [= _ <-]; eauto.
  - destruct (nonempty a), (nonempty s); discriminate.
  - discriminate.
Qed.

Lemma save_Apertus_Ok_or (k k0 : t) (r : result unit) : save_Apertus k = (k0, r) → r = Ok tt.
Proof.
  unfold_hooks. destruct (ApertusKeyConfig k) as [[endpoint m]|]; simpl; [|by intros [= _ <-]].
  destruct (nonempty endpoint); by intros [= _ <-].
Qed.

(** A step that succeeds has encoded what it had to encode. *)
Lemma save_Models_encoder (k k0 : t) (l : list string) :
  save_Models k = (k0, Ok tt) → Models k = Some l → ∃ s, json_Marshal (Some l) = Ok s.
Proof.
  unfold_hooks. intros Hsave Hl. rewrite Hl in Hsave.
  destruct (json_Marshal (Some l)); [eauto|discriminate].
Qed.

Lemma save_Azure_encoder (k k0 : t) (c : schemas.AzureKeyConfig.t) (m : gmap string string) :
  save_Azure k = (k0, Ok tt) → AzureKeyConfig k = Some c →
  schemas.AzureKeyConfig.Deployments c = Some m → ∃ s, json_Marshal (Some m) = Ok s.
Proof.
  unfold_hooks. intros Hsave Hc Hm. rewrite Hc in Hsave. simpl in Hsave.
  rewrite Hm in Hsave.
  destruct (nonempty _), (json_Marshal (Some m)); simpl in Hsave; eauto; discriminate.
Qed.

Lemma save_Bedrock_encoder (k k0 : t) (c : schemas.BedrockKeyConfig.t)
    (m : gmap string string) :
  save_Bedrock k = (k0, Ok tt) → BedrockKeyConfig k = Some c →
  schemas.BedrockKeyConfig.Deployments c = Some m → ∃ s, sonic_Marshal (Some m) = Ok s.
Proof.
  unfold_hooks. intros Hsave Hc Hm. rewrite Hc in Hsave. simpl in Hsave.
  rewrite Hm in Hsave.
  destruct (nonempty _), (nonempty _), (sonic_Marshal (Some m)); simpl in Hsave; eauto;
    discriminate.
Qed.

(** The encoder whose failure makes [BeforeSave] fail with the error [e]. *)
Lemma BeforeSave_Err (k k1 : t) (e : error) :
  BeforeSave k = (k1, Err e) →
  ((∃ l, Models k = Some l ∧ json_Marshal (Some l) = Err e)
   ∨ (∃ c m, AzureKeyConfig k = Some c ∧ schemas.AzureKeyConfig.Deployments c = Some m
             ∧ json_Marshal (Some m) = Err e)
   ∨ (∃ c m, BedrockKeyConfig k = Some c ∧ schemas.BedrockKeyConfig.Deployments c = Some m
             ∧ sonic_Marshal (Some m) = Err e))
  ∧ ApertusEndpoint k1 = ApertusEndpoint k.
Proof.
  intros Hsave.
  assert (unchanged (λ k, (AzureKeyConfig k, BedrockKeyConfig k, ApertusEndpoint k))
            save_Models) as Hmodels by step_unchanged.
  assert (unchanged (λ k, (BedrockKeyConfig k, ApertusEndpoint k)) save_Azure)
    as Hazure by step_unchanged.
  assert (unchanged (λ k, (BedrockKeyConfig k, ApertusEndpoint k)) save_Vertex)
    as Hvertex by step_unchanged.
  assert (unchanged ApertusEndpoint save_Bedrock) as Hbedrock by step_unchanged.
  unfold BeforeSave in Hsave.
  apply hook_bind_inv in Hsave as [(? & Hstep & [= <-])|(k2 & [] & Hstep & Hsave)].
  { specialize (Hmodels k). rewrite Hstep in Hmodels. injection Hmodels as _ _ ->.
    split; [|done]. left. by eapply save_Models_Err. }
  specialize (Hmodels k). rewrite Hstep in Hmodels. simpl in Hmodels.
  injection Hmodels as Ha2 Hb2 Hp2. clear Hstep.
  apply hook_bind_inv in Hsave as [(? & Hstep & [= <-])|(k3 & [] & Hstep & Hsave)].
  { specialize (Hazure k2). rewrite Hstep in Hazure. injection Hazure as _ ->.
    split; [|done]. right; left. rewrite <- Ha2. by eapply save_Azure_Err. }
  specialize (Hazure k2). rewrite Hstep in Hazure. simpl in Hazure.
  injection Hazure as Hb3 Hp3. clear Hstep.
  apply hook_bind_inv in Hsave as [(? & Hstep & [= <-])|(k4 & [] & Hstep & Hsave)].
  { by apply save_Vertex_Ok_or in Hstep. }
  specialize (Hvertex k3). rewrite Hstep in Hvertex. simpl in Hvertex.
  injection Hvertex as Hb4 Hp4. clear Hstep.
  apply hook_bind_inv in Hsave as [(? & Hstep & [= <-])|(k5 & [] & Hstep & Hsave)].
  { specialize (Hbedrock k4). rewrite Hstep in Hbedrock. simpl in Hbedrock.
    split; [|congruence]. right; right. rewrite <- Hb2, <- Hb3, <- Hb4.
    by eapply save_Bedrock_Err. }
  apply hook_bind_inv in Hsave as [(? & Hstep' & [= <-])|(k6 & [] & _ & Hsave)].
  { by apply save_Apertus_Ok_or in Hstep'. }
  discriminate Hsave.
Qed.

(** When [BeforeSave] succeeds the three encoders have succeeded. *)
Lemma BeforeSave_encoders (k k1 : t) :
  BeforeSave k = (k1, Ok tt) →
  (∀ l, Models k = Some l → ∃ s, json_Marshal (Some l) = Ok s)
  ∧ (∀ c m, AzureKeyConfig k = Some c → schemas.AzureKeyConfig.Deployments c = Some m →
            ∃ s, json_Marshal (Some m) = Ok s)
  ∧ (∀ c m, BedrockKeyConfig k = Some c → schemas.BedrockKeyConfig.Deployments c = Some m →
            ∃ s, sonic_Marshal (Some m) = Ok s).
Proof.
  intros Hsave.
  assert (unchanged (λ k, (AzureKeyConfig k, BedrockKeyConfig k)) save_Models)
    as Hmodels by step_unchanged.
  assert (unchanged BedrockKeyConfig save_Azure) as Hazure by step_unchanged.
  assert (unchanged BedrockKeyConfig save_Vertex) as Hvertex by step_unchanged.
  unfold BeforeSave in Hsave.
  apply hook_bind_Ok_inv in Hsave as (k2 & [] & Hstep2 & Hsave).
  apply hook_bind_Ok_inv in Hsave as (k3 & [] & Hstep3 & Hsave).
  apply hook_bind_Ok_inv in Hsave as (k4 & [] & Hstep4 & Hsave).
  apply hook_bind_Ok_inv in Hsave as (k5 & [] & Hstep5 & _).
  specialize (Hmodels k). rewrite Hstep2 in Hmodels. injection Hmodels as Ha2 Hb2.
  specialize (Hazure k2). rewrite Hstep3 in Hazure. simpl in Hazure.
  specialize (Hvertex k3). rewrite Hstep4 in Hvertex. simpl in Hvertex.
  repeat apply conj.
  - intros l. by eapply save_Models_encoder.
  - intros c m. rewrite <- Ha2. by eapply save_Azure_encoder.
  - intros c m. rewrite <- Hb2, <- Hazure, <- Hvertex. by eapply save_Bedrock_encoder.
Qed.

(** X9.  [BeforeSave] fails exactly when one of its three encoders fails:
    [json.Marshal] on a list of models that is not nil, [json.Marshal] on the
    deployments of an Azure override, [sonic.Marshal] on the deployments of a
    Bedrock override.  The error returned is the error of the first of them, in
    that order, that fails; and when the hook fails the Apertus endpoint column
    has not been written. *)
Theorem BeforeSave_fails_with_its_encoders (k k1 : t) (r : result unit) :
  BeforeSave k = (k1, r) →
  let models_fail e := ∃ l, Models k = Some l ∧ json_Marshal (Some l) = Err e in
  let azure_fail e :=
    ∃ c m, AzureKeyConfig k = Some c ∧ schemas.AzureKeyConfig.Deployments c = Some m
           ∧ json_Marshal (Some m) = Err e in
  let bedrock_fail e :=
    ∃ c m, BedrockKeyConfig k = Some c ∧ schemas.BedrockKeyConfig.Deployments c = Some m
           ∧ sonic_Marshal (Some m) = Err e in
  (∀ e, r = Err e →
        (models_fail e ∨ azure_fail e ∨ bedrock_fail e)
        ∧ ApertusEndpoint k1 = ApertusEndpoint k)
  ∧ (r = Ok tt → ∀ e, ¬ (models_fail e ∨ azure_fail e ∨ bedrock_fail e))
  ∧ (∀ e, models_fail e → r = Err e)
  ∧ (∀ e, (∀ e', ¬ models_fail e') → azure_fail e → r = Err e)
  ∧ (∀ e, (∀ e', ¬ models_fail e') → (∀ e', ¬ azure_fail e') → bedrock_fail e → r = Err e).
Proof.
  intros Hsave models_fail azure_fail bedrock_fail.
  assert (r = Ok tt → ∀ e, ¬ (models_fail e ∨ azure_fail e ∨ bedrock_fail e)) as Hok.
  { intros -> e. destruct (BeforeSave_encoders _ _ Hsave) as (Hm & Ha & Hb).
    intros [(l & Hl & He)|[(c & m & Hc & Hd & He)|(c & m & Hc & Hd & He)]].
    - destruct (Hm l Hl). congruence.
    - destruct (Ha c m Hc Hd). congruence.
    - destruct (Hb c m Hc Hd). congruence. }
  assert (∀ e, r = Err e →
               (models_fail e ∨ azure_fail e ∨ bedrock_fail e)
               ∧ ApertusEndpoint k1 = ApertusEndpoint k) as Herr.
  { intros e ->. by apply BeforeSave_Err. }
  split; [done|]. split; [done|].
  repeat apply conj.
  - intros e (l & Hl & He). unfold BeforeSave in Hsave.
    apply hook_bind_inv in Hsave as [(x & Hstep & ->)|(k2 & [] & Hstep & _)].
    + apply save_Models_Err in Hstep as (l' & Hl' & He'). congruence.
    + destruct (save_Models_encoder _ _ _ Hstep Hl). congruence.
  - intros e Hmodels (c & m & Hc & Hd & He). unfold BeforeSave in Hsave.
    assert (unchanged AzureKeyConfig save_Models) as Hsame by step_unchanged.
    apply hook_bind_inv in Hsave as [(x & Hstep & ->)|(k2 & [] & Hstep & Hsave)].
    { apply save_Models_Err in Hstep. by destruct (Hmodels x). }
    specialize (Hsame k). rewrite Hstep in Hsame. simpl in Hsame. rewrite <- Hsame in Hc.
    apply hook_bind_inv in Hsave as [(x & Hstep' & ->)|(k3 & [] & Hstep' & _)].
    + apply save_Azure_Err in Hstep' as (c' & m' & Hc' & Hd' & He'). congruence.
    + destruct (save_Azure_encoder _ _ _ _ Hstep' Hc Hd). congruence.
  - intros e Hmodels Hazure (c & m & Hc & Hd & He). destruct r as [[]|e'].
    + destruct (Hok eq_refl e). right; right. by exists c, m.
    + destruct (Herr e' eq_refl)
        as [[Hfail|[Hfail|(c' & m' & Hc' & Hd' & He')]] _].
      * by destruct (Hmodels e').
      * by destruct (Hazure e').
      * congruence.
Qed.

(** X10.  Saving once more a row that has just been saved with success
    changes nothing but the Bedrock deployments column.  [json.Marshal] gives
    the same text again; [sonic.Marshal], which may write the members of the
    deployments in another order, is called again, and the second save leaves in
    the column what that call returns, or fails with the error of that call and
    leaves the row as it is.  A row whose Bedrock override has no deployments
    is left as it is. *)
Theorem second_save_touches_only_bedrock_deployments (again : option (gmap string string) → result string)
    (k k1 : t) :
  BeforeSave k = (k1, Ok tt) →
  BeforeSave (H0 := sonic_again again) k1
  = match bedrock_deployments k with
    | Some m =>
        match again (Some m) with
        | Ok s => (set_BedrockDeploymentsJSON (Some s) k1, Ok tt)
        | Err e => (k1, Err e)
        end
    | None => (k1, Ok tt)
    end.
Proof.
  intros Hsave.
  destruct (BeforeSave_memory k) as (Hm & Ho & _). rewrite Hsave in Hm, Ho.
  simpl in Hm, Ho. injection Ho as Ha Hv Hb Hp.
  destruct (BeforeSave_encoders _ _ Hsave) as (Em & Ea & _).
  destruct (TableKey_facts.BeforeSave_Ok _ _ Hsave) as (Cm & Ca & Cv & Cb & Cp & _).
  rewrite <- Hm in Cm, Em. rewrite <- Ha in Ca, Ea. rewrite <- Hv in Cv.
  rewrite <- Hb in Cb. rewrite <- Hp in Cp.
  assert (bedrock_scalars k1
          = (bedrock_encoded (H0 := sonic_again again) (BedrockKeyConfig k1)).1) as Cb'.
  { change (bedrock_scalars k1) with (bedrock_columns k1).1. rewrite Cb.
    by destruct (BedrockKeyConfig k1) as [[a s t g n [m|]]|]. }
  rewrite (BeforeSave_written (H0 := sonic_again again) k1 Em Ea Ca Cv Cb' Cp).
  simpl. rewrite (set_ModelsJSON_same _ _ Cm).
  unfold bedrock_deployments. rewrite <- Hb.
  destruct (BedrockKeyConfig k1) as [[a s t g n [m|]]|] eqn:Hc; simpl; [done| |];
    f_equal; apply set_BedrockDeploymentsJSON_same;
    rewrite ?Hc in Cb; unfold bedrock_columns in Cb; simpl in Cb; congruence.
Qed.

(** X11.  A row that [BeforeSave] has saved holds no empty text in the
    columns it writes under a test for the empty string: the Azure endpoint,
    the three Vertex columns, the Bedrock access key and secret key and the
    Apertus endpoint are null or not empty.  So an override that [AfterFind]
    reconstructs from a saved row on the strength of such a column has a value
    in that field; in particular an Apertus override read back from a saved row
    has an endpoint. *)
Theorem saved_columns_are_null_or_not_empty (k k1 k2 : t) (r : result unit) :
  BeforeSave k = (k1, Ok tt) →
  (AzureEndpoint k1 ≠ Some "" ∧ VertexProjectID k1 ≠ Some "" ∧ VertexRegion k1 ≠ Some ""
   ∧ VertexAuthCredentials k1 ≠ Some "" ∧ BedrockAccessKey k1 ≠ Some ""
   ∧ BedrockSecretKey k1 ≠ Some "" ∧ ApertusEndpoint k1 ≠ Some "")
  ∧ (AfterFind (scan k1) = (k2, r) →
     ∀ c, ApertusKeyConfig k2 = Some c → schemas.ApertusKeyConfig.Endpoint c ≠ "").
Proof.
  intros Hsave.
  assert (∀ s, kept s ≠ Some "") as Hkept.
  { intros s. unfold kept. destruct (nonempty s) eqn:Hs; [|done].
    intros [= ->]. done. }
  destruct (TableKey_facts.BeforeSave_Ok _ _ Hsave) as (_ & Ha & Hv & Hb & Hp & _).
  assert (ApertusEndpoint k1 ≠ Some "") as Hendpoint.
  { rewrite Hp. unfold apertus_encoded. destruct (ApertusKeyConfig k) as [c|]; [|done].
    apply Hkept. }
  split.
  - unfold azure_columns, vertex_columns, bedrock_columns in *.
    unfold azure_encoded in Ha. unfold vertex_encoded in Hv. unfold bedrock_encoded in Hb.
    destruct (AzureKeyConfig k), (VertexKeyConfig k), (BedrockKeyConfig k);
      injection Ha as -> _ _; injection Hv as -> -> ->; injection Hb as -> -> _ _ _ _;
      repeat split; solve [apply Hkept | done].
  - intros Hfind c Hc Hempty.
    assert (ApertusKeyConfig k2 = None ∨ ApertusKeyConfig k2 = apertus_decoded (ApertusEndpoint k1))
      as [Hnone|Hread].
    { apply TableKey_facts.AfterFind_scan in Hfind.
      destruct (models_decoded k1); [|destruct Hfind as [_ [= _ _ _ ->]]; by left].
      destruct (azure_decoded _); [|destruct Hfind as [_ [= _ _ _ ->]]; by left].
      destruct Hfind as (_ & _ & Hfind).
      destruct (bedrock_decoded _); [|destruct Hfind as (_ & _ & ->); by left].
      destruct Hfind as (_ & _ & ->). by right. }
    + congruence.
    + rewrite Hread in Hc. destruct (ApertusEndpoint k1) as [e|]; [|done].
      injection Hc as <-. simpl in Hempty. by subst e.
Qed.

(** *** Loading and saving *)

(** X12.  A stored row with no Azure endpoint loses its other Azure columns
    when it is loaded and saved: [AfterFind] builds no Azure override from it,
    so the next [BeforeSave] writes null into the API version and the
    deployments columns, whatever they held. *)
Theorem load_and_save_erases_unkeyed_azure (row k2 k3 : t) :
  AzureEndpoint row = None →
  AfterFind (scan row) = (k2, Ok tt) →
  BeforeSave k2 = (k3, Ok tt) →
  AzureKeyConfig k2 = None ∧ azure_columns k3 = (None, None, None).
Proof.
  intros Hendpoint Hfind Hsave.
  apply TableKey_facts.AfterFind_scan in Hfind.
  destruct (TableKey_facts.BeforeSave_Ok _ _ Hsave) as (_ & -> & _).
  unfold azure_decoded, azure_columns in Hfind. rewrite Hendpoint in Hfind.
  destruct (models_decoded row); [|by destruct Hfind].
  destruct Hfind as (-> & _). done.
Qed.

Section lawful.
Context `{!JSONLawful (option (list string)), !JSONLawful (option (gmap string string))}.
Context `{!JSONEmptyArray}.

(** What was written is read back with success, whatever the overrides. *)
Lemma azure_decoded_encoded_Ok (v : option schemas.AzureKeyConfig.t) :
  ∃ v', azure_decoded (azure_encoded v) = Ok v'.
Proof.
  destruct v as [[e ver dep]|]; [|by eexists]. unfold azure_encoded, azure_decoded, kept.
  simpl. destruct (nonempty e); [|by eexists].
  destruct dep as [m|]; [|by eexists].
  rewrite TableKey_facts.deployments_round_trip. by eexists.
Qed.

Lemma AfterFind_saved (k k1 : t) :
  BeforeSave k = (k1, Ok tt) →
  ∃ k2 azure,
    AfterFind (scan k1) = (k2, Ok tt)
    ∧ azure_decoded (azure_encoded (AzureKeyConfig k)) = Ok azure
    ∧ overrides k2
      = (azure, normalize vertex_empty (VertexKeyConfig k),
         normalize bedrock_empty (BedrockKeyConfig k),
         apertus_decoded (apertus_encoded (ApertusKeyConfig k))).
Proof.
  intros Hsave.
  destruct (TableKey_facts.BeforeSave_Ok _ _ Hsave) as (Hm & Ha & Hv & Hb & Hp & _).
  destruct (TableKey_facts.models_decoded_encoded _ _ Hm) as [models Hmodels].
  destruct (azure_decoded_encoded_Ok (AzureKeyConfig k)) as [azure Hazure].
  destruct (AfterFind (scan k1)) as [k2 r] eqn:Hfind.
  apply TableKey_facts.AfterFind_scan in Hfind.
  rewrite Hmodels, Ha, Hazure, Hv, Hb, Hp in Hfind.
  rewrite TableKey_facts.vertex_decoded_encoded, TableKey_facts.bedrock_decoded_encoded
    in Hfind.
  destruct Hfind as (Ha' & Hv' & -> & Hb' & Hp').
  exists k2, azure. split; [done|]. split; [done|].
  unfold overrides. by rewrite Ha', Hv', Hb', Hp'.
Qed.

Lemma AfterFind_Models (k k' : t) (r : result unit) (models : option (list string)) :
  AfterFind k = (k', r) → nonempty (ModelsJSON k) = true →
  json_Unmarshal (ModelsJSON k) (Models k) = Ok models → Models k' = models.
Proof.
  intros Hfind Hcolumn Hmodels. unfold_hooks. simpl in Hfind.
  rewrite Hcolumn, Hmodels in Hfind. run_hook Hfind.
  all: by injection Hfind as <- <-.
Qed.

(** X13.  With JSON libraries that encode every value and read back what they
    wrote, the list of models of every row is saved and read back with
    success.  A list that was not nil is read back as it was; a nil list is
    stored as the text of the empty array and read back as the empty list, not
    as nil. *)
Theorem models_round_trip (k : t) :
  ∃ k1 k2,
    BeforeSave k = (k1, Ok tt) ∧ AfterFind (scan k1) = (k2, Ok tt)
    ∧ ModelsJSON k1 ≠ ""
    ∧ (Models k = None → ModelsJSON k1 = "[]")
    ∧ Models k2 = Some (default [] (Models k)).
Proof.
  destruct (TableKey_facts.BeforeSave_total k) as [k1 Hsave].
  destruct (AfterFind_saved _ _ Hsave) as (k2 & _ & Hfind & _).
  exists k1, k2. split; [done|]. split; [done|].
  destruct (TableKey_facts.BeforeSave_Ok _ _ Hsave) as (Hm & _).
  assert (nonempty (ModelsJSON k1) = true
          ∧ json_Unmarshal (ModelsJSON k1) (None : option (list string))
            = Ok (Some (default [] (Models k)))) as [Hcolumn Hread].
  { rewrite Hm. unfold models_encoded. destruct (Models k) as [l|]; simpl.
    - destruct (json_Marshal_total (Some l)) as [s Hs]. rewrite Hs. simpl.
      split; [by apply nonempty_true, (json_Marshal_nonempty _ _ Hs)|].
      by apply json_Unmarshal_Marshal.
    - split; [done|]. apply json_Unmarshal_empty_array. }
  split; [by apply nonempty_true|]. split.
  - intros Hnil. rewrite Hm, Hnil. done.
  - by apply (AfterFind_Models _ _ _ _ Hfind).
Qed.

Lemma encoded_normalize :
  (∀ v, azure_encoded (normalize azure_empty v) = azure_encoded v)
  ∧ (∀ v, vertex_encoded (normalize vertex_empty v) = vertex_encoded v)
  ∧ (∀ v, bedrock_encoded (normalize bedrock_empty v) = bedrock_encoded v)
  ∧ (∀ v, apertus_encoded (apertus_decoded (apertus_encoded v)) = apertus_encoded v).
Proof.
  destruct TableKey_facts.empty_encoded as (Ha & Hv & Hb & _).
  repeat apply conj.
  - intros v. destruct (normalize azure_empty v) eqn:Hn.
    + destruct v as [c|]; [|done]. simpl in Hn. by destruct (azure_empty c); simplify_eq.
    + by rewrite (Ha v Hn).
  - intros v. destruct (normalize vertex_empty v) eqn:Hn.
    + destruct v as [c|]; [|done]. simpl in Hn. by destruct (vertex_empty c); simplify_eq.
    + by rewrite (Hv v Hn).
  - intros v. destruct (normalize bedrock_empty v) eqn:Hn.
    + destruct v as [c|]; [|done]. simpl in Hn. by destruct (bedrock_empty c); simplify_eq.
    + by rewrite (Hb v Hn).
  - intros [[e m]|]; [|done]. unfold apertus_encoded, apertus_decoded, kept. simpl.
    destruct (nonempty e) eqn:He; simpl; by rewrite ?He.
Qed.

Lemma bedrock_deployments_normalize (v : option schemas.BedrockKeyConfig.t) :
  normalize bedrock_empty v ≫= schemas.BedrockKeyConfig.Deployments
  = v ≫= schemas.BedrockKeyConfig.Deployments.
Proof.
  destruct v as [[a s t g n [m|]]|]; [| |done]; unfold bedrock_empty; simpl.
  - by rewrite !andb_false_r.
  - by destruct (negb _ && negb _ && _ && _ && _ && _).
Qed.

(** X14.  With JSON libraries that encode every value and read back what they
    wrote, a row is saved and loaded with success, and saving the loaded row,
    untouched, writes the override columns that the first save wrote, provided
    that the Azure override of the row, if it has one, has an endpoint or no
    field at all.  The Bedrock deployments column is the exception:
    [sonic.Marshal], which may write the members of the deployments in another
    order, is called again, and the column holds what that call returns; if
    that call fails the save fails with its error and the column is as it
    was. *)
Theorem resaving_a_loaded_row
    (again : option (gmap string string) → result string) (k : t) :
  azure_keyed (AzureKeyConfig k) = true →
  ∃ k1 k2,
    BeforeSave k = (k1, Ok tt) ∧ AfterFind (scan k1) = (k2, Ok tt)
    ∧ let resaved := BeforeSave (H0 := sonic_again again) k2 in
      azure_columns resaved.1 = azure_columns k1
      ∧ vertex_columns resaved.1 = vertex_columns k1
      ∧ bedrock_scalars resaved.1 = bedrock_scalars k1
      ∧ ApertusEndpoint resaved.1 = ApertusEndpoint k1
      ∧ match bedrock_deployments k with
        | Some m =>
            match again (Some m) with
            | Ok s => resaved.2 = Ok tt ∧ BedrockDeploymentsJSON resaved.1 = Some s
            | Err e =>
                resaved.2 = Err e
                ∧ BedrockDeploymentsJSON resaved.1 = BedrockDeploymentsJSON k1
            end
        | None =>
            resaved.2 = Ok tt ∧ BedrockDeploymentsJSON resaved.1 = BedrockDeploymentsJSON k1
        end.
Proof.
  intros Hazure.
  destruct (TableKey_facts.BeforeSave_total k) as [k1 Hsave].
  destruct (AfterFind_saved _ _ Hsave) as (k2 & azure & Hfind & Hdecoded & Hoverrides).
  exists k1, k2. do 2 (split; [done|]).
  destruct (AfterFind_columns (scan k1)) as (_ & Fa & Fv & Fb & Fp & _).
  rewrite Hfind in Fa, Fv, Fb, Fp.
  change (azure_columns k2 = azure_columns k1) in Fa.
  change (vertex_columns k2 = vertex_columns k1) in Fv.
  change (bedrock_columns k2 = bedrock_columns k1) in Fb.
  change (ApertusEndpoint k2 = ApertusEndpoint k1) in Fp.
  destruct (TableKey_facts.BeforeSave_Ok _ _ Hsave) as (_ & Ca & Cv & Cb & Cp & _).
  rewrite (TableKey_facts.azure_decoded_encoded _ Hazure) in Hdecoded.
  injection Hdecoded as <-. injection Hoverrides as Oa Ov Ob Op.
  destruct encoded_normalize as (Na & Nv & Nb & Np).
  assert (azure_columns k2 = azure_encoded (AzureKeyConfig k2)) as Ca2.
  { by rewrite Fa, Ca, Oa, Na. }
  assert (vertex_columns k2 = vertex_encoded (VertexKeyConfig k2)) as Cv2.
  { by rewrite Fv, Cv, Ov, Nv. }
  assert (bedrock_scalars k2
          = (bedrock_encoded (H0 := sonic_again again) (BedrockKeyConfig k2)).1) as Cb2.
  { change (bedrock_scalars k2) with (bedrock_columns k2).1.
    rewrite Fb, Cb, <- (Nb (BedrockKeyConfig k)), <- Ob.
    by destruct (BedrockKeyConfig k2) as [[a s t g n [m|]]|]. }
  assert (ApertusEndpoint k2 = apertus_encoded (ApertusKeyConfig k2)) as Cp2.
  { by rewrite Fp, Cp, Op, Np. }
  assert (bedrock_deployments k2 = bedrock_deployments k) as Hdeployments.
  { unfold bedrock_deployments. rewrite Ob. apply bedrock_deployments_normalize. }
  assert (∀ l, Models k2 = Some l → ∃ s, json_Marshal (Some l) = Ok s) as Em.
  { intros l _. apply json_Marshal_total. }
  assert (∀ c m, AzureKeyConfig k2 = Some c → schemas.AzureKeyConfig.Deployments c = Some m →
                 ∃ s, json_Marshal (Some m) = Ok s) as Ea.
  { intros c m _ _. apply json_Marshal_total. }
  rewrite (BeforeSave_written (H0 := sonic_again again) k2 Em Ea Ca2 Cv2 Cb2 Cp2).
  rewrite Hdeployments. cbv zeta. cbn [sonic_Marshal sonic_again].
  assert (bedrock_scalars k2 = bedrock_scalars k1) as Fs.
  { change ((bedrock_columns k2).1 = (bedrock_columns k1).1). by rewrite Fb. }
  assert (BedrockDeploymentsJSON k2 = BedrockDeploymentsJSON k1) as Fd.
  { change ((bedrock_columns k2).2 = (bedrock_columns k1).2). by rewrite Fb. }
  destruct (bedrock_deployments k) as [m|] eqn:Hm;
    [destruct (again (Some m)) as [s|e]|].
  all: split; [exact Fa|]; split; [exact Fv|]; split; [exact Fs|]; split; [exact Fp|].
  - done.
  - split; [done|exact Fd].
  - split; [done|]. simpl.
    assert (BedrockDeploymentsJSON k1 = None) as ->; [|done].
    change (BedrockDeploymentsJSON k1) with (bedrock_columns k1).2. rewrite Cb.
    unfold bedrock_deployments in Hm.
    by destruct (BedrockKeyConfig k) as [[a s t g n [m|]]|].
Qed.

End lawful.

End facts.

(** *** On the sample rows *)

Lemma AfterFind_never_clears_witness :
  AzureEndpoint cases.reused_key = None
  ∧ AzureKeyConfig (AfterFind cases.reused_key).1 = AzureKeyConfig samples.full_key.
Proof.
  split; [reflexivity|].
  apply (proj1 (proj2 (AfterFind_never_clears cases.reused_key))). reflexivity.
Defined.

Lemma BeforeSave_fails_with_its_encoders_witness :
  let saved := BeforeSave (H0 := cases.refusing_sonic) samples.full_key in
  saved.2 = Err (Error "sonic: unsupported value")
  ∧ ApertusEndpoint saved.1 = None
  ∧ is_Some (ApertusKeyConfig saved.1).
Proof.
  intros saved.
  destruct (BeforeSave_fails_with_its_encoders (H0 := cases.refusing_sonic) samples.full_key
              saved.1 saved.2) as (Herr & _ & _ & _ & Hbedrock);
    [apply surjective_pairing|].
  assert (saved.2 = Err (Error "sonic: unsupported value")) as Hsaved.
  { apply Hbedrock.
    - intros e (l & [= <-] & He). discriminate He.
    - intros e (c & m & [= <-] & [= <-] & He). discriminate He.
    - do 2 eexists. split; [reflexivity|]. split; reflexivity. }
  split; [exact Hsaved|]. split; [|vm_compute; by eexists].
  apply (Herr _ Hsaved).
Defined.

Lemma saved_columns_are_null_or_not_empty_witness :
  let saved := (BeforeSave samples.full_key).1 in
  schemas.VertexKeyConfig.Region <$> VertexKeyConfig samples.full_key = Some ""
  ∧ VertexRegion saved ≠ Some "" ∧ ApertusEndpoint saved ≠ Some "".
Proof.
  intros saved. split; [reflexivity|].
  destruct (saved_columns_are_null_or_not_empty samples.full_key saved saved (Ok tt))
    as [(_ & _ & Hregion & _ & _ & _ & Hendpoint) _]; [vm_compute; reflexivity|].
  split; [exact Hregion|exact Hendpoint].
Defined.

Lemma second_save_touches_only_bedrock_deployments_witness :
  let k1 := (BeforeSave cases.two_deployments_key).1 in
  let resaved := BeforeSave (H0 := sonic_again cases.reversing_sonic) k1 in
  resaved.2 = Ok tt
  ∧ BedrockDeploymentsJSON resaved.1 ≠ BedrockDeploymentsJSON k1
  ∧ set_BedrockDeploymentsJSON (BedrockDeploymentsJSON k1) resaved.1 = k1.
Proof.
  intros k1 resaved.
  assert (BeforeSave cases.two_deployments_key = (k1, Ok tt)) as Hsave.
  { vm_compute. reflexivity. }
  pose proof (second_save_touches_only_bedrock_deployments cases.reversing_sonic cases.two_deployments_key k1 Hsave)
    as Hagain.
  subst resaved. rewrite Hagain. vm_compute.
  split; [reflexivity|]. split; [discriminate|reflexivity].
Defined.

Lemma load_and_save_erases_unkeyed_azure_witness :
  let loaded := (AfterFind (scan samples.azure_version_row)).1 in
  AzureAPIVersion samples.azure_version_row = Some "2024-02-01"
  ∧ AzureKeyConfig loaded = None
  ∧ azure_columns (BeforeSave loaded).1 = (None, None, None).
Proof.
  intros loaded. split; [reflexivity|].
  apply (load_and_save_erases_unkeyed_azure samples.azure_version_row loaded
           (BeforeSave loaded).1); [reflexivity|vm_compute; reflexivity..].
Defined.

Lemma models_round_trip_witness :
  ∃ k1 k2,
    BeforeSave samples.blank_key = (k1, Ok tt) ∧ AfterFind (scan k1) = (k2, Ok tt)
    ∧ ModelsJSON k1 = "[]" ∧ Models samples.blank_key = None ∧ Models k2 = Some [].
Proof.
  destruct (models_round_trip samples.blank_key) as (k1 & k2 & Hsave & Hfind & _ & Hnil & Hm).
  exists k1, k2. split; [exact Hsave|]. split; [exact Hfind|].
  split; [apply Hnil; reflexivity|]. split; [reflexivity|exact Hm].
Defined.

Lemma resaving_a_loaded_row_witness :
  ∃ k1 k2,
    BeforeSave cases.two_deployments_key = (k1, Ok tt) ∧ AfterFind (scan k1) = (k2, Ok tt)
    ∧ let resaved := BeforeSave (H0 := sonic_again cases.reversing_sonic) k2 in
      resaved.2 = Ok tt
      ∧ bedrock_scalars resaved.1 = bedrock_scalars k1
      ∧ BedrockDeploymentsJSON resaved.1
        = Some (text (cases.reversing_sonic (bedrock_deployments cases.two_deployments_key))).
Proof.
  destruct (resaving_a_loaded_row cases.reversing_sonic cases.two_deployments_key eq_refl)
    as (k1 & k2 & Hsave & Hfind & _ & _ & Hb & _ & Hd).
  exists k1, k2. split; [exact Hsave|]. split; [exact Hfind|].
  split; [exact (proj1 Hd)|]. split; [exact Hb|exact (proj2 Hd)].
Defined.

End TableKey_more.

(** ** More on the Apertus provider *)

(** Slashes appended to a string are trimmed with its own. *)
Lemma TrimRight_slash_app (s slashes : string) :
  only_slashes slashes = true → TrimRight_slash (s +:+ slashes) = TrimRight_slash s.
Proof.
  intros Hslashes. induction s as [|c s IH].
  - by apply TrimRight_slash_empty.
  - change (String c s +:+ slashes) with (String c (s +:+ slashes)).
    simpl. by rewrite IH.
Qed.

Module apertus_more.
Import schemas apertus entry_points.

Section facts.
Context {ContextT CustomProviderConfigT PostHookRunnerT : Type}.
Context (CheckAndSetDefaults :
           ProviderConfig.t CustomProviderConfigT → ProviderConfig.t CustomProviderConfigT).
Context (CheckOperationAllowed :
           ModelProvider → option CustomProviderConfigT → RequestType → option BifrostError.t).
Context (GetProviderName : ModelProvider → option CustomProviderConfigT → ModelProvider).
Context (GetRequestPath :
           ContextT → string → option CustomProviderConfigT → RequestType → string).
Context (ShouldSendBackRawResponse : ContextT → bool → bool).
Context (HandleOpenAIRequest : @HandlerCall ContextT → Reply).
Context (HandleOpenAIStreaming : @HandlerCall ContextT → PostHookRunnerT → StreamReply).
Context (OpenAIProvider : @DelegateCall ContextT CustomProviderConfigT → Reply).
Context (OpenAIProviderStream :
           @DelegateCall ContextT CustomProviderConfigT → PostHookRunnerT → StreamReply).

Abbreviation Provider := (@ApertusProvider CustomProviderConfigT).

Abbreviation run := (invoke CheckOperationAllowed GetProviderName GetRequestPath
                 ShouldSendBackRawResponse HandleOpenAIRequest HandleOpenAIStreaming
                 OpenAIProvider OpenAIProviderStream).

Ltac unfold_entry :=
  unfold invoke, ListModels, TextCompletion, TextCompletionStream, ChatCompletion,
    ChatCompletionStream, Responses, ResponsesStream, Embedding, Speech, SpeechStream,
    Transcription, TranscriptionStream, dispatch, dispatchStream, delegated, delegatedStream,
    checkOperationAllowed, handle, handleStreaming, delegate, delegateStream;
  unfold mbind, io_bind, mret, io_ret.

(** *** The base URL *)

(** X15.  Whatever the configuration and the key, the default base URL of a
    provider built by [NewApertusProvider] does not end with a slash, and
    neither does the effective base URL of any key.  The other network
    settings, the raw response flag and the custom configuration of the
    provider are those of the configuration once its defaults are set. *)
Theorem base_URL_has_no_trailing_slash (config : ProviderConfig.t CustomProviderConfigT)
    (key : Key.t) :
  let provider := NewApertusProvider CheckAndSetDefaults config in
  let defaults := CheckAndSetDefaults config in
  ends_with_slash (NetworkConfig.BaseURL (networkConfig provider)) = false
  ∧ ends_with_slash (getBaseURL provider key) = false
  ∧ (∀ baseURL, with_BaseURL baseURL (networkConfig provider)
                = with_BaseURL baseURL (ProviderConfig.NetworkConfig defaults))
  ∧ sendBackRawResponse provider = ProviderConfig.SendBackRawResponse defaults
  ∧ customProviderConfig provider = ProviderConfig.CustomProviderConfig defaults.
Proof.
  intros provider defaults.
  assert (ends_with_slash (NetworkConfig.BaseURL (networkConfig provider)) = false)
    as Hdefault.
  { unfold provider, NewApertusProvider. simpl. apply TrimRight_slash_trimmed. }
  split; [done|]. split.
  - unfold getBaseURL. destruct (Key.ApertusKeyConfig key) as [c|]; [|done].
    destruct (nonempty (ApertusKeyConfig.Endpoint c)); [|done].
    apply TrimRight_slash_trimmed.
  - unfold provider, NewApertusProvider. fold defaults. simpl.
    by destruct (nonempty (NetworkConfig.BaseURL (ProviderConfig.NetworkConfig defaults))).
Qed.

(** X16.  Trailing slashes do not matter.  Two keys whose endpoints differ
    by trailing slashes only have the same effective base URL, provided the
    shorter endpoint is not empty; and two configurations whose base URLs,
    once the defaults are set, differ by trailing slashes only give providers
    with the same default base URL, provided the shorter one is not empty. *)
Theorem trailing_slashes_do_not_matter (slashes : string) :
  only_slashes slashes = true →
  (∀ (provider : Provider) (key key' : Key.t) (c c' : ApertusKeyConfig.t),
     Key.ApertusKeyConfig key = Some c → Key.ApertusKeyConfig key' = Some c' →
     ApertusKeyConfig.Endpoint c ≠ "" →
     ApertusKeyConfig.Endpoint c' = ApertusKeyConfig.Endpoint c +:+ slashes →
     getBaseURL provider key' = getBaseURL provider key)
  ∧ (∀ config config' : ProviderConfig.t CustomProviderConfigT,
       let configured c :=
         NetworkConfig.BaseURL (ProviderConfig.NetworkConfig (CheckAndSetDefaults c)) in
       configured config ≠ "" →
       configured config' = configured config +:+ slashes →
       NetworkConfig.BaseURL (networkConfig (NewApertusProvider CheckAndSetDefaults config'))
       = NetworkConfig.BaseURL (networkConfig (NewApertusProvider CheckAndSetDefaults config))).
Proof.
  intros Hslashes.
  assert (∀ s, s ≠ "" → nonempty (s +:+ slashes) = true) as Hlonger.
  { intros [|c s] Hs; [done|]. done. }
  split.
  - intros provider key key' c c' Hc Hc' Hendpoint Hlong. unfold getBaseURL.
    rewrite Hc, Hc', Hlong, (Hlonger _ Hendpoint).
    apply nonempty_true in Hendpoint as ->. by apply TrimRight_slash_app.
  - intros config config' configured Hbase Hlong.
    assert (∀ c, NetworkConfig.BaseURL
                   (networkConfig (NewApertusProvider CheckAndSetDefaults c))
                 = TrimRight_slash (if nonempty (configured c) then configured c
                                    else "https://api.openai.com")) as Hnew.
    { intros c. unfold NewApertusProvider, configured. by destruct (nonempty _). }
    rewrite !Hnew, Hlong, (Hlonger _ Hbase). apply nonempty_true in Hbase as ->.
    by apply TrimRight_slash_app.
Qed.

(** *** What the collaborators are given, and what is made of their reply *)

(** X17.  When the gate lets it through, a text completion, a chat
    completion, a responses request (blocking or streaming) or an embedding is
    handed to the handler of its own kind with the context and the request as
    they were received, the extra headers and the identity of the provider, and
    the raw response flag as [ShouldSendBackRawResponse] decides it.  A blocking
    entry point hands over the key itself; a streaming one hands over a single
    header, [Authorization], made of [Bearer] and the value of the key.  What
    the handler returns is returned as it is. *)
Theorem handler_call_and_reply (provider : Provider) (operation : RequestType) (ctx : ContextT)
    (postHookRunner : PostHookRunnerT) (keys : list Key.t) (key : Key.t)
    (request : BifrostRequest.t) :
  let gate := CallCheckOperationAllowed Apertus (customProviderConfig provider) operation in
  let result := run provider operation ctx postHookRunner keys key request in
  CheckOperationAllowed Apertus (customProviderConfig provider) operation = None →
  handled operation = true →
  ∃ c, result.1 = [gate; CallHandler c]
       ∧ shared_handler operation = Some (handler c)
       ∧ apertus.ctx c = ctx
       ∧ apertus.request c = request
       ∧ credential c
         = (if streaming operation
            then WithHeaders {[ "Authorization" := "Bearer " +:+ Key.Value key ]}
            else WithKey key)
       ∧ extraHeaders c = NetworkConfig.ExtraHeaders (networkConfig provider)
       ∧ sendBackRawResponse_arg c
         = ShouldSendBackRawResponse ctx (sendBackRawResponse provider)
       ∧ providerName c = GetProviderKey GetProviderName provider
       ∧ result.2
         = (if streaming operation then Streamed (HandleOpenAIStreaming c postHookRunner)
            else Replied (HandleOpenAIRequest c)).
Proof.
  intros gate result Hgate Hkind. subst gate result.
  destruct operation; try discriminate Hkind; unfold_entry; simpl; rewrite Hgate; simpl;
    eexists; (split; [reflexivity|]); repeat split.
Qed.

(** X18.  When the gate lets it through, a speech or a transcription request
    (blocking or streaming) is handed to a temporary OpenAI provider with the
    context, the key and the request as they were received.  The network
    configuration of that provider is the one of this provider with the
    effective base URL of the key as its base URL, so it is the one of this
    provider for a key without endpoint; its raw response flag is the one of
    this provider.  A streaming entry point returns what the temporary provider
    returns, as it is. *)
Theorem delegate_call_and_stream (provider : Provider) (operation : RequestType)
    (ctx : ContextT) (postHookRunner : PostHookRunnerT) (keys : list Key.t) (key : Key.t)
    (request : BifrostRequest.t) :
  let gate := CallCheckOperationAllowed Apertus (customProviderConfig provider) operation in
  let result := run provider operation ctx postHookRunner keys key request in
  CheckOperationAllowed Apertus (customProviderConfig provider) operation = None →
  delegated_operation operation = true →
  ∃ c, result.1 = [gate; CallOpenAIProvider c]
       ∧ delegate_ctx c = ctx ∧ delegate_key c = key ∧ delegate_request c = request
       ∧ ProviderConfig.NetworkConfig (tempConfig c)
         = with_BaseURL (getBaseURL provider key) (networkConfig provider)
       ∧ ProviderConfig.SendBackRawResponse (tempConfig c) = sendBackRawResponse provider
       ∧ ((Key.ApertusKeyConfig key = None
           ∨ ∃ o, Key.ApertusKeyConfig key = Some o ∧ ApertusKeyConfig.Endpoint o = "") →
          ProviderConfig.NetworkConfig (tempConfig c) = networkConfig provider)
       ∧ (streaming operation = true →
          result.2 = Streamed (OpenAIProviderStream c postHookRunner)).
Proof.
  intros gate result Hgate Hkind. subst gate result.
  assert ((Key.ApertusKeyConfig key = None
           ∨ ∃ o, Key.ApertusKeyConfig key = Some o ∧ ApertusKeyConfig.Endpoint o = "") →
          ProviderConfig.NetworkConfig (temporaryConfig provider key)
          = networkConfig provider) as Hplain.
  { intros Hkey. unfold temporaryConfig, getBaseURL. simpl.
    destruct Hkey as [->|(o & -> & ->)]; simpl; by destruct (networkConfig provider). }
  destruct operation; try discriminate Hkind; unfold_entry; simpl; rewrite Hgate; simpl;
    try (destruct (OpenAIProvider _) as [[?|] [?|]]; simpl);
    eexists; (split; [reflexivity|]); simpl; repeat split; try done.
Qed.

(** X19.  When the gate lets it through, a blocking speech or transcription
    request returns the reply of the temporary OpenAI provider with the
    identity of this provider written over the one it reported.  An error is
    returned alone, even when a response came with it, with its message and its
    request type as they were; a response is returned with its payload, its
    request type and its latency as they were; no response and no error are
    returned as such. *)
Theorem blocking_delegate_reply (provider : Provider) (operation : RequestType)
    (ctx : ContextT) (postHookRunner : PostHookRunnerT) (keys : list Key.t) (key : Key.t)
    (request : BifrostRequest.t) :
  let c := {| method := operation; tempConfig := temporaryConfig provider key;
              delegate_ctx := ctx; delegate_key := key; delegate_request := request |} in
  let name := GetProviderKey GetProviderName provider in
  let result := run provider operation ctx postHookRunner keys key request in
  CheckOperationAllowed Apertus (customProviderConfig provider) operation = None →
  operation = SpeechRequest ∨ operation = TranscriptionRequest →
  (∀ response err,
     OpenAIProvider c = (response, Some err) →
     ∃ err', result.2 = Replied (None, Some err')
             ∧ BifrostError.Message err' = BifrostError.Message err
             ∧ BifrostErrorExtraFields.RequestType (BifrostError.ExtraFields err')
               = BifrostErrorExtraFields.RequestType (BifrostError.ExtraFields err)
             ∧ BifrostErrorExtraFields.Provider (BifrostError.ExtraFields err') = name)
  ∧ (∀ response,
       OpenAIProvider c = (Some response, None) →
       ∃ response', result.2 = Replied (Some response', None)
                    ∧ BifrostResponse.Output response' = BifrostResponse.Output response
                    ∧ BifrostResponseExtraFields.RequestType
                        (BifrostResponse.ExtraFields response')
                      = BifrostResponseExtraFields.RequestType
                          (BifrostResponse.ExtraFields response)
                    ∧ BifrostResponseExtraFields.Latency
                        (BifrostResponse.ExtraFields response')
                      = BifrostResponseExtraFields.Latency
                          (BifrostResponse.ExtraFields response)
                    ∧ BifrostResponseExtraFields.Provider
                        (BifrostResponse.ExtraFields response') = name)
  ∧ (OpenAIProvider c = (None, None) → result.2 = Replied (None, None)).
Proof.
  intros c name result Hgate Hkind. subst result.
  destruct Hkind as [-> | ->]; unfold_entry; simpl; rewrite Hgate; simpl; fold c.
  all: repeat apply conj.
  all: try (intros response err Hreply; rewrite Hreply; destruct response; simpl; eexists;
            (split; [reflexivity|]); by repeat split).
  all: try (intros response Hreply; rewrite Hreply; simpl; eexists;
            (split; [reflexivity|]); by repeat split).
  all: intros Hreply; by rewrite Hreply.
Qed.

(** *** Listing the models *)

Lemma listed_models (keys : list Key.t) :
  NoDup (map_to_list (collectModels keys)).*1
  ∧ ∀ m, m ∈ (map_to_list (collectModels keys)).*1 ↔ m ∈ keys ≫= Key.Models.
Proof.
  split; [apply NoDup_fst_map_to_list|].
  intros m.
  rewrite (apertus_facts.collectModels_elem CheckOperationAllowed GetProviderName),
    list_elem_of_bind.
  split; intros (key & ? & ?); by exists key.
Qed.

(** X20.  When the gate lets it through, the listing holds one descriptor per
    distinct model name found in the lists of the keys: as many as there are
    distinct names, none when the keys list no model (the call still
    succeeds).  Every descriptor is owned by [system] and the request type of
    the metadata is the listing.  The listing depends on the set of the model
    names only: key lists with the same names, in whatever order and with
    whatever repetitions, are listed with the same identifiers, up to their
    order. *)
Theorem ListModels_one_descriptor_per_model (provider : Provider) (ctx : ContextT)
    (keys : list Key.t) :
  CheckOperationAllowed Apertus (customProviderConfig provider) ListModelsRequest = None →
  ∃ response,
    (ListModels CheckOperationAllowed GetProviderName provider ctx keys).2
    = (Some response, None)
    ∧ BifrostResponseExtraFields.RequestType (BifrostListModelsResponse.ExtraFields response)
      = ListModelsRequest
    ∧ (∀ m, m ∈ BifrostListModelsResponse.Data response → Model.OwnedBy m = Some "system")
    ∧ length (BifrostListModelsResponse.Data response)
      = length (remove_dups (keys ≫= Key.Models))
    ∧ ((∀ key, key ∈ keys → Key.Models key = []) →
       BifrostListModelsResponse.Data response = [])
    ∧ (∀ keys' response',
         (∀ m, m ∈ keys' ≫= Key.Models ↔ m ∈ keys ≫= Key.Models) →
         (ListModels CheckOperationAllowed GetProviderName provider ctx keys').2
         = (Some response', None) →
         Model.ID <$> BifrostListModelsResponse.Data response'
         ≡ₚ Model.ID <$> BifrostListModelsResponse.Data response).
Proof.
  intros Hgate. unfold ListModels. unfold_entry. simpl. rewrite Hgate. simpl.
  eexists. split; [reflexivity|]. simpl.
  destruct (listed_models keys) as [Hnodup Helem].
  split; [done|]. split; [|split; [|split]].
  - intros m (model & -> & _)%list_elem_of_fmap. done.
  - rewrite length_fmap. apply Permutation_length, NoDup_Permutation; [done| |].
    + apply NoDup_remove_dups.
    + intros m. by rewrite Helem, elem_of_remove_dups.
  - intros Hnone.
    match goal with |- _ <$> ?l = [] => destruct l as [|m models] eqn:Hmodels end; [done|].
    exfalso. assert (m ∈ keys ≫= Key.Models) as Hm.
    { apply Helem. by left. }
    apply list_elem_of_bind in Hm as (key & Hm & Hkey).
    rewrite (Hnone key Hkey) in Hm. by apply elem_of_nil in Hm.
  - intros keys' response' Hsame [= <-]. simpl.
    destruct (listed_models keys') as [Hnodup' Helem'].
    rewrite <- !(list_fmap_compose _ Model.ID).
    apply fmap_Permutation, NoDup_Permutation; [done..|].
    intros m. by rewrite Helem, Helem', Hsame.
Qed.

End facts.

(** *** On the sample requests *)

Abbreviation sample_run OpenAIProvider :=
  (apertus.invoke (PostHookRunnerT := unit) providerUtils.CheckOperationAllowed
     providerUtils.GetProviderName providerUtils.GetRequestPath
     providerUtils.ShouldSendBackRawResponse samples.answering_handler
     samples.answering_stream OpenAIProvider samples.streaming_openai).

Lemma trailing_slashes_do_not_matter_witness :
  getBaseURL (samples.provider "" None) (cases.endpoint_key "https://custom.example.com//")
  = getBaseURL (samples.provider "" None) (cases.endpoint_key "https://custom.example.com").
Proof.
  refine (proj1 (trailing_slashes_do_not_matter providerUtils.CheckAndSetDefaults "//" eq_refl)
            (samples.provider "" None) (cases.endpoint_key "https://custom.example.com")
            (cases.endpoint_key "https://custom.example.com//")
            (ApertusKeyConfig.mk "https://custom.example.com" None)
            (ApertusKeyConfig.mk "https://custom.example.com//" None)
            eq_refl eq_refl _ eq_refl).
  discriminate.
Defined.

Lemma handler_call_and_reply_witness :
  ∃ c, (sample_run samples.refused_openai (samples.provider "" None)
          ChatCompletionStreamRequest tt tt [] samples.custom_key (samples.chat "gpt-4")).1
       = [CallCheckOperationAllowed Apertus None ChatCompletionStreamRequest; CallHandler c]
       ∧ handler c = HandleOpenAIChatCompletionStreaming
       ∧ credential c = WithHeaders {[ "Authorization" := "Bearer sk-xxxxx" ]}
       ∧ request c = samples.chat "gpt-4".
Proof.
  destruct (handler_call_and_reply providerUtils.CheckOperationAllowed
              providerUtils.GetProviderName providerUtils.GetRequestPath
              providerUtils.ShouldSendBackRawResponse samples.answering_handler
              samples.answering_stream samples.refused_openai samples.streaming_openai
              (samples.provider "" None) ChatCompletionStreamRequest tt tt []
              samples.custom_key (samples.chat "gpt-4") eq_refl eq_refl)
    as (c & Hcalls & Hhandler & _ & Hrequest & Hcredential & _).
  exists c. split; [exact Hcalls|]. split; [by injection Hhandler|].
  split; [exact Hcredential|exact Hrequest].
Defined.

Lemma delegate_call_and_stream_witness :
  ∃ c, (sample_run samples.refused_openai (samples.provider "" None) SpeechStreamRequest tt tt
          [] samples.plain_key (samples.chat "tts-1")).1
       = [CallCheckOperationAllowed Apertus None SpeechStreamRequest; CallOpenAIProvider c]
       ∧ ProviderConfig.NetworkConfig (tempConfig c)
         = networkConfig (samples.provider "" None)
       ∧ (sample_run samples.refused_openai (samples.provider "" None) SpeechStreamRequest tt
            tt [] samples.plain_key (samples.chat "tts-1")).2
         = Streamed (samples.streaming_openai c tt).
Proof.
  destruct (delegate_call_and_stream providerUtils.CheckOperationAllowed
              providerUtils.GetProviderName providerUtils.GetRequestPath
              providerUtils.ShouldSendBackRawResponse samples.answering_handler
              samples.answering_stream samples.refused_openai samples.streaming_openai
              (samples.provider "" None) SpeechStreamRequest tt tt []
              samples.plain_key (samples.chat "tts-1") eq_refl eq_refl)
    as (c & Hcalls & _ & _ & _ & _ & _ & Hplain & Hstream).
  exists c. split; [exact Hcalls|]. split; [apply Hplain; by left|by apply Hstream].
Defined.

Lemma blocking_delegate_reply_witness :
  ∃ response,
    (sample_run cases.answering_openai (samples.provider "" None) SpeechRequest tt tt []
       samples.custom_key (samples.chat "tts-1")).2
    = Replied (Some response, None)
    ∧ BifrostResponse.Output response = "audio"
    ∧ BifrostResponseExtraFields.Provider (BifrostResponse.ExtraFields response) = "apertus".
Proof.
  destruct (proj1 (proj2 (blocking_delegate_reply providerUtils.CheckOperationAllowed
                            providerUtils.GetProviderName providerUtils.GetRequestPath
                            providerUtils.ShouldSendBackRawResponse samples.answering_handler
                            samples.answering_stream cases.answering_openai
                            samples.streaming_openai (samples.provider "" None)
                            SpeechRequest tt tt [] samples.custom_key (samples.chat "tts-1")
                            eq_refl (or_introl eq_refl))) _ eq_refl)
    as (response & Hreply & Houtput & _ & _ & Hprovider).
  exists response. split; [exact Hreply|]. split; [exact Houtput|exact Hprovider].
Defined.

Lemma ListModels_one_descriptor_per_model_witness :
  ∃ response,
    (ListModels providerUtils.CheckOperationAllowed providerUtils.GetProviderName
       (samples.provider "" None) tt
       [cases.endpoint_key "https://custom.example.com"; samples.plain_key]).2
    = (Some response, None)
    ∧ length (BifrostListModelsResponse.Data response) = 1.
Proof.
  destruct (ListModels_one_descriptor_per_model providerUtils.CheckOperationAllowed
              providerUtils.GetProviderName (samples.provider "" None) tt
              [cases.endpoint_key "https://custom.example.com"; samples.plain_key] eq_refl)
    as (response & Hrun & _ & _ & Hlength & _).
  exists response. split; [exact Hrun|]. rewrite Hlength. vm_compute. reflexivity.
Defined.

End apertus_more.

(** ** The earlier revision of the provider *)

Module providers_facts.
Import schemas apertus entry_points.

Section facts.
Context {ContextT CustomProviderConfigT PostHookRunnerT : Type}.
Context (CheckOperationAllowed :
           ModelProvider → option CustomProviderConfigT → RequestType → option BifrostError.t).
Context (GetProviderName : ModelProvider → option CustomProviderConfigT → ModelProvider).
Context (GetRequestPath :
           ContextT → string → option CustomProviderConfigT → RequestType → string).
Context (ShouldSendBackRawResponse : ContextT → bool → bool).
Context (HandleOpenAIRequest : @HandlerCall ContextT → Reply).
Context (HandleOpenAIStreaming : @HandlerCall ContextT → PostHookRunnerT → StreamReply).
Context (OpenAIProvider : @DelegateCall ContextT CustomProviderConfigT → Reply).
Context (OpenAIProviderStream :
           @DelegateCall ContextT CustomProviderConfigT → PostHookRunnerT → StreamReply).

Abbreviation Provider := (@ApertusProvider CustomProviderConfigT).

Abbreviation now := (apertus.invoke CheckOperationAllowed GetProviderName GetRequestPath
                 ShouldSendBackRawResponse HandleOpenAIRequest HandleOpenAIStreaming
                 OpenAIProvider OpenAIProviderStream).

Abbreviation before := (providers.invoke CheckOperationAllowed GetProviderName
                    HandleOpenAIRequest HandleOpenAIStreaming OpenAIProvider
                    OpenAIProviderStream).

Ltac unfold_entry :=
  unfold apertus.invoke, providers.invoke, apertus.ListModels, providers.ListModels,
    apertus.TextCompletion, apertus.TextCompletionStream, apertus.ChatCompletion,
    apertus.ChatCompletionStream, apertus.Responses, apertus.ResponsesStream,
    apertus.Embedding, providers.TextCompletion, providers.TextCompletionStream,
    providers.ChatCompletion, providers.ChatCompletionStream, providers.Responses,
    providers.ResponsesStream, providers.Embedding, Speech, SpeechStream,
    Transcription, TranscriptionStream, apertus.dispatch, apertus.dispatchStream,
    providers.dispatch, providers.dispatchStream, delegated, delegatedStream,
    checkOperationAllowed, handle, handleStreaming, delegate, delegateStream,
    buildRequestURL;
  unfold mbind, io_bind, mret, io_ret.

(** X21.  In the earlier revision a request handed to a shared handler goes
    to the effective base URL of the key followed by the fixed path of its
    request type, with the raw response flag of the provider: neither the
    custom configuration nor the context bears on them.  The provider as it is
    now makes the same calls and returns the same outcome as the earlier
    revision, for every request type but the listing, whenever
    [GetRequestPath] yields the fixed path and [ShouldSendBackRawResponse]
    yields the flag of the provider. *)
Theorem revision_agrees_without_overrides (provider : Provider) (operation : RequestType)
    (ctx : ContextT) (postHookRunner : PostHookRunnerT) (keys : list Key.t) (key : Key.t)
    (request : BifrostRequest.t) :
  (∀ c, CallHandler c ∈ (before provider operation ctx postHookRunner keys key request).1 →
        url c = getBaseURL provider key +:+ suffix operation
        ∧ sendBackRawResponse_arg c = sendBackRawResponse provider)
  ∧ (operation ≠ ListModelsRequest →
     GetRequestPath ctx (suffix operation) (customProviderConfig provider) operation
     = suffix operation →
     ShouldSendBackRawResponse ctx (sendBackRawResponse provider)
     = sendBackRawResponse provider →
     now provider operation ctx postHookRunner keys key request
     = before provider operation ctx postHookRunner keys key request).
Proof.
  split.
  - intros c. destruct operation; unfold_entry; simpl;
      destruct (CheckOperationAllowed _ _ _); simpl;
      try (destruct (OpenAIProvider _) as [[?|] [?|]]; simpl);
      rewrite ?elem_of_cons, ?elem_of_nil; intros Hc; destruct_or?; try done;
      by simplify_eq.
  - intros Hlisting Hpath Hflag.
    destruct operation; try done; unfold_entry; simpl in *;
      destruct (CheckOperationAllowed _ _ _); simpl; try done;
      by rewrite ?Hpath, ?Hflag.
Qed.

(** X22.  The listing of the earlier revision makes the same call to the
    gate and returns the same error or the same metadata as the listing does
    now.  Its descriptors have no owner and their identifiers are the bare
    model names of the keys; the identifiers listed now are those, each behind
    the identity of the provider and a slash. *)
Theorem revision_lists_bare_names (provider : Provider) (ctx : ContextT) (keys : list Key.t) :
  let earlier := providers.ListModels CheckOperationAllowed GetProviderName provider ctx keys in
  let current := apertus.ListModels CheckOperationAllowed GetProviderName provider ctx keys in
  let name := GetProviderKey GetProviderName provider in
  current.1 = earlier.1
  ∧ current.2.2 = earlier.2.2
  ∧ (∀ response,
       earlier.2.1 = Some response →
       (∀ m, m ∈ BifrostListModelsResponse.Data response → Model.OwnedBy m = None)
       ∧ (∀ id, id ∈ Model.ID <$> BifrostListModelsResponse.Data response
                ↔ ∃ key, key ∈ keys ∧ id ∈ Key.Models key)
       ∧ ∃ response',
           current.2.1 = Some response'
           ∧ BifrostListModelsResponse.ExtraFields response'
             = BifrostListModelsResponse.ExtraFields response
           ∧ Model.ID <$> BifrostListModelsResponse.Data response'
             ≡ₚ (λ id, name +:+ "/" +:+ id)
                <$> (Model.ID <$> BifrostListModelsResponse.Data response)).
Proof.
  intros earlier current name. subst earlier current.
  unfold_entry. simpl. destruct (CheckOperationAllowed _ _ _); simpl; [done|].
  split; [done|]. split; [done|]. intros response [= <-]. simpl.
  assert (∀ models : list string,
            Model.ID <$> ((λ model, {| Model.ID := model; Model.OwnedBy := None |}) <$> models)
            = models) as Hbare.
  { intros models. rewrite <- list_fmap_compose. by induction models; simpl; f_equal. }
  split; [|split].
  - intros m (model & -> & _)%list_elem_of_fmap. done.
  - intros id. rewrite Hbare.
    apply (apertus_facts.collectModels_elem CheckOperationAllowed GetProviderName).
  - eexists. split; [reflexivity|]. split; [done|]. simpl.
    by rewrite Hbare, <- (list_fmap_compose _ Model.ID).
Qed.

End facts.

(** *** On a sample request *)

Lemma revision_agrees_without_overrides_witness :
  samples.invoke (samples.provider "" None) ChatCompletionRequest tt tt [] samples.custom_key
    (samples.chat "gpt-4")
  = providers.invoke providerUtils.CheckOperationAllowed providerUtils.GetProviderName
      samples.answering_handler samples.answering_stream samples.refused_openai
      samples.streaming_openai (samples.provider "" None) ChatCompletionRequest tt tt []
      samples.custom_key (samples.chat "gpt-4").
Proof.
  apply (proj2 (revision_agrees_without_overrides providerUtils.CheckOperationAllowed
                  providerUtils.GetProviderName providerUtils.GetRequestPath
                  providerUtils.ShouldSendBackRawResponse samples.answering_handler
                  samples.answering_stream samples.refused_openai samples.streaming_openai
                  (samples.provider "" None) ChatCompletionRequest tt tt []
                  samples.custom_key (samples.chat "gpt-4")));
    [discriminate|reflexivity|reflexivity].
Defined.

Lemma revision_lists_bare_names_witness :
  ∃ response,
    (providers.ListModels providerUtils.CheckOperationAllowed providerUtils.GetProviderName
       (samples.provider "" None) tt [samples.plain_key]).2.1 = Some response
    ∧ Model.ID <$> BifrostListModelsResponse.Data response = ["gpt-4"]
    ∧ ∃ response',
        (ListModels providerUtils.CheckOperationAllowed providerUtils.GetProviderName
           (samples.provider "" None) tt [samples.plain_key]).2.1 = Some response'
        ∧ Model.ID <$> BifrostListModelsResponse.Data response' ≡ₚ ["apertus/gpt-4"].
Proof.
  eexists. split; [vm_compute; reflexivity|]. split; [vm_compute; reflexivity|].
  destruct (proj2 (proj2 (revision_lists_bare_names providerUtils.CheckOperationAllowed
                            providerUtils.GetProviderName (samples.provider "" None) tt
                            [samples.plain_key])) _ eq_refl)
    as (_ & _ & response' & Hcurrent & _ & Hids).
  exists response'. split; [exact Hcurrent|]. exact Hids.
Defined.

End providers_facts.

(** ** Stored keys at work *)

Module stored_keys.
Import schemas.

Section facts.
Context `{JSON (option (list string)), JSON (option (gmap string string))}.
Context {CustomProviderConfigT : Type}.

(** X23.  Storing the override of a key and reading it back does not change
    where its requests go.  Let a row hold the Apertus override of a key; once
    the row is saved and read back, with success, a key that holds the override
    read back has the effective base URL of the key as it was, for every
    provider: an endpoint is stored as it is, trailing slashes included, and an
    override without endpoint, stored as a null column and read back as no
    override at all, resolves to the default of the provider either way. *)
Theorem stored_key_resolves_alike (provider : @apertus.ApertusProvider CustomProviderConfigT)
    (key key' : Key.t) (k k1 k2 : tables.TableKey.t) :
  tables.TableKey.ApertusKeyConfig k = Key.ApertusKeyConfig key →
  tables.TableKey.BeforeSave k = (k1, Ok tt) →
  tables.TableKey.AfterFind (tables.TableKey.scan k1) = (k2, Ok tt) →
  Key.ApertusKeyConfig key' = tables.TableKey.ApertusKeyConfig k2 →
  apertus.getBaseURL provider key' = apertus.getBaseURL provider key
  ∧ tables.TableKey.ApertusEndpoint k1
    = (if nonempty (default "" (ApertusKeyConfig.Endpoint <$> Key.ApertusKeyConfig key))
       then ApertusKeyConfig.Endpoint <$> Key.ApertusKeyConfig key else None).
Proof.
  intros Hkey Hsave Hfind Hkey'.
  destruct (TableKey_facts.BeforeSave_Ok _ _ Hsave) as (_ & _ & _ & _ & Hcolumn & _).
  apply TableKey_facts.AfterFind_scan in Hfind.
  destruct (tables.TableKey.models_decoded k1); [|by destruct Hfind].
  destruct (tables.TableKey.azure_decoded _); [|by destruct Hfind].
  destruct Hfind as (_ & _ & Hfind).
  destruct (tables.TableKey.bedrock_decoded _); [|by destruct Hfind].
  destruct Hfind as (_ & _ & Hread).
  rewrite Hcolumn, Hkey in *. unfold apertus.getBaseURL. rewrite Hkey', Hread.
  unfold tables.TableKey.apertus_encoded, tables.TableKey.apertus_decoded,
    tables.TableKey.kept.
  destruct (Key.ApertusKeyConfig key) as [[endpoint mappings]|]; simpl; [|done].
  destruct (nonempty endpoint) eqn:Hendpoint; simpl; by rewrite ?Hendpoint.
Qed.

End facts.

Lemma stored_key_resolves_alike_witness :
  let k := tables.TableKey.set_ApertusKeyConfig (Key.ApertusKeyConfig samples.custom_key)
             samples.blank_key in
  let k1 := (tables.TableKey.BeforeSave k).1 in
  let k2 := (tables.TableKey.AfterFind (tables.TableKey.scan k1)).1 in
  tables.TableKey.ApertusEndpoint k1 = Some "https://custom.example.com/"
  ∧ apertus.getBaseURL (samples.provider "" None)
      (cases.endpoint_key "https://custom.example.com/")
    = apertus.getBaseURL (samples.provider "" None) samples.custom_key.
Proof.
  intros k k1 k2.
  destruct (stored_key_resolves_alike (samples.provider "" None) samples.custom_key
              (cases.endpoint_key "https://custom.example.com/") k k1 k2 eq_refl)
    as [Hsame Hcolumn]; [vm_compute; reflexivity..|].
  split; [exact Hcolumn|exact Hsame].
Defined.

End stored_keys.
